(** * GPGMM D3D12 resource allocator: a shallow embedding

    The development follows [src/gpgmm/d3d12/ResourceAllocatorD3D12.cpp]
    (the allocator facade: [GetResourceAllocationInfo], [TryAllocateResource],
    [CreateResourceInternal], [CreateCommittedResource], [QueryInfo],
    [DeallocateMemory]) and [src/d3d12/ResourceAllocationD3D12.cpp]
    ([ResourceAllocation::ReleaseThis]).

    - 64-bit unsigned quantities are [Z] with the wrap-around written out.
    - The allocator stacks, the residency manager and the D3D12 device are
      collaborators whose code is outside the tree; they are interfaces
      (type classes) over an abstract state.
    - Every call the facade makes on a collaborator is appended to a call
      log, so that statements about what is (not) called, and in which
      order, can be made about the log. *)

From Stdlib Require Import ZArith List Bool Lia Permutation.
From Stdlib Require Floats String Ascii HexadecimalString.
Import ListNotations.
Local Open Scope Z_scope.

Set Implicit Arguments.

(** ** Machine integers and HRESULT *)

Definition wrap (bits : Z) (x : Z) : Z := x mod 2 ^ bits.
Definition wrap64 (x : Z) : Z := wrap 64 x.

Definition HRESULT := Z.
Definition S_OK : HRESULT := 0.
Definition E_POINTER : HRESULT := 0x80004003 - 2 ^ 32.
Definition E_FAIL : HRESULT := 0x80004005 - 2 ^ 32.
Definition E_OUTOFMEMORY : HRESULT := 0x8007000E - 2 ^ 32.
Definition E_INVALIDARG : HRESULT := 0x80070057 - 2 ^ 32.

Definition FAILED (hr : HRESULT) : bool := hr <? 0.
Definition SUCCEEDED (hr : HRESULT) : bool := 0 <=? hr.

(** ** D3D12 enumerations and constants used by the allocator *)

Inductive D3D12_HEAP_TYPE :=
| D3D12_HEAP_TYPE_DEFAULT
| D3D12_HEAP_TYPE_UPLOAD
| D3D12_HEAP_TYPE_READBACK
| D3D12_HEAP_TYPE_CUSTOM.

Inductive D3D12_RESOURCE_DIMENSION :=
| D3D12_RESOURCE_DIMENSION_UNKNOWN
| D3D12_RESOURCE_DIMENSION_BUFFER
| D3D12_RESOURCE_DIMENSION_TEXTURE1D
| D3D12_RESOURCE_DIMENSION_TEXTURE2D
| D3D12_RESOURCE_DIMENSION_TEXTURE3D.

Inductive DXGI_MEMORY_SEGMENT_GROUP :=
| DXGI_MEMORY_SEGMENT_GROUP_LOCAL
| DXGI_MEMORY_SEGMENT_GROUP_NON_LOCAL.

Definition D3D12_RESOURCE_HEAP_TIER_1 : Z := 1.
Definition D3D12_RESOURCE_HEAP_TIER_2 : Z := 2.

Definition D3D12_RESOURCE_FLAG_NONE : Z := 0.
Definition D3D12_RESOURCE_FLAG_ALLOW_RENDER_TARGET : Z := 0x1.
Definition D3D12_RESOURCE_FLAG_ALLOW_DEPTH_STENCIL : Z := 0x2.

Definition D3D12_HEAP_FLAG_NONE : Z := 0.
Definition D3D12_HEAP_FLAG_DENY_BUFFERS : Z := 0x4.
Definition D3D12_HEAP_FLAG_DENY_RT_DS_TEXTURES : Z := 0x40.
Definition D3D12_HEAP_FLAG_DENY_NON_RT_DS_TEXTURES : Z := 0x80.
Definition D3D12_HEAP_FLAG_ALLOW_ALL_BUFFERS_AND_TEXTURES : Z := 0.
Definition D3D12_HEAP_FLAG_ALLOW_ONLY_BUFFERS : Z := 0xc0.
Definition D3D12_HEAP_FLAG_ALLOW_ONLY_NON_RT_DS_TEXTURES : Z := 0x44.
Definition D3D12_HEAP_FLAG_ALLOW_ONLY_RT_DS_TEXTURES : Z := 0x84.

Definition D3D12_RESOURCE_STATE_GENERIC_READ : Z := 0xAC3.
Definition D3D12_RESOURCE_STATE_COPY_DEST : Z := 0x400.

Definition D3D12_SMALL_RESOURCE_PLACEMENT_ALIGNMENT : Z := 4096.
Definition D3D12_SMALL_MSAA_RESOURCE_PLACEMENT_ALIGNMENT : Z := 65536.
Definition D3D12_DEFAULT_RESOURCE_PLACEMENT_ALIGNMENT : Z := 65536.
Definition D3D12_DEFAULT_MSAA_RESOURCE_PLACEMENT_ALIGNMENT : Z := 4194304.

(** The fields are the ones [JSONSerializer::Serialize] writes out. *)
Record D3D12_RESOURCE_DESC := {
  Dimension : D3D12_RESOURCE_DIMENSION;
  Alignment : Z;
  Width : Z;
  Height : Z;
  DepthOrArraySize : Z;
  MipLevels : Z;
  Format : Z;
  Layout : Z;
  SampleDesc_Count : Z;
  SampleDesc_Quality : Z;
  Flags : Z
}.

Definition with_Alignment (d : D3D12_RESOURCE_DESC) (a : Z) : D3D12_RESOURCE_DESC :=
  {| Dimension := Dimension d; Alignment := a; Width := Width d;
     Height := Height d; DepthOrArraySize := DepthOrArraySize d;
     MipLevels := MipLevels d; Format := Format d; Layout := Layout d;
     SampleDesc_Count := SampleDesc_Count d;
     SampleDesc_Quality := SampleDesc_Quality d; Flags := Flags d |}.

Record D3D12_RESOURCE_ALLOCATION_INFO := {
  SizeInBytes : Z;
  InfoAlignment : Z
}.

Definition D3D12_CLEAR_VALUE := Z.
Definition D3D12_RESOURCE_STATES := Z.

(** COM objects are handles; a [ComPtr] may be null. *)
Definition ID3D12Resource := Z.
Definition ComPtr := option ID3D12Resource.

Record ALLOCATION_DESC := {
  AllocationFlags : Z;
  HeapType : D3D12_HEAP_TYPE
}.

(** ** Resource heap types (anonymous namespace of the allocator) *)

Inductive RESOURCE_HEAP_TYPE :=
| RESOURCE_HEAP_TYPE_READBACK_ALLOW_ALL_BUFFERS_AND_TEXTURES
| RESOURCE_HEAP_TYPE_UPLOAD_ALLOW_ALL_BUFFERS_AND_TEXTURES
| RESOURCE_HEAP_TYPE_DEFAULT_ALLOW_ALL_BUFFERS_AND_TEXTURES
| RESOURCE_HEAP_TYPE_READBACK_ALLOW_ONLY_BUFFERS
| RESOURCE_HEAP_TYPE_UPLOAD_ALLOW_ONLY_BUFFERS
| RESOURCE_HEAP_TYPE_DEFAULT_ALLOW_ONLY_BUFFERS
| RESOURCE_HEAP_TYPE_DEFAULT_ALLOW_ONLY_NON_RT_OR_DS_TEXTURES
| RESOURCE_HEAP_TYPE_DEFAULT_ALLOW_ONLY_RT_OR_DS_TEXTURES
| RESOURCE_HEAP_TYPE_INVALID.

Definition is_RESOURCE_HEAP_TYPE_INVALID (t : RESOURCE_HEAP_TYPE) : bool :=
  match t with RESOURCE_HEAP_TYPE_INVALID => true | _ => false end.

(** The eight valid heap types, in index order ([kNumOfResourceHeapTypes]). *)
Definition resourceHeapTypes : list RESOURCE_HEAP_TYPE :=
  [ RESOURCE_HEAP_TYPE_READBACK_ALLOW_ALL_BUFFERS_AND_TEXTURES;
    RESOURCE_HEAP_TYPE_UPLOAD_ALLOW_ALL_BUFFERS_AND_TEXTURES;
    RESOURCE_HEAP_TYPE_DEFAULT_ALLOW_ALL_BUFFERS_AND_TEXTURES;
    RESOURCE_HEAP_TYPE_READBACK_ALLOW_ONLY_BUFFERS;
    RESOURCE_HEAP_TYPE_UPLOAD_ALLOW_ONLY_BUFFERS;
    RESOURCE_HEAP_TYPE_DEFAULT_ALLOW_ONLY_BUFFERS;
    RESOURCE_HEAP_TYPE_DEFAULT_ALLOW_ONLY_NON_RT_OR_DS_TEXTURES;
    RESOURCE_HEAP_TYPE_DEFAULT_ALLOW_ONLY_RT_OR_DS_TEXTURES ].

(** [default:] is [UNREACHABLE(); return D3D12_HEAP_TYPE_DEFAULT;]. *)
Definition GetHeapType (resourceHeapType : RESOURCE_HEAP_TYPE) : D3D12_HEAP_TYPE :=
  match resourceHeapType with
  | RESOURCE_HEAP_TYPE_READBACK_ALLOW_ONLY_BUFFERS
  | RESOURCE_HEAP_TYPE_READBACK_ALLOW_ALL_BUFFERS_AND_TEXTURES =>
      D3D12_HEAP_TYPE_READBACK
  | RESOURCE_HEAP_TYPE_DEFAULT_ALLOW_ALL_BUFFERS_AND_TEXTURES
  | RESOURCE_HEAP_TYPE_DEFAULT_ALLOW_ONLY_BUFFERS
  | RESOURCE_HEAP_TYPE_DEFAULT_ALLOW_ONLY_NON_RT_OR_DS_TEXTURES
  | RESOURCE_HEAP_TYPE_DEFAULT_ALLOW_ONLY_RT_OR_DS_TEXTURES =>
      D3D12_HEAP_TYPE_DEFAULT
  | RESOURCE_HEAP_TYPE_UPLOAD_ALLOW_ONLY_BUFFERS
  | RESOURCE_HEAP_TYPE_UPLOAD_ALLOW_ALL_BUFFERS_AND_TEXTURES =>
      D3D12_HEAP_TYPE_UPLOAD
  | RESOURCE_HEAP_TYPE_INVALID => D3D12_HEAP_TYPE_DEFAULT
  end.

(** [default:] is [UNREACHABLE(); return D3D12_HEAP_FLAG_NONE;]. *)
Definition GetHeapFlags (resourceHeapType : RESOURCE_HEAP_TYPE) : Z :=
  match resourceHeapType with
  | RESOURCE_HEAP_TYPE_DEFAULT_ALLOW_ALL_BUFFERS_AND_TEXTURES
  | RESOURCE_HEAP_TYPE_READBACK_ALLOW_ALL_BUFFERS_AND_TEXTURES
  | RESOURCE_HEAP_TYPE_UPLOAD_ALLOW_ALL_BUFFERS_AND_TEXTURES =>
      D3D12_HEAP_FLAG_ALLOW_ALL_BUFFERS_AND_TEXTURES
  | RESOURCE_HEAP_TYPE_DEFAULT_ALLOW_ONLY_BUFFERS
  | RESOURCE_HEAP_TYPE_READBACK_ALLOW_ONLY_BUFFERS
  | RESOURCE_HEAP_TYPE_UPLOAD_ALLOW_ONLY_BUFFERS =>
      D3D12_HEAP_FLAG_ALLOW_ONLY_BUFFERS
  | RESOURCE_HEAP_TYPE_DEFAULT_ALLOW_ONLY_NON_RT_OR_DS_TEXTURES =>
      D3D12_HEAP_FLAG_ALLOW_ONLY_NON_RT_DS_TEXTURES
  | RESOURCE_HEAP_TYPE_DEFAULT_ALLOW_ONLY_RT_OR_DS_TEXTURES =>
      D3D12_HEAP_FLAG_ALLOW_ONLY_RT_DS_TEXTURES
  | RESOURCE_HEAP_TYPE_INVALID => D3D12_HEAP_FLAG_NONE
  end.

Definition GetHeapAlignment (heapFlags : Z) : Z :=
  let denyAllTexturesFlags :=
    Z.lor D3D12_HEAP_FLAG_DENY_RT_DS_TEXTURES
          D3D12_HEAP_FLAG_DENY_NON_RT_DS_TEXTURES in
  if Z.land heapFlags denyAllTexturesFlags =? denyAllTexturesFlags
  then D3D12_DEFAULT_RESOURCE_PLACEMENT_ALIGNMENT
  else D3D12_DEFAULT_MSAA_RESOURCE_PLACEMENT_ALIGNMENT.

Definition flag_set (flags mask : Z) : bool := negb (Z.land flags mask =? 0).

Definition GetResourceHeapType (dimension : D3D12_RESOURCE_DIMENSION)
    (heapType : D3D12_HEAP_TYPE) (flags : Z) (resourceHeapTier : Z)
    : RESOURCE_HEAP_TYPE :=
  if D3D12_RESOURCE_HEAP_TIER_2 <=? resourceHeapTier then
    match heapType with
    | D3D12_HEAP_TYPE_UPLOAD =>
        RESOURCE_HEAP_TYPE_UPLOAD_ALLOW_ALL_BUFFERS_AND_TEXTURES
    | D3D12_HEAP_TYPE_DEFAULT =>
        RESOURCE_HEAP_TYPE_DEFAULT_ALLOW_ALL_BUFFERS_AND_TEXTURES
    | D3D12_HEAP_TYPE_READBACK =>
        RESOURCE_HEAP_TYPE_READBACK_ALLOW_ALL_BUFFERS_AND_TEXTURES
    | D3D12_HEAP_TYPE_CUSTOM => RESOURCE_HEAP_TYPE_INVALID
    end
  else
    match dimension with
    | D3D12_RESOURCE_DIMENSION_BUFFER =>
        match heapType with
        | D3D12_HEAP_TYPE_UPLOAD => RESOURCE_HEAP_TYPE_UPLOAD_ALLOW_ONLY_BUFFERS
        | D3D12_HEAP_TYPE_DEFAULT => RESOURCE_HEAP_TYPE_DEFAULT_ALLOW_ONLY_BUFFERS
        | D3D12_HEAP_TYPE_READBACK => RESOURCE_HEAP_TYPE_READBACK_ALLOW_ONLY_BUFFERS
        | D3D12_HEAP_TYPE_CUSTOM => RESOURCE_HEAP_TYPE_INVALID
        end
    | D3D12_RESOURCE_DIMENSION_TEXTURE1D
    | D3D12_RESOURCE_DIMENSION_TEXTURE2D
    | D3D12_RESOURCE_DIMENSION_TEXTURE3D =>
        match heapType with
        | D3D12_HEAP_TYPE_DEFAULT =>
            if flag_set flags D3D12_RESOURCE_FLAG_ALLOW_DEPTH_STENCIL
               || flag_set flags D3D12_RESOURCE_FLAG_ALLOW_RENDER_TARGET
            then RESOURCE_HEAP_TYPE_DEFAULT_ALLOW_ONLY_RT_OR_DS_TEXTURES
            else RESOURCE_HEAP_TYPE_DEFAULT_ALLOW_ONLY_NON_RT_OR_DS_TEXTURES
        | _ => RESOURCE_HEAP_TYPE_INVALID
        end
    | D3D12_RESOURCE_DIMENSION_UNKNOWN => RESOURCE_HEAP_TYPE_INVALID
    end.

(** [D3D12_HEAP_TYPE_CUSTOM] runs into [UNREACHABLE()] with no return value:
    [None]. *)
Definition GetInitialResourceState (heapType : D3D12_HEAP_TYPE)
    : option D3D12_RESOURCE_STATES :=
  match heapType with
  | D3D12_HEAP_TYPE_DEFAULT
  | D3D12_HEAP_TYPE_UPLOAD => Some D3D12_RESOURCE_STATE_GENERIC_READ
  | D3D12_HEAP_TYPE_READBACK => Some D3D12_RESOURCE_STATE_COPY_DEST
  | D3D12_HEAP_TYPE_CUSTOM => None
  end.

(** ** Memory objects *)

(** [Heap(pageable, memorySegmentGroup, size)]. *)
Record Heap := {
  mPageable : ComPtr;
  mMemorySegmentGroup : DXGI_MEMORY_SEGMENT_GROUP;
  mSize : Z
}.

Record Block := {
  BlockOffset : Z;
  BlockSize : Z
}.

Inductive AllocationMethod :=
| kStandalone
| kSubAllocated
| kSubAllocatedWithin.

(** The allocators an allocation can name as its owner: the facade itself
    ([this]), one of the three per-heap-type arrays of the facade, or an
    allocator nested inside one of those stacks. *)
Inductive AllocatorRef :=
| ThisResourceAllocator
| ResourceAllocatorOfType (t : RESOURCE_HEAP_TYPE)
| ResourceHeapAllocatorOfType (t : RESOURCE_HEAP_TYPE)
| BufferAllocatorOfType (t : RESOURCE_HEAP_TYPE)
| InnerAllocator (n : nat).

Record MemoryAllocation := {
  mAllocator : option AllocatorRef;
  mMemory : option Heap;
  mOffset : Z;
  mMethod : AllocationMethod;
  mBlock : option Block
}.

Definition GetAllocator (a : MemoryAllocation) := mAllocator a.
Definition GetMemory (a : MemoryAllocation) := mMemory a.
Definition GetOffset (a : MemoryAllocation) := mOffset a.
Definition GetMethod (a : MemoryAllocation) := mMethod a.
Definition GetBlock (a : MemoryAllocation) := mBlock a.

(** Modelled from the spec: [MemoryAllocation::GetSize] (MemoryAllocation.cpp
    is not in the tree).  A standalone allocation is "returned as a
    full-extent allocation" of its own backing memory, so its size is the
    memory's; a sub-allocation has the size of its block.  A missing memory
    or block is an assertion failure: [None]. *)
Definition GetSize (a : MemoryAllocation) : option Z :=
  match mMethod a with
  | kStandalone => option_map mSize (mMemory a)
  | kSubAllocated | kSubAllocatedWithin => option_map BlockSize (mBlock a)
  end.

(** Modelled from the spec: [MemoryAllocation::Reset] (MemoryAllocation.cpp is
    not in the tree).  Release is "idempotent on an already-released
    allocation": a released allocation no longer records the allocator, the
    memory or the block it came from. *)
Definition Reset (a : MemoryAllocation) : MemoryAllocation :=
  {| mAllocator := None; mMemory := None; mOffset := mOffset a;
     mMethod := mMethod a; mBlock := None |}.

Inductive ResidencyManagerPtr := TheResidencyManager.

(** [ResourceAllocation] extends [MemoryAllocation]. *)
Record ResourceAllocation := {
  base : MemoryAllocation;
  raResidencyManager : option ResidencyManagerPtr;
  mResource : ComPtr
}.

(** ** Constants declared in headers that are not part of the tree *)

Class HeaderConstants := {
  kInvalidSize : Z;
  kInvalidOffset : Z;
  ALLOCATION_FLAG_NEVER_ALLOCATE_MEMORY : Z;
  ALLOCATION_FLAG_ALLOW_SUBALLOCATE_WITHIN_RESOURCE : Z;
  ALLOCATION_FLAG_NEVER_SUBALLOCATE_MEMORY : Z;
  ALLOCATION_FLAG_ALWAYS_PREFETCH_MEMORY : Z;
  (** width of the [UsedMemoryCount] counter *)
  kCountBits : Z
}.

(** ** Allocator statistics *)

Record MEMORY_ALLOCATOR_INFO := {
  UsedBlockUsage : Z;
  UsedMemoryCount : Z;
  UsedMemoryUsage : Z;
  FreeMemoryUsage : Z
}.
Definition QUERY_RESOURCE_ALLOCATOR_INFO := MEMORY_ALLOCATOR_INFO.

Definition zero_info : MEMORY_ALLOCATOR_INFO :=
  {| UsedBlockUsage := 0; UsedMemoryCount := 0;
     UsedMemoryUsage := 0; FreeMemoryUsage := 0 |}.

Section Info.
Context {K : HeaderConstants}.

(** Modelled from the spec: [operator+=] on the info structure (declared
    outside the tree); [query_info] is "aggregating" the four counters. *)
Definition info_add (a b : MEMORY_ALLOCATOR_INFO) : MEMORY_ALLOCATOR_INFO :=
  {| UsedBlockUsage := wrap64 (UsedBlockUsage a + UsedBlockUsage b);
     UsedMemoryCount := wrap kCountBits (UsedMemoryCount a + UsedMemoryCount b);
     UsedMemoryUsage := wrap64 (UsedMemoryUsage a + UsedMemoryUsage b);
     FreeMemoryUsage := wrap64 (FreeMemoryUsage a + FreeMemoryUsage b) |}.

(** [mInfo.UsedMemoryUsage += size; mInfo.UsedMemoryCount++;] *)
Definition info_add_memory (i : MEMORY_ALLOCATOR_INFO) (size : Z) :=
  {| UsedBlockUsage := UsedBlockUsage i;
     UsedMemoryCount := wrap kCountBits (UsedMemoryCount i + 1);
     UsedMemoryUsage := wrap64 (UsedMemoryUsage i + size);
     FreeMemoryUsage := FreeMemoryUsage i |}.

(** [mInfo.UsedMemoryUsage -= size; mInfo.UsedMemoryCount--;] *)
Definition info_sub_memory (i : MEMORY_ALLOCATOR_INFO) (size : Z) :=
  {| UsedBlockUsage := UsedBlockUsage i;
     UsedMemoryCount := wrap kCountBits (UsedMemoryCount i - 1);
     UsedMemoryUsage := wrap64 (UsedMemoryUsage i - size);
     FreeMemoryUsage := FreeMemoryUsage i |}.

Definition info_in_range (i : MEMORY_ALLOCATOR_INFO) : Prop :=
  0 <= UsedMemoryUsage i < 2 ^ 64 /\
  0 <= UsedMemoryCount i < 2 ^ kCountBits.
End Info.

(** ** Collaborators *)

(** The [MemoryAllocator] interface, for the whole family of allocator
    stacks the facade owns.  The state [M] is shared by all of them: an
    allocation obtained through the top of a stack may be released through
    the inner allocator it records. *)
Class MemoryAllocator (M : Type) := {
  GetMemorySize : AllocatorRef -> M -> Z;
  TryAllocateMemory :
    AllocatorRef -> Z -> Z -> bool -> bool -> bool -> M ->
    option MemoryAllocation * M;
  DeallocateMemory : AllocatorRef -> MemoryAllocation -> M -> M;
  AllocatorQueryInfo : AllocatorRef -> M -> MEMORY_ALLOCATOR_INFO
}.

Class ResidencyManager (R : Type) := {
  Evict : Z -> DXGI_MEMORY_SEGMENT_GROUP -> R -> HRESULT * R;
  InsertHeap : Heap -> R -> R;
  LockHeap : Heap -> R -> R;
  UnlockHeap : Heap -> R -> R
}.

(** The device, and the helpers of Math.h and UtilsD3D12.h that the
    allocator calls. *)
Class Device (D : Type) := {
  DeviceGetResourceAllocationInfo :
    D -> D3D12_RESOURCE_DESC -> D3D12_RESOURCE_ALLOCATION_INFO;
  DeviceCreatePlacedResource :
    Heap -> Z -> D3D12_RESOURCE_DESC -> D3D12_RESOURCE_STATES ->
    option D3D12_CLEAR_VALUE -> D -> (HRESULT * ComPtr) * D;
  DeviceCreateCommittedResource :
    D3D12_HEAP_TYPE -> Z -> D3D12_RESOURCE_DESC -> D3D12_RESOURCE_STATES ->
    option D3D12_CLEAR_VALUE -> D -> (HRESULT * ComPtr) * D;
  (** [heap->GetPageable().As(&resource)] *)
  PageableAsResource : D -> ComPtr -> HRESULT * ComPtr;
  GetPreferredMemorySegmentGroup :
    D -> bool -> D3D12_HEAP_TYPE -> DXGI_MEMORY_SEGMENT_GROUP;
  AlignTo : Z -> Z -> Z;
  IsAllowedToUseSmallAlignment : D3D12_RESOURCE_DESC -> bool
}.

(** ** The call log *)

Inductive Call :=
| CallTryAllocateMemory (allocator : AllocatorRef) (size alignment : Z)
    (neverAllocate cacheSize prefetchMemory : bool)
    (result : option MemoryAllocation)
| CallDeallocateMemory (allocator : AllocatorRef) (allocation : MemoryAllocation)
| CallEvict (size : Z) (group : DXGI_MEMORY_SEGMENT_GROUP) (hr : HRESULT)
| CallInsertHeap (heap : Heap)
| CallLockHeap (heap : Heap)
| CallUnlockHeap (heap : Heap)
| CallCreatePlacedResource (heap : Heap) (offset : Z) (hr : HRESULT)
| CallCreateCommittedResource (heapType : D3D12_HEAP_TYPE) (heapFlags : Z)
    (hr : HRESULT)
| CallSafeRelease (allocation : MemoryAllocation).

(** ** The facade object and the world it runs in *)

Record ResourceAllocator (M R D : Type) := {
  mDevice : D;
  mResidencyManager : option R;
  (** [mCaps->GetMaxResourceSize()] *)
  mCapsMaxResourceSize : Z;
  mIsUMA : bool;
  mResourceHeapTier : Z;
  mIsAlwaysCommitted : bool;
  mIsAlwaysInBudget : bool;
  mMaxResourceHeapSize : Z;
  mInfo : MEMORY_ALLOCATOR_INFO;
  (** [mResourceAllocatorOfType], [mResourceHeapAllocatorOfType] and
      [mBufferAllocatorOfType], addressed by [AllocatorRef] *)
  mAllocators : M
}.

(** [this], the caller's slot behind [resourceAllocationOut], and the call
    log. *)
Record World (M R D : Type) := {
  this : ResourceAllocator M R D;
  resourceAllocationOut : option ResourceAllocation;
  calls : list Call
}.

Section Setters.
Context {M R D : Type}.
Implicit Types (a : ResourceAllocator M R D) (w : World M R D).

Definition set_mDevice a (d : D) : ResourceAllocator M R D :=
  {| mDevice := d; mResidencyManager := mResidencyManager a;
     mCapsMaxResourceSize := mCapsMaxResourceSize a; mIsUMA := mIsUMA a;
     mResourceHeapTier := mResourceHeapTier a;
     mIsAlwaysCommitted := mIsAlwaysCommitted a;
     mIsAlwaysInBudget := mIsAlwaysInBudget a;
     mMaxResourceHeapSize := mMaxResourceHeapSize a;
     mInfo := mInfo a; mAllocators := mAllocators a |}.

Definition set_mResidencyManager a (r : option R) : ResourceAllocator M R D :=
  {| mDevice := mDevice a; mResidencyManager := r;
     mCapsMaxResourceSize := mCapsMaxResourceSize a; mIsUMA := mIsUMA a;
     mResourceHeapTier := mResourceHeapTier a;
     mIsAlwaysCommitted := mIsAlwaysCommitted a;
     mIsAlwaysInBudget := mIsAlwaysInBudget a;
     mMaxResourceHeapSize := mMaxResourceHeapSize a;
     mInfo := mInfo a; mAllocators := mAllocators a |}.

Definition set_mInfo a (i : MEMORY_ALLOCATOR_INFO) : ResourceAllocator M R D :=
  {| mDevice := mDevice a; mResidencyManager := mResidencyManager a;
     mCapsMaxResourceSize := mCapsMaxResourceSize a; mIsUMA := mIsUMA a;
     mResourceHeapTier := mResourceHeapTier a;
     mIsAlwaysCommitted := mIsAlwaysCommitted a;
     mIsAlwaysInBudget := mIsAlwaysInBudget a;
     mMaxResourceHeapSize := mMaxResourceHeapSize a;
     mInfo := i; mAllocators := mAllocators a |}.

Definition set_mAllocators a (m : M) : ResourceAllocator M R D :=
  {| mDevice := mDevice a; mResidencyManager := mResidencyManager a;
     mCapsMaxResourceSize := mCapsMaxResourceSize a; mIsUMA := mIsUMA a;
     mResourceHeapTier := mResourceHeapTier a;
     mIsAlwaysCommitted := mIsAlwaysCommitted a;
     mIsAlwaysInBudget := mIsAlwaysInBudget a;
     mMaxResourceHeapSize := mMaxResourceHeapSize a;
     mInfo := mInfo a; mAllocators := m |}.

Definition set_this w (a : ResourceAllocator M R D) : World M R D :=
  {| this := a; resourceAllocationOut := resourceAllocationOut w;
     calls := calls w |}.

Definition set_out w (o : option ResourceAllocation) : World M R D :=
  {| this := this w; resourceAllocationOut := o; calls := calls w |}.

Definition add_call w (c : Call) : World M R D :=
  {| this := this w; resourceAllocationOut := resourceAllocationOut w;
     calls := calls w ++ [c] |}.
End Setters.

(** ** A state monad with abort

    [None] is a run that does not return: a failed [ASSERT], a null
    dereference, [UNREACHABLE()]. *)

Definition St (W A : Type) : Type := W -> option (A * W).

Definition ret {W A} (a : A) : St W A := fun w => Some (a, w).

Definition bind {W A B} (m : St W A) (k : A -> St W B) : St W B :=
  fun w => match m w with
           | Some (a, w') => k a w'
           | None => None
           end.

Definition abort {W A} : St W A := fun _ => None.
Definition gets {W A} (f : W -> A) : St W A := fun w => Some (f w, w).
Definition modify {W} (f : W -> W) : St W unit := fun w => Some (tt, f w).

Declare Scope st_scope.
Delimit Scope st_scope with st.
Notation "x <- m ;; k" := (bind m (fun x => k))
  (at level 100, m at next level, right associativity) : st_scope.
Notation "m ;;; k" := (bind m (fun _ => k))
  (at level 100, right associativity) : st_scope.

(** [ReturnIfFailed(expr)] and [ReturnIfSucceeded(expr)] followed by the rest
    of the function body. *)
Definition ReturnIfFailed {W} (expr : St W HRESULT) (rest : St W HRESULT)
    : St W HRESULT :=
  bind expr (fun hr => if FAILED hr then ret hr else rest).

Definition ReturnIfSucceeded {W} (expr : St W HRESULT) (rest : St W HRESULT)
    : St W HRESULT :=
  bind expr (fun hr => if SUCCEEDED hr then ret hr else rest).

(** [if (cond) { ReturnIfSucceeded(expr); }] followed by the rest. *)
Definition ReturnIfSucceededWhen {W} (cond : bool) (expr : St W HRESULT)
    (rest : St W HRESULT) : St W HRESULT :=
  if cond then ReturnIfSucceeded expr rest else rest.

(** ** The allocator facade *)

Definition is_buffer (d : D3D12_RESOURCE_DIMENSION) : bool :=
  match d with D3D12_RESOURCE_DIMENSION_BUFFER => true | _ => false end.

Definition is_texture (d : D3D12_RESOURCE_DIMENSION) : bool :=
  match d with
  | D3D12_RESOURCE_DIMENSION_TEXTURE1D
  | D3D12_RESOURCE_DIMENSION_TEXTURE2D
  | D3D12_RESOURCE_DIMENSION_TEXTURE3D => true
  | _ => false
  end.

(** The seven-argument constructor, as the call sites label its arguments:
    [(residencyManager, allocator, offsetFromHeap, block, method, resource,
    heap)]. *)
Definition new_ResourceAllocation (residencyManager : option ResidencyManagerPtr)
    (allocator : option AllocatorRef) (offsetFromHeap : Z)
    (block : option Block) (method : AllocationMethod)
    (resource : ComPtr) (heap : option Heap) : ResourceAllocation :=
  {| base := {| mAllocator := allocator; mMemory := heap;
                mOffset := offsetFromHeap; mMethod := method;
                mBlock := block |};
     raResidencyManager := residencyManager;
     mResource := resource |}.

(** Modelled from the spec: the six-argument constructor
    [(residencyManager, allocator, block, offsetFromResource, resource, heap)]
    (ResourceAllocationD3D12.h is not in the tree), used for an allocation
    of method "SubAllocatedWithinResource". *)
Definition new_ResourceAllocation_within
    (residencyManager : option ResidencyManagerPtr)
    (allocator : option AllocatorRef) (block : option Block)
    (offsetFromResource : Z) (resource : ComPtr) (heap : option Heap)
    : ResourceAllocation :=
  {| base := {| mAllocator := allocator; mMemory := heap;
                mOffset := offsetFromResource;
                mMethod := kSubAllocatedWithin; mBlock := block |};
     raResidencyManager := residencyManager;
     mResource := resource |}.

Section Facade.
Context {K : HeaderConstants} {M R D : Type}.
Context {MA : MemoryAllocator M} {RM : ResidencyManager R} {DV : Device D}.

Local Abbreviation W := (World M R D).
Local Open Scope st_scope.

(** *** [GetResourceAllocationInfo] *)

(** Lines 77-109: what the device reports for the descriptor, after the
    small-alignment attempt; the second component is the descriptor as
    the function leaves it. *)
Definition QueryResourceAllocationInfo (device : D)
    (resourceDescriptor : D3D12_RESOURCE_DESC)
    : D3D12_RESOURCE_ALLOCATION_INFO * D3D12_RESOURCE_DESC :=
  let resourceDescriptor :=
    if is_texture (Dimension resourceDescriptor)
       && IsAllowedToUseSmallAlignment resourceDescriptor
       && (Z.land (Flags resourceDescriptor)
                  (Z.lor D3D12_RESOURCE_FLAG_ALLOW_RENDER_TARGET
                         D3D12_RESOURCE_FLAG_ALLOW_DEPTH_STENCIL) =? 0)
    then with_Alignment resourceDescriptor
           (if 1 <? SampleDesc_Count resourceDescriptor
            then D3D12_SMALL_MSAA_RESOURCE_PLACEMENT_ALIGNMENT
            else D3D12_SMALL_RESOURCE_PLACEMENT_ALIGNMENT)
    else resourceDescriptor in
  let resourceInfo := DeviceGetResourceAllocationInfo device resourceDescriptor in
  if negb (Alignment resourceDescriptor =? 0)
     && negb (Alignment resourceDescriptor =? InfoAlignment resourceInfo)
  then
    let resourceDescriptor := with_Alignment resourceDescriptor 0 in
    (DeviceGetResourceAllocationInfo device resourceDescriptor, resourceDescriptor)
  else (resourceInfo, resourceDescriptor).

Definition UsesBufferAlignment (resourceDescriptor : D3D12_RESOURCE_DESC) : bool :=
  (Alignment resourceDescriptor =? 0) && is_buffer (Dimension resourceDescriptor).

Definition GetResourceAllocationInfo (device : D)
    (resourceDescriptor : D3D12_RESOURCE_DESC)
    : D3D12_RESOURCE_ALLOCATION_INFO * D3D12_RESOURCE_DESC :=
  if UsesBufferAlignment resourceDescriptor then
    ({| SizeInBytes := AlignTo (Width resourceDescriptor)
                               D3D12_DEFAULT_RESOURCE_PLACEMENT_ALIGNMENT;
        InfoAlignment := D3D12_DEFAULT_RESOURCE_PLACEMENT_ALIGNMENT |},
     resourceDescriptor)
  else
    let '(resourceInfo, resourceDescriptor) :=
      QueryResourceAllocationInfo device resourceDescriptor in
    (if SizeInBytes resourceInfo =? 0
     then {| SizeInBytes := kInvalidSize;
             InfoAlignment := InfoAlignment resourceInfo |}
     else resourceInfo,
     resourceDescriptor).

(** *** Calls on the collaborators *)

Definition log (c : Call) : St W unit := modify (fun w => add_call w c).

Definition allocator_GetMemorySize (allocator : AllocatorRef) : St W Z :=
  gets (fun w => GetMemorySize allocator (mAllocators (this w))).

Definition allocator_TryAllocateMemory (allocator : AllocatorRef)
    (size alignment : Z) (neverAllocate cacheSize prefetchMemory : bool)
    : St W (option MemoryAllocation) :=
  fun w =>
    let '(allocation, m) :=
      TryAllocateMemory allocator size alignment neverAllocate cacheSize
                        prefetchMemory (mAllocators (this w)) in
    Some (allocation,
          add_call (set_this w (set_mAllocators (this w) m))
            (CallTryAllocateMemory allocator size alignment neverAllocate
               cacheSize prefetchMemory allocation)).

(** [ResourceAllocator::DeallocateMemory] *)
Definition ResourceAllocator_DeallocateMemory (allocation : MemoryAllocation)
    : St W unit :=
  match GetSize allocation with
  | None => abort
  | Some size =>
      modify (fun w =>
        set_this w (set_mInfo (this w) (info_sub_memory (mInfo (this w)) size))) ;;;
      log (CallSafeRelease allocation)
  end.

(** [allocator->DeallocateMemory(allocation)]: the facade is itself an
    allocator, every other reference is one of the stacks. *)
Definition allocator_DeallocateMemory (allocator : AllocatorRef)
    (allocation : MemoryAllocation) : St W unit :=
  log (CallDeallocateMemory allocator allocation) ;;;
  match allocator with
  | ThisResourceAllocator => ResourceAllocator_DeallocateMemory allocation
  | _ =>
      modify (fun w =>
        set_this w (set_mAllocators (this w)
          (DeallocateMemory allocator allocation (mAllocators (this w)))))
  end.

(** [mResidencyManager.Get()] *)
Definition residency_Get : St W (option ResidencyManagerPtr) :=
  gets (fun w => match mResidencyManager (this w) with
                 | Some _ => Some TheResidencyManager
                 | None => None
                 end).

Definition residency_Evict (size : Z) (group : DXGI_MEMORY_SEGMENT_GROUP)
    : St W HRESULT :=
  fun w =>
    match mResidencyManager (this w) with
    | None => None
    | Some r =>
        let '(hr, r') := Evict size group r in
        Some (hr, add_call (set_this w (set_mResidencyManager (this w) (Some r')))
                    (CallEvict size group hr))
    end.

Definition has_ResidencyManager (self : ResourceAllocator M R D) : bool :=
  match mResidencyManager self with Some _ => true | None => false end.

(** The three guarded calls: nothing happens without a residency manager. *)
Definition residency_update (f : R -> R) (c : Call) : St W unit :=
  fun w =>
    match mResidencyManager (this w) with
    | None => Some (tt, w)
    | Some r =>
        Some (tt, add_call (set_this w (set_mResidencyManager (this w) (Some (f r)))) c)
    end.

Definition device_CreatePlacedResource (heap : Heap) (offset : Z)
    (resourceDescriptor : D3D12_RESOURCE_DESC)
    (initialResourceState : D3D12_RESOURCE_STATES)
    (clearValue : option D3D12_CLEAR_VALUE) : St W (HRESULT * ComPtr) :=
  fun w =>
    let '(r, d) :=
      DeviceCreatePlacedResource heap offset resourceDescriptor
        initialResourceState clearValue (mDevice (this w)) in
    Some (r, add_call (set_this w (set_mDevice (this w) d))
               (CallCreatePlacedResource heap offset (fst r))).

Definition device_CreateCommittedResource (heapType : D3D12_HEAP_TYPE)
    (heapFlags : Z) (resourceDescriptor : D3D12_RESOURCE_DESC)
    (initialResourceState : D3D12_RESOURCE_STATES)
    (clearValue : option D3D12_CLEAR_VALUE) : St W (HRESULT * ComPtr) :=
  fun w =>
    let '(r, d) :=
      DeviceCreateCommittedResource heapType heapFlags resourceDescriptor
        initialResourceState clearValue (mDevice (this w)) in
    Some (r, add_call (set_this w (set_mDevice (this w) d))
               (CallCreateCommittedResource heapType heapFlags (fst r))).

(** *** [TryAllocateResource] *)

Definition TryAllocateResource (allocator : AllocatorRef)
    (size alignment : Z) (neverAllocate cacheSize prefetchMemory : bool)
    (createResourceFn : MemoryAllocation -> St W HRESULT) : St W HRESULT :=
  memorySize <- allocator_GetMemorySize allocator ;;
  if negb (memorySize =? kInvalidSize) && (memorySize <? size) then
    ret E_FAIL
  else
    allocation <- allocator_TryAllocateMemory allocator size alignment
                    neverAllocate cacheSize prefetchMemory ;;
    match allocation with
    | None => ret E_FAIL
    | Some allocation =>
        hr <- createResourceFn allocation ;;
        if FAILED hr then
          allocator_DeallocateMemory allocator allocation ;;;
          ret hr
        else ret hr
    end.

(** *** [CreatePlacedResource] and [CreateCommittedResource] *)

(** [ReturnIfFailed] in a function with out-parameters: they stay unset. *)
Definition ReturnIfFailedOut {A} (expr : St W HRESULT)
    (rest : St W (HRESULT * option A)) : St W (HRESULT * option A) :=
  bind expr (fun hr => if FAILED hr then ret (hr, None) else rest).

(** The result carries the out-parameter [placedResourceOut]. *)
Definition CreatePlacedResource (resourceHeap : option Heap)
    (resourceOffset : Z) (resourceDescriptor : D3D12_RESOURCE_DESC)
    (clearValue : option D3D12_CLEAR_VALUE)
    (initialResourceState : D3D12_RESOURCE_STATES)
    : St W (HRESULT * option ComPtr) :=
  match resourceHeap with
  | None => abort
  | Some heap =>
      residency_update (LockHeap heap) (CallLockHeap heap) ;;;
      r <- device_CreatePlacedResource heap resourceOffset resourceDescriptor
             initialResourceState clearValue ;;
      residency_update (UnlockHeap heap) (CallUnlockHeap heap) ;;;
      ReturnIfFailedOut (ret (fst r)) (ret (S_OK, Some (snd r)))
  end.

(** The result carries the out-parameters [commitedResourceOut] and
    [resourceHeapOut]. *)
Definition CreateCommittedResource (heapType : D3D12_HEAP_TYPE)
    (heapFlags : Z) (resourceSize : Z)
    (resourceDescriptor : D3D12_RESOURCE_DESC)
    (clearValue : option D3D12_CLEAR_VALUE)
    (initialResourceState : D3D12_RESOURCE_STATES)
    : St W (HRESULT * option (ComPtr * Heap)) :=
  self <- gets (@this M R D) ;;
  let memorySegmentGroup :=
    GetPreferredMemorySegmentGroup (mDevice self) (mIsUMA self) heapType in
  let rest : St W (HRESULT * option (ComPtr * Heap)) :=
    let heapFlags :=
      Z.land heapFlags
        (Z.lnot (Z.lor (Z.lor D3D12_HEAP_FLAG_DENY_NON_RT_DS_TEXTURES
                              D3D12_HEAP_FLAG_DENY_RT_DS_TEXTURES)
                       D3D12_HEAP_FLAG_DENY_BUFFERS)) in
    r <- device_CreateCommittedResource heapType heapFlags resourceDescriptor
           initialResourceState clearValue ;;
    ReturnIfFailedOut (ret (fst r))
      (let committedResource := snd r in
       let resourceHeap :=
         {| mPageable := committedResource;
            mMemorySegmentGroup := memorySegmentGroup;
            mSize := resourceSize |} in
       residency_update (InsertHeap resourceHeap) (CallInsertHeap resourceHeap) ;;;
       ret (S_OK, Some (committedResource, resourceHeap))) in
  if mIsAlwaysInBudget self && has_ResidencyManager self
  then ReturnIfFailedOut (residency_Evict resourceSize memorySegmentGroup) rest
  else rest.

(** *** [CreateResourceInternal] *)

Definition set_resourceAllocationOut (r : ResourceAllocation) : St W unit :=
  modify (fun w => set_out w (Some r)).

(** The lambda of the sub-allocation-within-a-resource attempt. *)
Definition createWithinResource (subAllocation : MemoryAllocation)
    : St W HRESULT :=
  match GetMemory subAllocation with
  | None => abort
  | Some resourceHeap =>
      device <- gets (fun w => mDevice (this w)) ;;
      let '(hr, committedResource) :=
        PageableAsResource device (mPageable resourceHeap) in
      ReturnIfFailed (ret hr)
        (residencyManager <- residency_Get ;;
         set_resourceAllocationOut
           (new_ResourceAllocation_within residencyManager
              (GetAllocator subAllocation) (GetBlock subAllocation)
              (GetOffset subAllocation) committedResource (Some resourceHeap)) ;;;
         ret S_OK)
  end.

(** The lambda of the two placed-resource attempts. *)
Definition createPlaced (newResourceDesc : D3D12_RESOURCE_DESC)
    (clearValue : option D3D12_CLEAR_VALUE)
    (initialResourceState : D3D12_RESOURCE_STATES)
    (subAllocation : MemoryAllocation) : St W HRESULT :=
  let resourceHeap := GetMemory subAllocation in
  r <- CreatePlacedResource resourceHeap (GetOffset subAllocation)
         newResourceDesc clearValue initialResourceState ;;
  ReturnIfFailed (ret (fst r))
    (residencyManager <- residency_Get ;;
     set_resourceAllocationOut
       (new_ResourceAllocation residencyManager
          (GetAllocator subAllocation) (GetOffset subAllocation)
          (GetBlock subAllocation) (GetMethod subAllocation)
          (match snd r with Some p => p | None => None end) resourceHeap) ;;;
     ret S_OK).

(** Lines 785-816: the standalone committed resource. *)
Definition createCommitted (allocationDescriptor : ALLOCATION_DESC)
    (heapFlags : Z) (resourceInfo : D3D12_RESOURCE_ALLOCATION_INFO)
    (newResourceDesc : D3D12_RESOURCE_DESC)
    (clearValue : option D3D12_CLEAR_VALUE)
    (initialResourceState : D3D12_RESOURCE_STATES) : St W HRESULT :=
  r <- CreateCommittedResource (HeapType allocationDescriptor) heapFlags
         (SizeInBytes resourceInfo) newResourceDesc clearValue
         initialResourceState ;;
  ReturnIfFailed (ret (fst r))
    match snd r with
    | None => abort
    | Some (committedResource, resourceHeap) =>
        modify (fun w =>
          set_this w (set_mInfo (this w)
            (info_add_memory (mInfo (this w)) (mSize resourceHeap)))) ;;;
        residencyManager <- residency_Get ;;
        set_resourceAllocationOut
          (new_ResourceAllocation residencyManager
             (Some ThisResourceAllocator) kInvalidOffset None kStandalone
             committedResource (Some resourceHeap)) ;;;
        ret S_OK
    end.

Definition CreateResourceInternal (allocationDescriptor : ALLOCATION_DESC)
    (resourceDescriptor : D3D12_RESOURCE_DESC)
    (initialResourceState : D3D12_RESOURCE_STATES)
    (clearValue : option D3D12_CLEAR_VALUE) : St W HRESULT :=
  self <- gets (@this M R D) ;;
  let '(resourceInfo, newResourceDesc) :=
    GetResourceAllocationInfo (mDevice self) resourceDescriptor in
  if SizeInBytes resourceInfo =? kInvalidSize then ret E_OUTOFMEMORY else
  if (mMaxResourceHeapSize self <? SizeInBytes resourceInfo)
     || (mCapsMaxResourceSize self <? SizeInBytes resourceInfo)
  then ret E_OUTOFMEMORY else
  let resourceHeapType :=
    GetResourceHeapType (Dimension newResourceDesc)
      (HeapType allocationDescriptor) (Flags newResourceDesc)
      (mResourceHeapTier self) in
  if is_RESOURCE_HEAP_TYPE_INVALID resourceHeapType then ret E_INVALIDARG else
  let neverAllocate :=
    flag_set (AllocationFlags allocationDescriptor)
             ALLOCATION_FLAG_NEVER_ALLOCATE_MEMORY in
  let neverSubAllocate :=
    flag_set (AllocationFlags allocationDescriptor)
             ALLOCATION_FLAG_NEVER_SUBALLOCATE_MEMORY in
  let prefetchMemory :=
    flag_set (AllocationFlags allocationDescriptor)
             ALLOCATION_FLAG_ALWAYS_PREFETCH_MEMORY in
  ReturnIfSucceededWhen
    (flag_set (AllocationFlags allocationDescriptor)
              ALLOCATION_FLAG_ALLOW_SUBALLOCATE_WITHIN_RESOURCE
     && (Width newResourceDesc <? InfoAlignment resourceInfo)
     && is_buffer (Dimension newResourceDesc)
     && match GetInitialResourceState (HeapType allocationDescriptor) with
        | Some state => state =? initialResourceState
        | None => false
        end
     && negb (mIsAlwaysCommitted self) && negb neverSubAllocate)
    (let allocator := BufferAllocatorOfType resourceHeapType in
     let alignment :=
       if Alignment newResourceDesc =? 0 then 1 else Alignment newResourceDesc in
     TryAllocateResource allocator (Width newResourceDesc) alignment
       neverAllocate false false
       createWithinResource)
 (ReturnIfSucceededWhen
    (negb (mIsAlwaysCommitted self) && negb neverSubAllocate)
    (let allocator := ResourceAllocatorOfType resourceHeapType in
     TryAllocateResource allocator (SizeInBytes resourceInfo)
       (InfoAlignment resourceInfo) neverAllocate prefetchMemory false
       (createPlaced newResourceDesc clearValue initialResourceState))
 (let heapFlags := GetHeapFlags resourceHeapType in
  ReturnIfSucceededWhen
    (negb (mIsAlwaysCommitted self))
    (let allocator := ResourceHeapAllocatorOfType resourceHeapType in
     TryAllocateResource allocator (SizeInBytes resourceInfo)
       (GetHeapAlignment heapFlags) neverAllocate false false
       (createPlaced newResourceDesc clearValue initialResourceState))
 (if neverAllocate then ret E_OUTOFMEMORY else
  createCommitted allocationDescriptor heapFlags resourceInfo newResourceDesc
    clearValue initialResourceState))).

(** [CreateResource]: the public entry point.  The timers and trace events
    have no effect on the allocator. *)
Definition CreateResource (hasResourceAllocationOut : bool)
    (allocationDescriptor : ALLOCATION_DESC)
    (resourceDescriptor : D3D12_RESOURCE_DESC)
    (initialResourceState : D3D12_RESOURCE_STATES)
    (clearValue : option D3D12_CLEAR_VALUE) : St W HRESULT :=
  if negb hasResourceAllocationOut then ret E_POINTER else
  ReturnIfFailed
    (CreateResourceInternal allocationDescriptor resourceDescriptor
       initialResourceState clearValue)
    (ret S_OK).

(** *** [QueryInfo] *)

Definition QueryInfo (self : ResourceAllocator M R D)
    : QUERY_RESOURCE_ALLOCATOR_INFO :=
  let add (ref : RESOURCE_HEAP_TYPE -> AllocatorRef) result :=
    fold_left
      (fun result t =>
         info_add result (AllocatorQueryInfo (ref t) (mAllocators self)))
      resourceHeapTypes result in
  add ResourceHeapAllocatorOfType
    (add BufferAllocatorOfType
       (add ResourceAllocatorOfType (mInfo self))).

(** *** [ResourceAllocation::ReleaseThis]

    [self] is the object pointer, which the function compares with null. *)
Definition ReleaseThis (self : option ResourceAllocation)
    : St W (option ResourceAllocation) :=
  match self with
  | None => ret None
  | Some allocation =>
      match GetAllocator (base allocation) with
      | Some allocator =>
          allocator_DeallocateMemory allocator (base allocation)
      | None => ret tt
      end ;;;
      ret (Some {| base := Reset (base allocation);
                   raResidencyManager := raResidencyManager allocation;
                   mResource := None |})
  end.

End Facade.

(** * The vocabulary of the statements *)

(** A transition relation [I] that every run of [m] respects. *)
Definition steps {W A} (I : W -> W -> Prop) (m : St W A) : Prop :=
  forall w a w', m w = Some (a, w') -> I w w'.

(** The calls logged since an earlier world. *)
Definition new_calls {M R D} (w w' : World M R D) : list Call :=
  skipn (length (calls w)) (calls w').

Definition is_CallCreateCommittedResource (c : Call) : bool :=
  match c with CallCreateCommittedResource _ _ _ => true | _ => false end.

(** What the three sub-allocation attempts of [CreateResourceInternal] may
    call: [TryAllocateMemory] on one of the three arrays, with these flags;
    [DeallocateMemory] on a stack; the placement of a resource. *)
Definition attempt_call (neverAllocate prefetchMemory : bool) (c : Call) : Prop :=
  match c with
  | CallTryAllocateMemory (ResourceAllocatorOfType _) _ _ nv cs pf _ =>
      nv = neverAllocate /\ cs = prefetchMemory /\ pf = false
  | CallTryAllocateMemory (BufferAllocatorOfType _) _ _ nv cs pf _
  | CallTryAllocateMemory (ResourceHeapAllocatorOfType _) _ _ nv cs pf _ =>
      nv = neverAllocate /\ cs = false /\ pf = false
  | CallDeallocateMemory (ResourceAllocatorOfType _) _
  | CallDeallocateMemory (BufferAllocatorOfType _) _
  | CallDeallocateMemory (ResourceHeapAllocatorOfType _) _ => True
  | CallLockHeap _ | CallUnlockHeap _ | CallCreatePlacedResource _ _ _ => True
  | _ => False
  end.

(** The calls of the resource-creation lambdas. *)
Definition placement_call (c : Call) : Prop :=
  match c with
  | CallLockHeap _ | CallUnlockHeap _ | CallCreatePlacedResource _ _ _ => True
  | _ => False
  end.

(** The allocations a stretch of the log obtained from the allocators, and
    the ones it handed back, each with the allocator concerned. *)
Fixpoint obtained (l : list Call) : list (AllocatorRef * MemoryAllocation) :=
  match l with
  | [] => []
  | CallTryAllocateMemory allocator _ _ _ _ _ (Some a) :: l =>
      (allocator, a) :: obtained l
  | _ :: l => obtained l
  end.

Fixpoint handed_back (l : list Call) : list (AllocatorRef * MemoryAllocation) :=
  match l with
  | [] => []
  | CallDeallocateMemory allocator a :: l => (allocator, a) :: handed_back l
  | _ :: l => handed_back l
  end.

(** The calls [CreateCommittedResource] makes. *)
Definition committed_call (c : Call) : Prop :=
  match c with
  | CallEvict _ _ _ | CallInsertHeap _ | CallCreateCommittedResource _ _ _ => True
  | _ => False
  end.


(** The flags [TryAllocateMemory] receives on the sub-allocated resource
    heap path. *)
Definition resource_allocator_flags (cacheSize prefetchMemory : bool)
    (c : Call) : Prop :=
  match c with
  | CallTryAllocateMemory (ResourceAllocatorOfType _) _ _ _ cs pf _ =>
      cs = cacheSize /\ pf = prefetchMemory
  | _ => True
  end.

Definition allocation_size (r : ResourceAllocation) : Z :=
  match GetSize (base r) with Some size => size | None => 0 end.

Definition total_size (rs : list ResourceAllocation) : Z :=
  fold_right (fun r s => allocation_size r + s) 0 rs.

Section Vocabulary.
Context {K : HeaderConstants} {M R D : Type}.
Context {MA : MemoryAllocator M} {RM : ResidencyManager R} {DV : Device D}.
Local Abbreviation W := (World M R D).

(** The size test lets the request through. *)
Definition fits (allocator : AllocatorRef) (size : Z) (w : W) : Prop :=
  GetMemorySize allocator (mAllocators (this w)) = kInvalidSize \/
  size <= GetMemorySize allocator (mAllocators (this w)).

(** The configuration of the facade, which no operation changes. *)
Definition same_config (a b : ResourceAllocator M R D) : Prop :=
  mCapsMaxResourceSize b = mCapsMaxResourceSize a /\
  mIsUMA b = mIsUMA a /\
  mResourceHeapTier b = mResourceHeapTier a /\
  mIsAlwaysCommitted b = mIsAlwaysCommitted a /\
  mIsAlwaysInBudget b = mIsAlwaysInBudget a /\
  mMaxResourceHeapSize b = mMaxResourceHeapSize a /\
  has_ResidencyManager b = has_ResidencyManager a.

(** [w'] is reached from [w] by calls that all satisfy [P], without touching
    the facade's own counters. *)
Definition quiet (P : Call -> Prop) (w w' : W) : Prop :=
  same_config (this w) (this w') /\
  mInfo (this w') = mInfo (this w) /\
  exists l, calls w' = calls w ++ l /\ Forall P l.

(** Whatever was obtained between [w] and [w'] was handed back, to the same
    allocator and in the same order. *)
Definition balanced (w w' : W) : Prop :=
  exists l, calls w' = calls w ++ l /\ obtained l = handed_back l.

(** The allocation a successful committed path leaves in the out slot. *)
Definition committed_allocation (size : Z) (r : ResourceAllocation) : Prop :=
  GetAllocator (base r) = Some ThisResourceAllocator /\
  GetMethod (base r) = kStandalone /\
  GetBlock (base r) = None /\
  GetOffset (base r) = kInvalidOffset /\
  exists heap, GetMemory (base r) = Some heap /\ mSize heap = size.

(** What the device reports to [GetResourceAllocationInfo] for a
    descriptor: nothing for a buffer without alignment, which is answered
    at line 72 without asking the device; otherwise the answer of lines
    93-109, before the test for a size of 0. *)
Definition backend_report (device : D) (resourceDescriptor : D3D12_RESOURCE_DESC)
    : option D3D12_RESOURCE_ALLOCATION_INFO :=
  if UsesBufferAlignment resourceDescriptor then None
  else Some (fst (QueryResourceAllocationInfo device resourceDescriptor)).

(** What a request is turned into before any allocator is consulted. *)
Definition request_info (w : W) (resourceDescriptor : D3D12_RESOURCE_DESC) :=
  fst (GetResourceAllocationInfo (mDevice (this w)) resourceDescriptor).

Definition request_desc (w : W) (resourceDescriptor : D3D12_RESOURCE_DESC) :=
  snd (GetResourceAllocationInfo (mDevice (this w)) resourceDescriptor).

Definition request_heap_type (w : W) (allocationDescriptor : ALLOCATION_DESC)
    (resourceDescriptor : D3D12_RESOURCE_DESC) : RESOURCE_HEAP_TYPE :=
  GetResourceHeapType (Dimension (request_desc w resourceDescriptor))
    (HeapType allocationDescriptor) (Flags (request_desc w resourceDescriptor))
    (mResourceHeapTier (this w)).

Definition neverAllocate_of (allocationDescriptor : ALLOCATION_DESC) : bool :=
  flag_set (AllocationFlags allocationDescriptor)
           ALLOCATION_FLAG_NEVER_ALLOCATE_MEMORY.

Definition prefetchMemory_of (allocationDescriptor : ALLOCATION_DESC) : bool :=
  flag_set (AllocationFlags allocationDescriptor)
           ALLOCATION_FLAG_ALWAYS_PREFETCH_MEMORY.

(** The size tests of lines 635-642. *)
Definition size_rejected (w : W) (resourceDescriptor : D3D12_RESOURCE_DESC) : Prop :=
  SizeInBytes (request_info w resourceDescriptor) = kInvalidSize \/
  SizeInBytes (request_info w resourceDescriptor) > mMaxResourceHeapSize (this w) \/
  SizeInBytes (request_info w resourceDescriptor) > mCapsMaxResourceSize (this w).

(** The ways a run of [CreateResourceInternal] can go. *)
Inductive outcome (allocationDescriptor : ALLOCATION_DESC)
    (resourceDescriptor : D3D12_RESOURCE_DESC)
    (initialResourceState : D3D12_RESOURCE_STATES)
    (clearValue : option D3D12_CLEAR_VALUE) (w : W) (hr : HRESULT) (w' : W)
    : Prop :=
| RejectedSize :
    size_rejected w resourceDescriptor -> hr = E_OUTOFMEMORY -> w' = w ->
    outcome allocationDescriptor resourceDescriptor initialResourceState
      clearValue w hr w'
| RejectedHeapType :
    request_heap_type w allocationDescriptor resourceDescriptor
      = RESOURCE_HEAP_TYPE_INVALID ->
    hr = E_INVALIDARG -> w' = w ->
    outcome allocationDescriptor resourceDescriptor initialResourceState
      clearValue w hr w'
| SubAllocated :
    mIsAlwaysCommitted (this w) = false ->
    quiet (attempt_call (neverAllocate_of allocationDescriptor)
                        (prefetchMemory_of allocationDescriptor)) w w' ->
    SUCCEEDED hr = true ->
    outcome allocationDescriptor resourceDescriptor initialResourceState
      clearValue w hr w'
| NeverAllocated :
    neverAllocate_of allocationDescriptor = true ->
    quiet (attempt_call (neverAllocate_of allocationDescriptor)
                        (prefetchMemory_of allocationDescriptor)) w w' ->
    (mIsAlwaysCommitted (this w) = true -> w' = w) ->
    hr = E_OUTOFMEMORY ->
    outcome allocationDescriptor resourceDescriptor initialResourceState
      clearValue w hr w'
| Committed (w1 : W) :
    neverAllocate_of allocationDescriptor = false ->
    quiet (attempt_call (neverAllocate_of allocationDescriptor)
                        (prefetchMemory_of allocationDescriptor)) w w1 ->
    (mIsAlwaysCommitted (this w) = true -> w1 = w) ->
    createCommitted allocationDescriptor
      (GetHeapFlags (request_heap_type w allocationDescriptor resourceDescriptor))
      (request_info w resourceDescriptor) (request_desc w resourceDescriptor)
      clearValue initialResourceState w1 = Some (hr, w') ->
    outcome allocationDescriptor resourceDescriptor initialResourceState
      clearValue w hr w'.

(** [j] is [i] after [dU] bytes and [dC] memories were added, modulo the
    width of the counters. *)
Definition info_moved (i j : MEMORY_ALLOCATOR_INFO) (dU dC : Z) : Prop :=
  UsedBlockUsage j = UsedBlockUsage i /\
  FreeMemoryUsage j = FreeMemoryUsage i /\
  UsedMemoryUsage j mod 2 ^ 64 = (UsedMemoryUsage i + dU) mod 2 ^ 64 /\
  UsedMemoryCount j mod 2 ^ kCountBits =
    (UsedMemoryCount i + dC) mod 2 ^ kCountBits /\
  info_in_range j.

(** [k] successful committed allocations in a row: each call of
    [CreateResourceInternal] returns [S_OK] after creating a committed
    resource, and hands out the allocation in the out slot. *)
Inductive committed_allocations : W -> list ResourceAllocation -> W -> Prop :=
| committed_nil w : committed_allocations w [] w
| committed_cons w ad rd st cv w1 r rs w2 :
    CreateResourceInternal ad rd st cv w = Some (S_OK, w1) ->
    existsb is_CallCreateCommittedResource (new_calls w w1) = true ->
    resourceAllocationOut w1 = Some r ->
    committed_allocations w1 rs w2 ->
    committed_allocations w (r :: rs) w2.

(** The allocations are released one after the other through
    [ResourceAllocator::DeallocateMemory]. *)
Fixpoint DeallocateAll (rs : list ResourceAllocation) : St W unit :=
  match rs with
  | [] => ret tt
  | r :: rs =>
      bind (ResourceAllocator_DeallocateMemory (base r))
           (fun _ => DeallocateAll rs)
  end.

End Vocabulary.

(** ** The run of a request

    [CreateResourceInternal] makes up to three attempts on the allocator
    stacks (a sub-allocation within a resource, a placed resource in a
    sub-allocated heap, a placed resource in a heap of its own) before it
    falls back on a committed resource. *)

(** The calls of one [TryAllocateResource], with the allocation that stays
    with the caller, if any: nothing at all when the size test refuses the
    request; the allocator's refusal; an allocation handed back after the
    resource could not be created in it; an allocation that is kept. *)
Inductive attempt_log (allocator : AllocatorRef) (size alignment : Z)
    (neverAllocate cacheSize prefetchMemory : bool)
    : option MemoryAllocation -> list Call -> Prop :=
| attempt_refused :
    attempt_log allocator size alignment neverAllocate cacheSize prefetchMemory
      None []
| attempt_no_memory :
    attempt_log allocator size alignment neverAllocate cacheSize prefetchMemory
      None
      [CallTryAllocateMemory allocator size alignment neverAllocate cacheSize
         prefetchMemory None]
| attempt_undone a p :
    Forall placement_call p ->
    attempt_log allocator size alignment neverAllocate cacheSize prefetchMemory
      None
      (CallTryAllocateMemory allocator size alignment neverAllocate cacheSize
         prefetchMemory (Some a) :: p ++ [CallDeallocateMemory allocator a])
| attempt_kept a p :
    Forall placement_call p ->
    attempt_log allocator size alignment neverAllocate cacheSize prefetchMemory
      (Some a)
      (CallTryAllocateMemory allocator size alignment neverAllocate cacheSize
         prefetchMemory (Some a) :: p).

(** An attempt that was not made, or that kept nothing. *)
Definition missed (guard : bool)
    (attempt : option MemoryAllocation -> list Call -> Prop) (l : list Call)
    : Prop :=
  if guard then attempt None l else l = [].

(** The calls of at most one attempt on [allocator], made only under
    [guard]: no call at all, or one [TryAllocateMemory] on [allocator]
    followed by nothing but the placement of a resource and the return of
    memory to [allocator]. *)
Definition attempted (guard : bool) (allocator : AllocatorRef) (l : list Call)
    : Prop :=
  l = [] \/
  (guard = true /\
   exists size alignment neverAllocate cacheSize prefetchMemory result rest,
     l = CallTryAllocateMemory allocator size alignment neverAllocate
           cacheSize prefetchMemory result :: rest /\
     Forall (fun c => placement_call c \/
                      exists a, c = CallDeallocateMemory allocator a) rest).

(** The allocators asked for memory, in the order of the calls. *)
Fixpoint tried (l : list Call) : list AllocatorRef :=
  match l with
  | [] => []
  | CallTryAllocateMemory allocator _ _ _ _ _ _ :: l => allocator :: tried l
  | _ :: l => tried l
  end.

(** The allocation object [r] records the sub-allocation [a] it was made
    for. *)
Definition records (r : ResourceAllocation) (a : MemoryAllocation) : Prop :=
  GetAllocator (base r) = GetAllocator a /\
  GetMemory (base r) = GetMemory a /\
  GetOffset (base r) = GetOffset a /\
  GetBlock (base r) = GetBlock a.

(** The heap flags do not deny the kind of resource the descriptor
    describes (https://docs.microsoft.com/en-us/windows/win32/api/d3d12/ne-d3d12-d3d12_heap_flags). *)
Definition heap_accepts (heapFlags : Z) (dimension : D3D12_RESOURCE_DIMENSION)
    (flags : Z) : bool :=
  match dimension with
  | D3D12_RESOURCE_DIMENSION_BUFFER =>
      negb (flag_set heapFlags D3D12_HEAP_FLAG_DENY_BUFFERS)
  | D3D12_RESOURCE_DIMENSION_TEXTURE1D
  | D3D12_RESOURCE_DIMENSION_TEXTURE2D
  | D3D12_RESOURCE_DIMENSION_TEXTURE3D =>
      if flag_set flags D3D12_RESOURCE_FLAG_ALLOW_DEPTH_STENCIL
         || flag_set flags D3D12_RESOURCE_FLAG_ALLOW_RENDER_TARGET
      then negb (flag_set heapFlags D3D12_HEAP_FLAG_DENY_RT_DS_TEXTURES)
      else negb (flag_set heapFlags D3D12_HEAP_FLAG_DENY_NON_RT_DS_TEXTURES)
  | D3D12_RESOURCE_DIMENSION_UNKNOWN => false
  end.

(** The number of resource categories (buffers, render-target or
    depth-stencil textures, other textures) the heap flags deny. *)
Definition denied_categories (heapFlags : Z) : nat :=
  (if flag_set heapFlags D3D12_HEAP_FLAG_DENY_BUFFERS then 1 else 0) +
  (if flag_set heapFlags D3D12_HEAP_FLAG_DENY_RT_DS_TEXTURES then 1 else 0) +
  (if flag_set heapFlags D3D12_HEAP_FLAG_DENY_NON_RT_DS_TEXTURES then 1 else 0).

(** A call on an allocator stack is a call on [allocator]. *)
Definition only_allocator (allocator : AllocatorRef) (c : Call) : Prop :=
  match c with
  | CallTryAllocateMemory allocator' _ _ _ _ _ _
  | CallDeallocateMemory allocator' _ => allocator' = allocator
  | _ => True
  end.

(** What a run says about the committed resource it creates. *)
Definition created_as (heapType : D3D12_HEAP_TYPE) (heapFlags : Z) (c : Call)
    : Prop :=
  match c with
  | CallCreateCommittedResource heapType' heapFlags' _ =>
      heapType' = heapType /\ heapFlags' = heapFlags
  | _ => True
  end.


(** A call on the residency manager. *)
Definition residency_call (c : Call) : Prop :=
  match c with
  | CallEvict _ _ _ | CallInsertHeap _ | CallLockHeap _ | CallUnlockHeap _ =>
      True
  | _ => False
  end.

Section RequestRuns.
Context {K : HeaderConstants} {M R D : Type}.
Context {MA : MemoryAllocator M} {RM : ResidencyManager R} {DV : Device D}.
Local Abbreviation W := (World M R D).

Definition neverSubAllocate_of (allocationDescriptor : ALLOCATION_DESC) : bool :=
  flag_set (AllocationFlags allocationDescriptor)
           ALLOCATION_FLAG_NEVER_SUBALLOCATE_MEMORY.

Definition allowWithin_of (allocationDescriptor : ALLOCATION_DESC) : bool :=
  flag_set (AllocationFlags allocationDescriptor)
           ALLOCATION_FLAG_ALLOW_SUBALLOCATE_WITHIN_RESOURCE.

(** The request passes the tests of lines 635-649. *)
Definition accepted (w : W) (allocationDescriptor : ALLOCATION_DESC)
    (resourceDescriptor : D3D12_RESOURCE_DESC) : Prop :=
  SizeInBytes (request_info w resourceDescriptor) <> kInvalidSize /\
  SizeInBytes (request_info w resourceDescriptor) <= mMaxResourceHeapSize (this w) /\
  SizeInBytes (request_info w resourceDescriptor) <= mCapsMaxResourceSize (this w) /\
  request_heap_type w allocationDescriptor resourceDescriptor
    <> RESOURCE_HEAP_TYPE_INVALID.

(** The guards of the three attempts: lines 669-673, 709 and 752. *)
Definition within_guard (w : W) (allocationDescriptor : ALLOCATION_DESC)
    (resourceDescriptor : D3D12_RESOURCE_DESC)
    (initialResourceState : D3D12_RESOURCE_STATES) : bool :=
  allowWithin_of allocationDescriptor
  && (Width (request_desc w resourceDescriptor)
      <? InfoAlignment (request_info w resourceDescriptor))
  && is_buffer (Dimension (request_desc w resourceDescriptor))
  && match GetInitialResourceState (HeapType allocationDescriptor) with
     | Some state => state =? initialResourceState
     | None => false
     end
  && negb (mIsAlwaysCommitted (this w))
  && negb (neverSubAllocate_of allocationDescriptor).

Definition suballocate_guard (w : W) (allocationDescriptor : ALLOCATION_DESC)
    : bool :=
  negb (mIsAlwaysCommitted (this w))
  && negb (neverSubAllocate_of allocationDescriptor).

Definition heap_guard (w : W) : bool := negb (mIsAlwaysCommitted (this w)).

(** The three attempts, with the arguments lines 679-682, 712-715 and
    755-757 pass. *)
Definition within_attempt (w : W) (allocationDescriptor : ALLOCATION_DESC)
    (resourceDescriptor : D3D12_RESOURCE_DESC) :=
  attempt_log
    (BufferAllocatorOfType
       (request_heap_type w allocationDescriptor resourceDescriptor))
    (Width (request_desc w resourceDescriptor))
    (if Alignment (request_desc w resourceDescriptor) =? 0 then 1
     else Alignment (request_desc w resourceDescriptor))
    (neverAllocate_of allocationDescriptor) false false.

Definition suballocated_attempt (w : W) (allocationDescriptor : ALLOCATION_DESC)
    (resourceDescriptor : D3D12_RESOURCE_DESC) :=
  attempt_log
    (ResourceAllocatorOfType
       (request_heap_type w allocationDescriptor resourceDescriptor))
    (SizeInBytes (request_info w resourceDescriptor))
    (InfoAlignment (request_info w resourceDescriptor))
    (neverAllocate_of allocationDescriptor)
    (prefetchMemory_of allocationDescriptor) false.

Definition heap_attempt (w : W) (allocationDescriptor : ALLOCATION_DESC)
    (resourceDescriptor : D3D12_RESOURCE_DESC) :=
  attempt_log
    (ResourceHeapAllocatorOfType
       (request_heap_type w allocationDescriptor resourceDescriptor))
    (SizeInBytes (request_info w resourceDescriptor))
    (GetHeapAlignment
       (GetHeapFlags (request_heap_type w allocationDescriptor resourceDescriptor)))
    (neverAllocate_of allocationDescriptor) false false.

(** What the placement of a resource does not touch: the allocator stacks
    and the out slot. *)
Definition keeps (w w' : W) : Prop :=
  mAllocators (this w') = mAllocators (this w) /\
  resourceAllocationOut w' = resourceAllocationOut w.

(** What a resource-creation lambda leaves behind for the sub-allocation it
    is given: on failure the out slot as it was; on success an allocation
    object that records the sub-allocation. *)
Definition handed_out (within : bool) (w' : W) (a : MemoryAllocation)
    (r : ResourceAllocation) : Prop :=
  resourceAllocationOut w' = Some r /\
  records r a /\
  GetMethod (base r) = (if within then kSubAllocatedWithin else GetMethod a).

Definition creates (within : bool)
    (createResourceFn : MemoryAllocation -> St W HRESULT) : Prop :=
  forall a w hr w',
    createResourceFn a w = Some (hr, w') ->
    quiet placement_call w w' /\
    mAllocators (this w') = mAllocators (this w) /\
    ((FAILED hr = true /\
      resourceAllocationOut w' = resourceAllocationOut w) \/
     (hr = S_OK /\ exists r, handed_out within w' a r)).

(** The three failed or skipped attempts that precede the last resort. *)
Definition all_missed (w : W) (allocationDescriptor : ALLOCATION_DESC)
    (resourceDescriptor : D3D12_RESOURCE_DESC)
    (initialResourceState : D3D12_RESOURCE_STATES) (l1 l2 l3 : list Call)
    : Prop :=
  missed (within_guard w allocationDescriptor resourceDescriptor
            initialResourceState)
         (within_attempt w allocationDescriptor resourceDescriptor) l1 /\
  missed (suballocate_guard w allocationDescriptor)
         (suballocated_attempt w allocationDescriptor resourceDescriptor) l2 /\
  missed (heap_guard w)
         (heap_attempt w allocationDescriptor resourceDescriptor) l3.

(** The ways a run of [CreateResourceInternal] can go, exit by exit, with
    the calls made on the way. *)
Inductive request_run (allocationDescriptor : ALLOCATION_DESC)
    (resourceDescriptor : D3D12_RESOURCE_DESC)
    (initialResourceState : D3D12_RESOURCE_STATES)
    (clearValue : option D3D12_CLEAR_VALUE) (w : W) (hr : HRESULT) (w' : W)
    : Prop :=
| RunRejectedSize :
    size_rejected w resourceDescriptor -> hr = E_OUTOFMEMORY -> w' = w ->
    request_run allocationDescriptor resourceDescriptor initialResourceState
      clearValue w hr w'
| RunRejectedHeapType :
    request_heap_type w allocationDescriptor resourceDescriptor
      = RESOURCE_HEAP_TYPE_INVALID ->
    hr = E_INVALIDARG -> w' = w ->
    request_run allocationDescriptor resourceDescriptor initialResourceState
      clearValue w hr w'
| RunWithin l1 a r :
    accepted w allocationDescriptor resourceDescriptor ->
    within_guard w allocationDescriptor resourceDescriptor
      initialResourceState = true ->
    within_attempt w allocationDescriptor resourceDescriptor (Some a) l1 ->
    calls w' = calls w ++ l1 ->
    handed_out true w' a r ->
    mInfo (this w') = mInfo (this w) ->
    hr = S_OK ->
    request_run allocationDescriptor resourceDescriptor initialResourceState
      clearValue w hr w'
| RunSubAllocated l1 l2 a r :
    accepted w allocationDescriptor resourceDescriptor ->
    missed (within_guard w allocationDescriptor resourceDescriptor
              initialResourceState)
           (within_attempt w allocationDescriptor resourceDescriptor) l1 ->
    suballocate_guard w allocationDescriptor = true ->
    suballocated_attempt w allocationDescriptor resourceDescriptor (Some a) l2 ->
    calls w' = calls w ++ l1 ++ l2 ->
    handed_out false w' a r ->
    mInfo (this w') = mInfo (this w) ->
    hr = S_OK ->
    request_run allocationDescriptor resourceDescriptor initialResourceState
      clearValue w hr w'
| RunHeap l1 l2 l3 a r :
    accepted w allocationDescriptor resourceDescriptor ->
    missed (within_guard w allocationDescriptor resourceDescriptor
              initialResourceState)
           (within_attempt w allocationDescriptor resourceDescriptor) l1 ->
    missed (suballocate_guard w allocationDescriptor)
           (suballocated_attempt w allocationDescriptor resourceDescriptor) l2 ->
    heap_guard w = true ->
    heap_attempt w allocationDescriptor resourceDescriptor (Some a) l3 ->
    calls w' = calls w ++ l1 ++ l2 ++ l3 ->
    handed_out false w' a r ->
    mInfo (this w') = mInfo (this w) ->
    hr = S_OK ->
    request_run allocationDescriptor resourceDescriptor initialResourceState
      clearValue w hr w'
| RunNeverAllocated l1 l2 l3 :
    accepted w allocationDescriptor resourceDescriptor ->
    all_missed w allocationDescriptor resourceDescriptor initialResourceState
      l1 l2 l3 ->
    neverAllocate_of allocationDescriptor = true ->
    calls w' = calls w ++ l1 ++ l2 ++ l3 ->
    resourceAllocationOut w' = resourceAllocationOut w ->
    mInfo (this w') = mInfo (this w) ->
    hr = E_OUTOFMEMORY ->
    request_run allocationDescriptor resourceDescriptor initialResourceState
      clearValue w hr w'
| RunCommitted l1 l2 l3 w3 :
    accepted w allocationDescriptor resourceDescriptor ->
    all_missed w allocationDescriptor resourceDescriptor initialResourceState
      l1 l2 l3 ->
    neverAllocate_of allocationDescriptor = false ->
    calls w3 = calls w ++ l1 ++ l2 ++ l3 ->
    resourceAllocationOut w3 = resourceAllocationOut w ->
    mInfo (this w3) = mInfo (this w) ->
    same_config (this w) (this w3) ->
    (mIsAlwaysCommitted (this w) = true -> w3 = w) ->
    createCommitted allocationDescriptor
      (GetHeapFlags (request_heap_type w allocationDescriptor resourceDescriptor))
      (request_info w resourceDescriptor) (request_desc w resourceDescriptor)
      clearValue initialResourceState w3 = Some (hr, w') ->
    request_run allocationDescriptor resourceDescriptor initialResourceState
      clearValue w hr w'.

(** The calls of [CreateCommittedResource] for a request: the eviction of
    the request's size, the creation with the request's heap type and
    these heap flags, the insertion of a heap of the request's size. *)
Definition committed_path_call (heapType : D3D12_HEAP_TYPE)
    (heapFlags resourceSize : Z) (c : Call) : Prop :=
  match c with
  | CallEvict size _ _ => size = resourceSize
  | CallCreateCommittedResource heapType' heapFlags' _ =>
      heapType' = heapType /\ heapFlags' = heapFlags
  | CallInsertHeap heap => mSize heap = resourceSize
  | _ => False
  end.

(** The sizes a request may pass to its collaborators: the width of a
    buffer smaller than its alignment to the buffer allocator, and otherwise
    the size computed for the request, which is within the limits of the
    facade. *)
Definition sized_call (w : W) (resourceDescriptor : D3D12_RESOURCE_DESC)
    (c : Call) : Prop :=
  match c with
  | CallTryAllocateMemory (BufferAllocatorOfType _) size _ _ _ _ _ =>
      size = Width (request_desc w resourceDescriptor) /\
      size < InfoAlignment (request_info w resourceDescriptor)
  | CallTryAllocateMemory _ size _ _ _ _ _
  | CallEvict size _ _ =>
      size = SizeInBytes (request_info w resourceDescriptor) /\
      size <= mMaxResourceHeapSize (this w) /\
      size <= mCapsMaxResourceSize (this w) /\
      size <> kInvalidSize
  | CallInsertHeap heap =>
      mSize heap = SizeInBytes (request_info w resourceDescriptor)
  | _ => True
  end.



(** When [GetResourceHeapType] has no heap type for a request. *)
Definition unsupported (dimension : D3D12_RESOURCE_DIMENSION)
    (heapType : D3D12_HEAP_TYPE) (resourceHeapTier : Z) : Prop :=
  heapType = D3D12_HEAP_TYPE_CUSTOM \/
  (resourceHeapTier < D3D12_RESOURCE_HEAP_TIER_2 /\
   (dimension = D3D12_RESOURCE_DIMENSION_UNKNOWN \/
    (is_texture dimension = true /\ heapType <> D3D12_HEAP_TYPE_DEFAULT))).

(** From a world without a residency manager, [w'] is reached without one
    and without a call on one. *)
Definition unmanaged (w w' : W) : Prop :=
  has_ResidencyManager (this w) = false ->
  has_ResidencyManager (this w') = false /\
  exists l, calls w' = calls w ++ l /\ Forall (fun c => ~ residency_call c) l.

End RequestRuns.

(** * The other entry points of the allocator *)

(** ** Resources created elsewhere, and mapping

    What the allocator asks of a resource object, beyond its creation. *)
Class Resources (D : Type) := {
  (** [resource->GetDesc()] *)
  ResourceGetDesc : D -> ID3D12Resource -> D3D12_RESOURCE_DESC;
  (** [resource->GetHeapProperties(&heapProperties, nullptr)], with
      [heapProperties.Type] *)
  ResourceGetHeapProperties : D -> ID3D12Resource -> HRESULT * D3D12_HEAP_TYPE;
  (** [resource->Map(subresource, pRange, ppMappedData)] *)
  ResourceMap : ID3D12Resource -> Z -> option (Z * Z) -> D -> HRESULT * D;
  (** [resource->Unmap(subresource, pRange)] *)
  ResourceUnmap : ID3D12Resource -> Z -> option (Z * Z) -> D -> D
}.

(** The [HRESULT] of [ResidencyManager::LockHeap], which
    [ResourceAllocation::Map] tests. *)
Class HeapLock (R : Type) := {
  LockHeapResult : Heap -> R -> HRESULT
}.

Section Resources.
Context {K : HeaderConstants} {M R D : Type}.
Context {MA : MemoryAllocator M} {RM : ResidencyManager R} {DV : Device D}.
Context {RS : Resources D} {HL : HeapLock R}.

Local Abbreviation W := (World M R D).
Local Open Scope st_scope.

(** The overload of [ResourceAllocator::CreateResource] that takes a
    [ComPtr<ID3D12Resource>], lines 819-849: it wraps a resource created by
    the caller. *)
Definition CreateResource_imported (hasResourceAllocationOut : bool)
    (resource : ComPtr) : St W HRESULT :=
  if negb hasResourceAllocationOut then ret E_POINTER else
  match resource with
  | None => ret E_INVALIDARG
  | Some res =>
      self <- gets (@this M R D) ;;
      let desc := ResourceGetDesc (mDevice self) res in
      let '(resourceInfo, _) := GetResourceAllocationInfo (mDevice self) desc in
      let '(hr, heapType) := ResourceGetHeapProperties (mDevice self) res in
      ReturnIfFailed (ret hr)
        (let resourceHeap :=
           {| mPageable := resource;
              mMemorySegmentGroup :=
                GetPreferredMemorySegmentGroup (mDevice self) (mIsUMA self)
                  heapType;
              mSize := SizeInBytes resourceInfo |} in
         set_resourceAllocationOut
           (new_ResourceAllocation None (Some ThisResourceAllocator)
              kInvalidOffset None kStandalone resource (Some resourceHeap)) ;;;
         ret S_OK)
  end.

(** [mResidencyManager->LockHeap(heap)] on the residency manager an
    allocation points to, which is the facade's; without one the pointer
    dangles. *)
Definition residency_LockHeap (heap : Heap) : St W HRESULT :=
  fun w =>
    match mResidencyManager (this w) with
    | None => None
    | Some r =>
        Some (LockHeapResult heap r,
              add_call (set_this w (set_mResidencyManager (this w)
                                      (Some (LockHeap heap r))))
                (CallLockHeap heap))
    end.

Definition residency_UnlockHeap (heap : Heap) : St W unit :=
  fun w =>
    match mResidencyManager (this w) with
    | None => None
    | Some r =>
        Some (tt,
              add_call (set_this w (set_mResidencyManager (this w)
                                      (Some (UnlockHeap heap r))))
                (CallUnlockHeap heap))
    end.

(** [mResource->Map(...)] and [mResource->Unmap(...)]; [mResource] may be
    null. *)
Definition resource_Map (resource : ComPtr) (subresource : Z)
    (pRange : option (Z * Z)) : St W HRESULT :=
  match resource with
  | None => abort
  | Some res =>
      fun w =>
        let '(hr, d) := ResourceMap res subresource pRange (mDevice (this w)) in
        Some (hr, set_this w (set_mDevice (this w) d))
  end.

Definition resource_Unmap (resource : ComPtr) (subresource : Z)
    (pRange : option (Z * Z)) : St W unit :=
  match resource with
  | None => abort
  | Some res =>
      modify (fun w =>
        set_this w (set_mDevice (this w)
          (ResourceUnmap res subresource pRange (mDevice (this w)))))
  end.

(** [ResourceAllocation::Map] *)
Definition Map (self : ResourceAllocation) (subresource : Z)
    (pRange : option (Z * Z)) : St W HRESULT :=
  match GetMemory (base self) with
  | None => ret E_INVALIDARG
  | Some heap =>
      let map := resource_Map (mResource self) subresource pRange in
      match raResidencyManager self with
      | Some _ =>
          hr <- residency_LockHeap heap ;;
          if FAILED hr then ret hr else map
      | None => map
      end
  end.

(** [ResourceAllocation::Unmap] *)
Definition Unmap (self : ResourceAllocation) (subresource : Z)
    (pRange : option (Z * Z)) : St W unit :=
  match GetMemory (base self) with
  | None => ret tt
  | Some heap =>
      match raResidencyManager self with
      | Some _ => residency_UnlockHeap heap
      | None => ret tt
      end ;;;
      resource_Unmap (mResource self) subresource pRange
  end.

End Resources.

(** ** [ResourceAllocator::ReportLiveDeviceObjects] *)

Inductive D3D12_MESSAGE_ID :=
| D3D12_MESSAGE_ID_LIVE_HEAP
| D3D12_MESSAGE_ID_LIVE_RESOURCE
| D3D12_MESSAGE_ID_other (id : Z).

(** One stored message of the info queue: the result of asking for its
    length, the result of retrieving it, and its ID. *)
Record StoredMessage := {
  lengthResult : HRESULT;
  messageResult : HRESULT;
  ID : D3D12_MESSAGE_ID
}.

(** The debug layer, as the function sees it. *)
Record DebugLayer := {
  (** [mDevice.As(&debugDevice)] *)
  AsDebugDevice : HRESULT;
  (** [debugDevice->ReportLiveDeviceObjects(rldoFlags)] *)
  ReportResult : HRESULT;
  (** [mDevice.As(&leakMessageQueue)] *)
  AsInfoQueue : HRESULT;
  (** the messages allowed by the retrieval filter, in order *)
  StoredMessages : list StoredMessage
}.

(** What a run of the function did besides returning: the number of
    warnings it logged ([totalLiveObjects]), and whether it popped the
    retrieval filter. *)
Record LeakReport := {
  totalLiveObjects : Z;
  poppedRetrievalFilter : bool
}.

(** The loop of lines 966-984. *)
Fixpoint ReadStoredMessages (messages : list StoredMessage)
    (totalLiveObjects : Z) : HRESULT * Z :=
  match messages with
  | [] => (S_OK, totalLiveObjects)
  | message :: messages =>
      if FAILED (lengthResult message) then
        (lengthResult message, totalLiveObjects)
      else if FAILED (messageResult message) then
        (messageResult message, totalLiveObjects)
      else
        ReadStoredMessages messages
          match ID message with
          | D3D12_MESSAGE_ID_LIVE_HEAP
          | D3D12_MESSAGE_ID_LIVE_RESOURCE => wrap64 (totalLiveObjects + 1)
          | D3D12_MESSAGE_ID_other _ => totalLiveObjects
          end
  end.

Definition ReportLiveDeviceObjects (layer : DebugLayer) : HRESULT * LeakReport :=
  let nothing := {| totalLiveObjects := 0; poppedRetrievalFilter := false |} in
  if FAILED (AsDebugDevice layer) then (S_OK, nothing)
  else if FAILED (ReportResult layer) then (ReportResult layer, nothing)
  else if FAILED (AsInfoQueue layer) then (AsInfoQueue layer, nothing)
  else
    let '(hr, total) := ReadStoredMessages (StoredMessages layer) 0 in
    if FAILED hr then
      (hr, {| totalLiveObjects := total; poppedRetrievalFilter := false |})
    else
      (S_OK, {| totalLiveObjects := total; poppedRetrievalFilter := true |}).

(** The number of stored messages that report a live heap or resource. *)
Definition live_objects (messages : list StoredMessage) : nat :=
  length (filter (fun message =>
                    match ID message with
                    | D3D12_MESSAGE_ID_other _ => false
                    | _ => true
                    end) messages).

(** ** [Caps] (CapsD3D12.cpp) *)

Module Caps.
Import Floats.

Record D3D12_FEATURE_DATA_GPU_VIRTUAL_ADDRESS_SUPPORT := {
  MaxGPUVirtualAddressBitsPerResource : Z;
  MaxGPUVirtualAddressBitsPerProcess : Z
}.

Record Caps := {
  mMaxResourceSize : Z;
  mMaxResourceHeapSize : Z
}.

(** The conversion of a [double] to [uint64_t]: the value is truncated
    towards zero, and the result is undefined ([None]) when the truncated
    value does not fit, or for an infinity or a NaN. *)
Definition double_to_uint64 (value : float) : option Z :=
  match Prim2SF value with
  | S754_zero _ => Some 0
  | S754_finite negative m e =>
      let magnitude :=
        if 0 <=? e then Z.pos m * 2 ^ e else Z.pos m / 2 ^ (- e) in
      if negative then (if magnitude =? 0 then Some 0 else None)
      else if magnitude <? 2 ^ 64 then Some magnitude else None
  | _ => None
  end.

(** [std::pow(2, bits) - 1], computed in [double] and stored in a
    [uint64_t]; [std::pow] is exact on the powers of two. *)
Definition pow2_minus_1 (bits : Z) : option Z :=
  double_to_uint64 (Z.ldexp 1 bits - 1)%float.

(** [Caps::GetMaxResourceSize] and [Caps::GetMaxResourceHeapSize] *)
Definition GetMaxResourceSize (caps : Caps) : Z := mMaxResourceSize caps.
Definition GetMaxResourceHeapSize (caps : Caps) : Z := mMaxResourceHeapSize caps.

Section Caps.
Context {D : Type}.
(** [device->CheckFeatureSupport(D3D12_FEATURE_GPU_VIRTUAL_ADDRESS_SUPPORT,
    &feature, ...)] and [adapter->GetDesc(&adapterDesc)] *)
Variable CheckFeatureSupport :
  D -> HRESULT * D3D12_FEATURE_DATA_GPU_VIRTUAL_ADDRESS_SUPPORT.
Variable AdapterGetDesc : Z -> HRESULT.

(** The two functions return [None] where the conversion is undefined,
    and otherwise the [HRESULT] with the value stored through [sizeOut]. *)
Definition SetMaxResourceSize (device : D) : option (HRESULT * option Z) :=
  let '(hr, feature) := CheckFeatureSupport device in
  if FAILED hr then Some (hr, None)
  else
    match pow2_minus_1 (MaxGPUVirtualAddressBitsPerResource feature) with
    | Some size => Some (S_OK, Some size)
    | None => None
    end.

Definition SetMaxResourceHeapSize (device : D) : option (HRESULT * option Z) :=
  let '(hr, feature) := CheckFeatureSupport device in
  if FAILED hr then Some (hr, None)
  else
    match pow2_minus_1 (MaxGPUVirtualAddressBitsPerProcess feature) with
    | Some size => Some (S_OK, Some size)
    | None => None
    end.

Definition CreateCaps (device : D) (adapter : Z)
    : option (HRESULT * option Caps) :=
  if FAILED (AdapterGetDesc adapter) then Some (AdapterGetDesc adapter, None)
  else
    match SetMaxResourceSize device with
    | None => None
    | Some (hr, None) => Some (hr, None)
    | Some (hr, Some maxResourceSize) =>
        if FAILED hr then Some (hr, None)
        else
          match SetMaxResourceHeapSize device with
          | None => None
          | Some (hr, None) => Some (hr, None)
          | Some (hr, Some maxResourceHeapSize) =>
              if FAILED hr then Some (hr, None)
              else
                Some (S_OK,
                      Some {| mMaxResourceSize := maxResourceSize;
                              mMaxResourceHeapSize := maxResourceHeapSize |})
          end
    end.
End Caps.
End Caps.

(** ** [ResourceAllocator::CreateAllocator] and the constructor *)

(** Constants of headers that are not part of the tree. *)
Class AllocatorConstants := {
  kDefaultPreferredResourceHeapSize : Z;
  kDefaultFragmentationLimit : PrimFloat.float;
  ALLOCATOR_FLAG_ALWAYS_COMMITED : Z;
  ALLOCATOR_FLAG_ALWAYS_IN_BUDGET : Z;
  ALLOCATOR_FLAG_DISABLE_MEMORY_PREFETCH : Z;
  ALLOCATOR_FLAG_ALWAYS_ON_DEMAND : Z;
  (** utils/Math.h *)
  PrevPowerOfTwo : Z -> Z
}.

(** The fields of the descriptor that [CreateAllocator] and the
    constructor read; [Budget] stands for the three budget options, which
    are handed to the residency manager as they are. *)
Module AllocatorDesc.
Record ALLOCATOR_DESC (D Budget : Type) := {
  Adapter : option Z;
  Device : option D;
  AllocatorFlags : Z;
  IsUMA : bool;
  ResourceHeapTier : Z;
  PreferredResourceHeapSize : Z;
  MaxResourceHeapSize : Z;
  ResourceFragmentationLimit : PrimFloat.float;
  BudgetOptions : Budget
}.
End AllocatorDesc.
Abbreviation ALLOCATOR_DESC := AllocatorDesc.ALLOCATOR_DESC.

(** The objects [CreateAllocator] has others make. *)
Class Platform (M R D Budget : Type) := {
  CheckFeatureSupport :
    D -> HRESULT * Caps.D3D12_FEATURE_DATA_GPU_VIRTUAL_ADDRESS_SUPPORT;
  AdapterGetDesc : Z -> HRESULT;
  (** [ResidencyManager::CreateResidencyManager] *)
  CreateResidencyManager : D -> Z -> bool -> Budget -> HRESULT * option R;
  (** the allocator stacks the constructor builds, lines 401-535 *)
  NewAllocators : ALLOCATOR_DESC D Budget -> option R -> M;
  (** the member [mInfo] of a new allocator *)
  NewInfo : MEMORY_ALLOCATOR_INFO
}.

Section CreateAllocator.
Context {C : AllocatorConstants} {M R D Budget : Type}.
Context {PF : Platform M R D Budget}.

(** Lines 316-328: the descriptor with its defaults and limits. *)
Definition newDescriptor (descriptor : ALLOCATOR_DESC D Budget)
    (caps : Caps.Caps) : ALLOCATOR_DESC D Budget :=
  {| AllocatorDesc.Adapter := AllocatorDesc.Adapter descriptor;
     AllocatorDesc.Device := AllocatorDesc.Device descriptor;
     AllocatorDesc.AllocatorFlags := AllocatorDesc.AllocatorFlags descriptor;
     AllocatorDesc.IsUMA := AllocatorDesc.IsUMA descriptor;
     AllocatorDesc.ResourceHeapTier := AllocatorDesc.ResourceHeapTier descriptor;
     AllocatorDesc.PreferredResourceHeapSize :=
       if 0 <? AllocatorDesc.PreferredResourceHeapSize descriptor
       then AllocatorDesc.PreferredResourceHeapSize descriptor
       else kDefaultPreferredResourceHeapSize;
     AllocatorDesc.MaxResourceHeapSize :=
       if 0 <? AllocatorDesc.MaxResourceHeapSize descriptor
       then Z.min (AllocatorDesc.MaxResourceHeapSize descriptor)
                  (Caps.GetMaxResourceHeapSize caps)
       else Caps.GetMaxResourceHeapSize caps;
     AllocatorDesc.ResourceFragmentationLimit :=
       if PrimFloat.ltb PrimFloat.zero (AllocatorDesc.ResourceFragmentationLimit descriptor)
       then AllocatorDesc.ResourceFragmentationLimit descriptor
       else kDefaultFragmentationLimit;
     AllocatorDesc.BudgetOptions := AllocatorDesc.BudgetOptions descriptor |}.

(** The constructor, lines 383-394. *)
Definition new_ResourceAllocator (descriptor : ALLOCATOR_DESC D Budget)
    (device : D) (residencyManager : option R) (caps : Caps.Caps)
    : ResourceAllocator M R D :=
  {| mDevice := device;
     mResidencyManager := residencyManager;
     mCapsMaxResourceSize := Caps.GetMaxResourceSize caps;
     mIsUMA := AllocatorDesc.IsUMA descriptor;
     mResourceHeapTier := AllocatorDesc.ResourceHeapTier descriptor;
     mIsAlwaysCommitted :=
       flag_set (AllocatorDesc.AllocatorFlags descriptor) ALLOCATOR_FLAG_ALWAYS_COMMITED;
     mIsAlwaysInBudget :=
       flag_set (AllocatorDesc.AllocatorFlags descriptor) ALLOCATOR_FLAG_ALWAYS_IN_BUDGET;
     mMaxResourceHeapSize := AllocatorDesc.MaxResourceHeapSize descriptor;
     mInfo := NewInfo;
     mAllocators := NewAllocators descriptor residencyManager |}.

(** [CreateAllocator]; [hasResidencyManagerOut] is whether the caller
    passed a [residencyManagerOut].  The event trace and the log levels it
    sets up are outside the allocator.  [None] is a run whose behaviour is
    undefined. *)
Definition CreateAllocator (descriptor : ALLOCATOR_DESC D Budget)
    (hasResidencyManagerOut : bool)
    : option (HRESULT * option (ResourceAllocator M R D)) :=
  match AllocatorDesc.Adapter descriptor, AllocatorDesc.Device descriptor with
  | Some adapter, Some device =>
      match Caps.CreateCaps CheckFeatureSupport AdapterGetDesc device adapter with
      | None => None
      | Some (hr, None) => Some (hr, None)
      | Some (hr, Some caps) =>
          if FAILED hr then Some (hr, None) else
          let newDescriptor := newDescriptor descriptor caps in
          if AllocatorDesc.MaxResourceHeapSize newDescriptor
             <? AllocatorDesc.PreferredResourceHeapSize newDescriptor
          then Some (E_INVALIDARG, None) else
          let '(hr, residencyManager) :=
            if hasResidencyManagerOut
            then CreateResidencyManager device adapter (AllocatorDesc.IsUMA newDescriptor)
                   (AllocatorDesc.BudgetOptions newDescriptor)
            else (S_OK, None) in
          if FAILED hr then Some (hr, None) else
          Some (S_OK,
                Some (new_ResourceAllocator newDescriptor device
                        residencyManager caps))
      end
  | _, _ => Some (E_INVALIDARG, None)
  end.

End CreateAllocator.

(** ** The allocator stacks of the constructor

    For each of the eight resource heap types the constructor builds three
    stacks of memory allocators (lines 401-492).  The classes of these
    allocators are outside the tree: a stack is described by the
    constructors that are called and their arguments.  [BufferAllocator]
    also receives the allocator under construction, which is left out. *)

Module Stacks.
Section Stacks.
Context {C : AllocatorConstants} {R D Budget : Type}.

Inductive AllocatorStack : Type :=
| ResourceHeapAllocator (residencyManager : option R) (device : D)
    (heapType : D3D12_HEAP_TYPE) (heapFlags : Z)
    (isUMA isAlwaysInBudget : bool)
| BufferAllocator (heapType : D3D12_HEAP_TYPE) (resourceFlags : Z)
    (initialResourceState : option D3D12_RESOURCE_STATES)
    (resourceSize resourceAlignment : Z)
| SegmentedMemoryAllocator (memoryAllocator : AllocatorStack)
    (memoryAlignment : Z)
| BuddyMemoryAllocator (systemSize memorySize memoryAlignment : Z)
    (memoryAllocator : AllocatorStack)
| SlabCacheAllocator (minBlockSize maxSlabSize slabSize slabAlignment : Z)
    (slabFragmentationLimit : PrimFloat.float) (enablePrefetch : bool)
    (memoryAllocator : AllocatorStack)
| StandaloneMemoryAllocator (memoryAllocator : AllocatorStack).

Record AllocatorsOfType := {
  mResourceAllocatorOfType : AllocatorStack;
  mResourceHeapAllocatorOfType : AllocatorStack;
  mBufferAllocatorOfType : AllocatorStack
}.

(** The [pooledOrNonPooledAllocator] of the three blocks. *)
Definition pooledOrNonPooledAllocator (descriptor : ALLOCATOR_DESC D Budget)
    (memoryAllocator : AllocatorStack) (memoryAlignment : Z) : AllocatorStack :=
  if negb (flag_set (AllocatorDesc.AllocatorFlags descriptor)
             ALLOCATOR_FLAG_ALWAYS_ON_DEMAND)
  then SegmentedMemoryAllocator memoryAllocator memoryAlignment
  else memoryAllocator.

(** One turn of the loop of the constructor, lines 401-492; the members
    read are those the initializer list has set from the descriptor. *)
Definition BuildAllocators (descriptor : ALLOCATOR_DESC D Budget)
    (mDevice : D) (mResidencyManager : option R)
    (resourceHeapType : RESOURCE_HEAP_TYPE) : AllocatorsOfType :=
  let mIsUMA := AllocatorDesc.IsUMA descriptor in
  let mIsAlwaysInBudget :=
    flag_set (AllocatorDesc.AllocatorFlags descriptor)
      ALLOCATOR_FLAG_ALWAYS_IN_BUDGET in
  let mMaxResourceHeapSize := AllocatorDesc.MaxResourceHeapSize descriptor in
  let heapFlags := GetHeapFlags resourceHeapType in
  let heapAlignment := GetHeapAlignment heapFlags in
  let heapType := GetHeapType resourceHeapType in
  let resourceHeapAllocator :=
    ResourceHeapAllocator mResidencyManager mDevice heapType heapFlags
      mIsUMA mIsAlwaysInBudget in
  {| mResourceAllocatorOfType :=
       let buddyAllocator :=
         BuddyMemoryAllocator (PrevPowerOfTwo mMaxResourceHeapSize)
           (AllocatorDesc.PreferredResourceHeapSize descriptor) heapAlignment
           (pooledOrNonPooledAllocator descriptor resourceHeapAllocator
              heapAlignment) in
       SlabCacheAllocator D3D12_DEFAULT_RESOURCE_PLACEMENT_ALIGNMENT
         (PrevPowerOfTwo mMaxResourceHeapSize)
         (AllocatorDesc.PreferredResourceHeapSize descriptor) heapAlignment
         (AllocatorDesc.ResourceFragmentationLimit descriptor)
         (negb (flag_set (AllocatorDesc.AllocatorFlags descriptor)
                  ALLOCATOR_FLAG_DISABLE_MEMORY_PREFETCH))
         buddyAllocator;
     mResourceHeapAllocatorOfType :=
       StandaloneMemoryAllocator
         (pooledOrNonPooledAllocator descriptor resourceHeapAllocator
            heapAlignment);
     mBufferAllocatorOfType :=
       let bufferOnlyAllocator :=
         BufferAllocator heapType D3D12_RESOURCE_FLAG_NONE
           (GetInitialResourceState heapType)
           D3D12_DEFAULT_RESOURCE_PLACEMENT_ALIGNMENT
           D3D12_DEFAULT_RESOURCE_PLACEMENT_ALIGNMENT in
       SlabCacheAllocator 1 D3D12_DEFAULT_RESOURCE_PLACEMENT_ALIGNMENT
         D3D12_DEFAULT_RESOURCE_PLACEMENT_ALIGNMENT
         D3D12_DEFAULT_RESOURCE_PLACEMENT_ALIGNMENT
         PrimFloat.zero false
         (pooledOrNonPooledAllocator descriptor bufferOnlyAllocator
            D3D12_DEFAULT_RESOURCE_PLACEMENT_ALIGNMENT) |}.

(** The allocator at the bottom of a stack: the one that creates memory. *)
Fixpoint innermost (stack : AllocatorStack) : AllocatorStack :=
  match stack with
  | SegmentedMemoryAllocator memoryAllocator _
  | BuddyMemoryAllocator _ _ _ memoryAllocator
  | SlabCacheAllocator _ _ _ _ _ _ memoryAllocator
  | StandaloneMemoryAllocator memoryAllocator => innermost memoryAllocator
  | _ => stack
  end.

(** The alignments of the pools ([SegmentedMemoryAllocator]) of a stack,
    from the outside in. *)
Fixpoint pools (stack : AllocatorStack) : list Z :=
  match stack with
  | SegmentedMemoryAllocator memoryAllocator memoryAlignment =>
      memoryAlignment :: pools memoryAllocator
  | BuddyMemoryAllocator _ _ _ memoryAllocator
  | SlabCacheAllocator _ _ _ _ _ _ memoryAllocator
  | StandaloneMemoryAllocator memoryAllocator => pools memoryAllocator
  | _ => []
  end.

(** Some slab cache of the stack was built with [enablePrefetch]. *)
Fixpoint prefetches (stack : AllocatorStack) : bool :=
  match stack with
  | SlabCacheAllocator _ _ _ _ _ enablePrefetch memoryAllocator =>
      enablePrefetch || prefetches memoryAllocator
  | SegmentedMemoryAllocator memoryAllocator _
  | BuddyMemoryAllocator _ _ _ memoryAllocator
  | StandaloneMemoryAllocator memoryAllocator => prefetches memoryAllocator
  | _ => false
  end.

(** The allocators of a stack that sub-allocate: slab caches and buddy
    allocators. *)
Fixpoint suballocates (stack : AllocatorStack) : bool :=
  match stack with
  | SlabCacheAllocator _ _ _ _ _ _ _
  | BuddyMemoryAllocator _ _ _ _ => true
  | SegmentedMemoryAllocator memoryAllocator _
  | StandaloneMemoryAllocator memoryAllocator => suballocates memoryAllocator
  | _ => false
  end.

End Stacks.
End Stacks.

(** ** The event trace writer (EventTraceWriter.cpp)

    The events are queued in one buffer per thread and written out, as one
    JSON document, by [FlushQueuedEventsToDisk].  A writer owns the buffers
    in its map [mBufferPerThread]; the pointer by which a thread finds its
    buffer is a [thread_local] of [GetOrCreateBufferFromTLS], one per thread
    for all the writers of the process.  A thread is identified by the
    number its id prints as ([threadID]), and the map of the buffers is
    listed in the order in which the buffers were created; the order in
    which the map is iterated matters to no theorem.  The JSON classes are
    outside the tree: a dictionary is the list of the items added, in the
    order of [AddItem].  [written] records the files written, each with
    its whole content ([std::ofstream::open] truncates). *)

Module EventTrace.
Import Ascii String Floats.
Local Open Scope string_scope.
Local Open Scope list_scope.
Local Open Scope Z_scope.

(** Constants of TraceEvent.h and helpers of the platform. *)
Class TraceConstants := {
  TRACE_EVENT_PHASE_BEGIN : ascii;
  TRACE_EVENT_PHASE_END : ascii;
  TRACE_EVENT_PHASE_INSTANT : ascii;
  TRACE_EVENT_PHASE_CREATE_OBJECT : ascii;
  TRACE_EVENT_PHASE_SNAPSHOT_OBJECT : ascii;
  TRACE_EVENT_PHASE_DELETE_OBJECT : ascii;
  TRACE_EVENT_FLAG_HAS_ID : Z;
  TRACE_EVENT_FLAG_HAS_LOCAL_ID : Z;
  TRACE_EVENT_FLAG_HAS_GLOBAL_ID : Z;
  GetPID : Z;
  (** [std::hex] *)
  hex : Z -> string
}.

Inductive TraceEventCategory := Default | Metadata.

#[local] Unset Elimination Schemes.
Inductive JSONValue :=
| JSONString (s : string)
| JSONChar (c : ascii)
| JSONNumber (n : Z)
| JSONDict (items : list (string * JSONValue))
| JSONArray (items : list JSONValue).
#[local] Set Elimination Schemes.

Definition AddItem (key : string) (value : JSONValue)
    (dict : list (string * JSONValue)) : list (string * JSONValue) :=
  dict ++ [(key, value)].

Record TraceEvent := {
  mPhase : ascii;
  mCategory : TraceEventCategory;
  mName : string;
  mID : Z;
  mTID : Z;
  mTimestamp : float;
  mFlags : Z;
  mArgs : list (string * JSONValue)
}.

Record EventTraceWriter := {
  mTraceFile : string;
  mSkipDurationEvents : bool;
  mSkipObjectEvents : bool;
  mSkipInstantEvents : bool;
  mBufferPerThread : list (Z * list TraceEvent);
  written : list (string * JSONValue)
}.

Definition with_buffers (buffers : list (Z * list TraceEvent))
    (self : EventTraceWriter) : EventTraceWriter :=
  {| mTraceFile := mTraceFile self;
     mSkipDurationEvents := mSkipDurationEvents self;
     mSkipObjectEvents := mSkipObjectEvents self;
     mSkipInstantEvents := mSkipInstantEvents self;
     mBufferPerThread := buffers;
     written := written self |}.

Definition write (file : string) (content : JSONValue)
    (self : EventTraceWriter) : EventTraceWriter :=
  {| mTraceFile := mTraceFile self;
     mSkipDurationEvents := mSkipDurationEvents self;
     mSkipObjectEvents := mSkipObjectEvents self;
     mSkipInstantEvents := mSkipInstantEvents self;
     mBufferPerThread := mBufferPerThread self;
     written := written self ++ [(file, content)] |}.

Definition SetConfiguration (traceFile : string)
    (skipDurationEvents skipObjectEvents skipInstantEvents : bool)
    (self : EventTraceWriter) : EventTraceWriter :=
  {| mTraceFile := traceFile;
     mSkipDurationEvents := skipDurationEvents;
     mSkipObjectEvents := skipObjectEvents;
     mSkipInstantEvents := skipInstantEvents;
     mBufferPerThread := mBufferPerThread self;
     written := written self |}.

(** The process: the [EventTraceWriter] objects by address, the addresses
    of those that were destroyed, and the [thread_local] pointer
    [pBufferInTLS] of each thread that has one, which is never reset: the
    writer in whose map the buffer it points to was put. *)
Record Process := {
  writers : list EventTraceWriter;
  destroyed : list nat;
  pBufferInTLS : list (Z * nat)
}.

(** The object at the address [self], unless it was destroyed. *)
Definition writer_at (self : nat) (process : Process)
    : option EventTraceWriter :=
  if existsb (Nat.eqb self) (destroyed process) then None
  else nth_error (writers process) self.

Fixpoint replace_nth {A : Type} (n : nat) (x : A) (l : list A) : list A :=
  match l, n with
  | [], _ => []
  | _ :: l, O => x :: l
  | y :: l, S n => y :: replace_nth n x l
  end.

Definition set_writer (self : nat) (writer : EventTraceWriter)
    (process : Process) : Process :=
  {| writers := replace_nth self writer (writers process);
     destroyed := destroyed process;
     pBufferInTLS := pBufferInTLS process |}.

Fixpoint lookup_TLS (threadID : Z) (tls : list (Z * nat)) : option nat :=
  match tls with
  | [] => None
  | (thread, owner) :: tls =>
      if thread =? threadID then Some owner else lookup_TLS threadID tls
  end.

(** [mBufferPerThread[threadID] = std::move(buffer)] *)
Fixpoint assign (threadID : Z) (buffer : list TraceEvent)
    (buffers : list (Z * list TraceEvent)) : list (Z * list TraceEvent) :=
  match buffers with
  | [] => [(threadID, buffer)]
  | (thread, old) :: rest =>
      if thread =? threadID then (thread, buffer) :: rest
      else (thread, old) :: assign threadID buffer rest
  end.

(** [push_back] on the buffer of [threadID] in a map; [None]: there is no
    such buffer. *)
Fixpoint append_to (threadID : Z) (event : TraceEvent)
    (buffers : list (Z * list TraceEvent))
    : option (list (Z * list TraceEvent)) :=
  match buffers with
  | [] => None
  | (thread, buffer) :: rest =>
      if thread =? threadID then Some ((thread, buffer ++ [event]) :: rest)
      else
        match append_to threadID event rest with
        | Some rest => Some ((thread, buffer) :: rest)
        | None => None
        end
  end.

(** [GetOrCreateBufferFromTLS], called on [self] by the thread [threadID]:
    the pointer it returns is given as the writer that owns the buffer.
    Only a thread whose pointer is null gets a new buffer, in the map of
    [self]; any other thread gets the buffer its pointer was set to,
    whichever writer owns it. *)
Definition GetOrCreateBufferFromTLS (self : nat) (threadID : Z)
    (process : Process) : option (nat * Process) :=
  match lookup_TLS threadID (pBufferInTLS process) with
  | Some owner => Some (owner, process)
  | None =>
      match writer_at self process with
      | None => None
      | Some writer =>
          Some (self,
                {| writers :=
                     replace_nth self
                       (with_buffers
                          (assign threadID [] (mBufferPerThread writer))
                          writer)
                       (writers process);
                   destroyed := destroyed process;
                   pBufferInTLS := (threadID, self) :: pBufferInTLS process |})
      end
  end.

(** [push_back] through the pointer; [None]: the buffer went with the
    writer that owned it. *)
Definition push_back (owner : nat) (threadID : Z) (event : TraceEvent)
    (process : Process) : option Process :=
  match writer_at owner process with
  | None => None
  | Some writer =>
      match append_to threadID event (mBufferPerThread writer) with
      | None => None
      | Some buffers =>
          Some (set_writer owner (with_buffers buffers writer) process)
      end
  end.

(** [EnqueueTraceEvent] on the writer at [self]; [timestampInSeconds] is
    what [mPlatformTime->GetRelativeTime()] returns, [threadID] the number
    of the calling thread. *)
Definition EnqueueTraceEvent (self : nat) (timestampInSeconds : float)
    (threadID : Z) (phase : ascii) (category : TraceEventCategory)
    (name : string) (id : Z) (flags : Z) (args : list (string * JSONValue))
    (process : Process) : option Process :=
  match writer_at self process with
  | None => None
  | Some _ =>
      if negb (PrimFloat.eqb timestampInSeconds 0) then
        match GetOrCreateBufferFromTLS self threadID process with
        | None => None
        | Some (owner, process) =>
            push_back owner threadID
              {| mPhase := phase; mCategory := category; mName := name;
                 mID := id; mTID := threadID;
                 mTimestamp := timestampInSeconds; mFlags := flags;
                 mArgs := args |}
              process
        end
      else Some process
  end.

Definition MergeAndClearBuffers (buffers : list (Z * list TraceEvent))
    : list TraceEvent * list (Z * list TraceEvent) :=
  (List.concat (map snd buffers), map (fun b => (fst b, [])) buffers).

Section Flush.
Context {T : TraceConstants}.

(** The three [continue] of the loop. *)
Definition skipped (self : EventTraceWriter) (traceEvent : TraceEvent)
    : bool :=
  (mSkipDurationEvents self &&
   (Ascii.eqb (mPhase traceEvent) TRACE_EVENT_PHASE_BEGIN ||
    Ascii.eqb (mPhase traceEvent) TRACE_EVENT_PHASE_END)) ||
  (mSkipObjectEvents self &&
   (Ascii.eqb (mPhase traceEvent) TRACE_EVENT_PHASE_CREATE_OBJECT ||
    Ascii.eqb (mPhase traceEvent) TRACE_EVENT_PHASE_DELETE_OBJECT ||
    Ascii.eqb (mPhase traceEvent) TRACE_EVENT_PHASE_SNAPSHOT_OBJECT)) ||
  (mSkipInstantEvents self &&
   Ascii.eqb (mPhase traceEvent) TRACE_EVENT_PHASE_INSTANT).

(** The [eventData] of an event that is not skipped; [None] where the code
    reaches [UNREACHABLE()] or converts a timestamp that does not fit. *)
Definition eventData (traceEvent : TraceEvent) : option JSONValue :=
  let data := AddItem "name" (JSONString (mName traceEvent)) [] in
  let data :=
    match mCategory traceEvent with
    | Default => AddItem "cat" (JSONString "default") data
    | Metadata => AddItem "cat" (JSONString "__metadata") data
    end in
  let data := AddItem "ph" (JSONChar (mPhase traceEvent)) data in
  let idFlags :=
    Z.land (mFlags traceEvent)
      (Z.lor (Z.lor TRACE_EVENT_FLAG_HAS_ID TRACE_EVENT_FLAG_HAS_LOCAL_ID)
             TRACE_EVENT_FLAG_HAS_GLOBAL_ID) in
  let traceEventID := String.append "0x" (hex (mID traceEvent)) in
  let withID :=
    if idFlags =? 0 then Some data
    else if idFlags =? TRACE_EVENT_FLAG_HAS_ID then
      Some (AddItem "id" (JSONString traceEventID) data)
    else if idFlags =? TRACE_EVENT_FLAG_HAS_LOCAL_ID then
      Some (AddItem "id2"
              (JSONDict (AddItem "local" (JSONString traceEventID) [])) data)
    else if idFlags =? TRACE_EVENT_FLAG_HAS_GLOBAL_ID then
      Some (AddItem "id2"
              (JSONDict (AddItem "global" (JSONString traceEventID) [])) data)
    else None in
  match withID with
  | None => None
  | Some data =>
      let data := AddItem "tid" (JSONNumber (mTID traceEvent)) data in
      match Caps.double_to_uint64
              (mTimestamp traceEvent * 1000 * 1000)%float with
      | None => None
      | Some microseconds =>
          let data := AddItem "ts" (JSONNumber microseconds) data in
          let data := AddItem "pid" (JSONNumber GetPID) data in
          Some (JSONDict
                  (match mArgs traceEvent with
                   | [] => data
                   | _ => AddItem "args" (JSONDict (mArgs traceEvent)) data
                   end))
      end
  end.

(** The loop over the merged buffer. *)
Fixpoint traceEvents (self : EventTraceWriter) (mergedBuffer : list TraceEvent)
    : option (list JSONValue) :=
  match mergedBuffer with
  | [] => Some []
  | traceEvent :: rest =>
      if skipped self traceEvent then traceEvents self rest
      else
        match eventData traceEvent with
        | None => None
        | Some data =>
            match traceEvents self rest with
            | None => None
            | Some events => Some (data :: events)
            end
        end
  end.

Definition traceData (events : list JSONValue) : JSONValue :=
  JSONDict (AddItem "traceEvents" (JSONArray events) []).

Definition FlushQueuedEventsToDisk (self : EventTraceWriter)
    : option EventTraceWriter :=
  let (mergedBuffer, buffers) := MergeAndClearBuffers (mBufferPerThread self) in
  let self := with_buffers buffers self in
  match traceEvents self mergedBuffer with
  | None => None
  | Some events =>
      match mergedBuffer with
      | [] => Some self
      | _ => Some (write (mTraceFile self) (traceData events) self)
      end
  end.

End Flush.

(** [FlushQueuedEventsToDisk] on the writer at [self], and its destructor,
    which flushes before the buffers go with the writer. *)
Definition Flush {T : TraceConstants} (self : nat) (process : Process)
    : option Process :=
  match writer_at self process with
  | None => None
  | Some writer =>
      match FlushQueuedEventsToDisk writer with
      | None => None
      | Some writer => Some (set_writer self writer process)
      end
  end.

Definition Destroy {T : TraceConstants} (self : nat) (process : Process)
    : option Process :=
  match Flush self process with
  | None => None
  | Some process =>
      Some {| writers := writers process;
              destroyed := self :: destroyed process;
              pBufferInTLS := pBufferInTLS process |}
  end.

(** The events enqueued on the writer at [self] one after the other, each
    with the timestamp and on the thread it records. *)
Fixpoint enqueue_all (self : nat) (events : list TraceEvent)
    (process : Process) : option Process :=
  match events with
  | [] => Some process
  | event :: events =>
      match EnqueueTraceEvent self (mTimestamp event) (mTID event)
              (mPhase event) (mCategory event) (mName event) (mID event)
              (mFlags event) (mArgs event) process with
      | None => None
      | Some process => enqueue_all self events process
      end
  end.






(** The two results of [MergeAndClearBuffers]. *)
Definition merged (buffers : list (Z * list TraceEvent)) : list TraceEvent :=
  fst (MergeAndClearBuffers buffers).

Definition cleared (buffers : list (Z * list TraceEvent))
    : list (Z * list TraceEvent) :=
  snd (MergeAndClearBuffers buffers).



End EventTrace.

(** ** [GetExecutableDirectory] (PlatformUtils.cpp) *)

Module PlatformUtils.
Import Ascii String.
Local Open Scope string_scope.

Inductive Platform := GPGMM_PLATFORM_WINDOWS | GPGMM_PLATFORM_POSIX.

Definition GetPathSeparator (platform : Platform) : string :=
  match platform with
  | GPGMM_PLATFORM_WINDOWS => String (ascii_of_nat 92) EmptyString
  | GPGMM_PLATFORM_POSIX => "/"
  end.

(** Whether a character occurs in a string. *)
Fixpoint occurs (c : ascii) (chars : string) : bool :=
  match chars with
  | EmptyString => false
  | String c' chars => Ascii.eqb c c' || occurs c chars
  end.

(** [std::string::find_last_of(chars)]: the position of the last character
    that is one of [chars]; [None] is [npos]. *)
Fixpoint find_last_of (s chars : string) : option nat :=
  match s with
  | EmptyString => None
  | String c s =>
      match find_last_of s chars with
      | Some position => Some (S position)
      | None => if occurs c chars then Some 0%nat else None
      end
  end.

(** [GetExecutableDirectory], for the path [GetExecutablePath()]
    returns. *)
Definition GetExecutableDirectory (platform : Platform) (exePath : string)
    : string :=
  match find_last_of exePath (GetPathSeparator platform) with
  | Some lastPathSepLoc => substring 0 (lastPathSepLoc + 1) exePath
  | None => ""
  end.

End PlatformUtils.

(** ** A reference instance of the collaborators

    Small executable collaborators on which the facade can be run: a pool of
    whole heaps standing for the allocator stacks, a budget without eviction
    candidates standing for the residency manager, and a device that hands
    out fresh resource handles. *)

#[local] Instance gpgmm_constants : HeaderConstants := {|
  kInvalidSize := 2 ^ 64 - 1;
  kInvalidOffset := 2 ^ 64 - 1;
  ALLOCATION_FLAG_NEVER_ALLOCATE_MEMORY := 0x1;
  ALLOCATION_FLAG_ALLOW_SUBALLOCATE_WITHIN_RESOURCE := 0x2;
  ALLOCATION_FLAG_NEVER_SUBALLOCATE_MEMORY := 0x4;
  ALLOCATION_FLAG_ALWAYS_PREFETCH_MEMORY := 0x8;
  kCountBits := 32
|}.

Record Pool := {
  pooled : list Heap;
  poolMemorySize : Z;
  poolUsedCount : Z;
  poolUsedBytes : Z
}.

Definition pool_allocation (allocator : AllocatorRef) (h : Heap)
    : MemoryAllocation :=
  {| mAllocator := Some allocator; mMemory := Some h; mOffset := 0;
     mMethod := kStandalone; mBlock := None |}.

Definition pool_TryAllocateMemory (allocator : AllocatorRef)
    (size alignment : Z) (neverAllocate cacheSize prefetchMemory : bool)
    (p : Pool) : option MemoryAllocation * Pool :=
  match pooled p with
  | h :: rest =>
      if size <=? mSize h then
        (Some (pool_allocation allocator h),
         {| pooled := rest; poolMemorySize := poolMemorySize p;
            poolUsedCount := poolUsedCount p + 1;
            poolUsedBytes := poolUsedBytes p + mSize h |})
      else (None, p)
  | [] =>
      if neverAllocate then (None, p)
      else
        let h := {| mPageable := None;
                    mMemorySegmentGroup := DXGI_MEMORY_SEGMENT_GROUP_LOCAL;
                    mSize := size |} in
        (Some (pool_allocation allocator h),
         {| pooled := []; poolMemorySize := poolMemorySize p;
            poolUsedCount := poolUsedCount p + 1;
            poolUsedBytes := poolUsedBytes p + size |})
  end.

Definition pool_DeallocateMemory (allocator : AllocatorRef)
    (a : MemoryAllocation) (p : Pool) : Pool :=
  match mMemory a with
  | Some h =>
      {| pooled := h :: pooled p; poolMemorySize := poolMemorySize p;
         poolUsedCount := poolUsedCount p - 1;
         poolUsedBytes := poolUsedBytes p - mSize h |}
  | None => p
  end.

#[local] Instance pool_MemoryAllocator : MemoryAllocator Pool := {|
  GetMemorySize := fun _ p => poolMemorySize p;
  TryAllocateMemory := pool_TryAllocateMemory;
  DeallocateMemory := pool_DeallocateMemory;
  AllocatorQueryInfo := fun _ p =>
    {| UsedBlockUsage := 0; UsedMemoryCount := poolUsedCount p;
       UsedMemoryUsage := poolUsedBytes p;
       FreeMemoryUsage := fold_right (fun h s => mSize h + s) 0 (pooled p) |}
|}.

Record Budget := {
  budgetLimit : Z;
  budgetUsed : Z
}.

#[local] Instance budget_ResidencyManager : ResidencyManager Budget := {|
  Evict := fun size _ b =>
    (if budgetUsed b + size <=? budgetLimit b then S_OK else E_OUTOFMEMORY, b);
  InsertHeap := fun h b =>
    {| budgetLimit := budgetLimit b; budgetUsed := budgetUsed b + mSize h |};
  LockHeap := fun _ b => b;
  UnlockHeap := fun _ b => b
|}.

Record SimpleDevice := {
  nextResource : ID3D12Resource;
  placedResult : HRESULT;
  committedResult : HRESULT
}.

Definition simple_create (hr : HRESULT) (d : SimpleDevice)
    : (HRESULT * ComPtr) * SimpleDevice :=
  if FAILED hr then ((hr, None), d)
  else ((hr, Some (nextResource d)),
        {| nextResource := nextResource d + 1;
           placedResult := placedResult d;
           committedResult := committedResult d |}).

#[local] Instance simple_Device : Device SimpleDevice := {|
  DeviceGetResourceAllocationInfo := fun _ desc =>
    {| SizeInBytes := Width desc;
       InfoAlignment := D3D12_DEFAULT_RESOURCE_PLACEMENT_ALIGNMENT |};
  DeviceCreatePlacedResource := fun _ _ _ _ _ d => simple_create (placedResult d) d;
  DeviceCreateCommittedResource := fun _ _ _ _ _ d =>
    simple_create (committedResult d) d;
  PageableAsResource := fun _ p => (S_OK, p);
  GetPreferredMemorySegmentGroup := fun _ isUMA heapType =>
    if isUMA then DXGI_MEMORY_SEGMENT_GROUP_LOCAL
    else match heapType with
         | D3D12_HEAP_TYPE_DEFAULT => DXGI_MEMORY_SEGMENT_GROUP_LOCAL
         | _ => DXGI_MEMORY_SEGMENT_GROUP_NON_LOCAL
         end;
  AlignTo := fun value alignment =>
    Z.land (wrap64 (value + (alignment - 1))) (Z.lnot (alignment - 1));
  IsAllowedToUseSmallAlignment := fun _ => false
|}.

Definition SampleWorld := World Pool Budget SimpleDevice.

Definition sample_world (alwaysCommitted alwaysInBudget : bool)
    (residency : option Budget) (pool : Pool) (device : SimpleDevice)
    : SampleWorld :=
  {| this := {| mDevice := device; mResidencyManager := residency;
                mCapsMaxResourceSize := 2 ^ 40 - 1; mIsUMA := false;
                mResourceHeapTier := D3D12_RESOURCE_HEAP_TIER_2;
                mIsAlwaysCommitted := alwaysCommitted;
                mIsAlwaysInBudget := alwaysInBudget;
                mMaxResourceHeapSize := 2 ^ 32;
                mInfo := zero_info; mAllocators := pool |};
     resourceAllocationOut := None;
     calls := [] |}.

Definition empty_pool (memorySize : Z) : Pool :=
  {| pooled := []; poolMemorySize := memorySize;
     poolUsedCount := 0; poolUsedBytes := 0 |}.

Definition working_device : SimpleDevice :=
  {| nextResource := 1; placedResult := S_OK; committedResult := S_OK |}.

Definition buffer_desc (width : Z) : D3D12_RESOURCE_DESC :=
  {| Dimension := D3D12_RESOURCE_DIMENSION_BUFFER; Alignment := 0;
     Width := width; Height := 1; DepthOrArraySize := 1; MipLevels := 1;
     Format := 0; Layout := 1; SampleDesc_Count := 1;
     SampleDesc_Quality := 0; Flags := D3D12_RESOURCE_FLAG_NONE |}.

Definition texture_desc (width : Z) : D3D12_RESOURCE_DESC :=
  {| Dimension := D3D12_RESOURCE_DIMENSION_TEXTURE2D; Alignment := 0;
     Width := width; Height := 1; DepthOrArraySize := 1; MipLevels := 1;
     Format := 28; Layout := 0; SampleDesc_Count := 1;
     SampleDesc_Quality := 0; Flags := D3D12_RESOURCE_FLAG_NONE |}.

Definition default_heap (flags : Z) : ALLOCATION_DESC :=
  {| AllocationFlags := flags; HeapType := D3D12_HEAP_TYPE_DEFAULT |}.

Definition DEFAULT_ALL : RESOURCE_HEAP_TYPE :=
  RESOURCE_HEAP_TYPE_DEFAULT_ALLOW_ALL_BUFFERS_AND_TEXTURES.

(** A pooling facade over an empty pool of 4 MiB heaps. *)
Definition pooling_world : SampleWorld :=
  sample_world false false None (empty_pool (2 ^ 22)) working_device.

(** The same, on a device that refuses to place resources. *)
Definition failing_placement_world : SampleWorld :=
  sample_world false false None (empty_pool (2 ^ 22))
    {| nextResource := 1; placedResult := E_INVALIDARG; committedResult := S_OK |}.

(** An always-committed facade. *)
Definition committed_world : SampleWorld :=
  sample_world true false None (empty_pool (2 ^ 22)) working_device.

(** An always-committed, always-in-budget facade whose budget is too small
    for a 64 KiB resource. *)
Definition tight_budget_world : SampleWorld :=
  sample_world true true (Some {| budgetLimit := 1000; budgetUsed := 0 |})
    (empty_pool (2 ^ 22)) working_device.

Definition result_world {A W} (r : option (A * W)) (w : W) : W :=
  match r with Some (_, w') => w' | None => w end.

(** An allocation handed out by the resource allocator of the pool. *)
Definition pooled_allocation : ResourceAllocation :=
  {| base := pool_allocation (ResourceAllocatorOfType DEFAULT_ALL)
               {| mPageable := None;
                  mMemorySegmentGroup := DXGI_MEMORY_SEGMENT_GROUP_LOCAL;
                  mSize := 65536 |};
     raResidencyManager := None;
     mResource := Some 1 |}.

(** The same facade on a device that creates no resource at all. *)
Definition broken_world : SampleWorld :=
  sample_world false false None (empty_pool (2 ^ 22))
    {| nextResource := 1; placedResult := E_INVALIDARG;
       committedResult := E_OUTOFMEMORY |}.

(** A pooling facade with a residency manager. *)
Definition managed_world : SampleWorld :=
  sample_world false false (Some {| budgetLimit := 2 ^ 30; budgetUsed := 0 |})
    (empty_pool (2 ^ 22)) working_device.

Definition custom_heap : ALLOCATION_DESC :=
  {| AllocationFlags := 0; HeapType := D3D12_HEAP_TYPE_CUSTOM |}.

(** Resources of the reference device: the resource [n] is a buffer of [n]
    times 64 KiB in the default heap; a negative handle is a resource that
    does not give its heap properties. *)
#[local] Instance simple_Resources : Resources SimpleDevice := {|
  ResourceGetDesc := fun _ resource => buffer_desc (65536 * resource);
  ResourceGetHeapProperties := fun _ resource =>
    (if resource <? 0 then E_FAIL else S_OK, D3D12_HEAP_TYPE_DEFAULT);
  ResourceMap := fun _ _ _ d => (S_OK, d);
  ResourceUnmap := fun _ _ _ d => d
|}.

(** A heap can be locked when it fits in the budget. *)
#[local] Instance budget_HeapLock : HeapLock Budget := {|
  LockHeapResult := fun heap b =>
    if budgetUsed b + mSize heap <=? budgetLimit b then S_OK else E_OUTOFMEMORY
|}.

(** An allocation with a residency manager, in a heap of 64 KiB. *)
Definition managed_allocation : ResourceAllocation :=
  {| base := base pooled_allocation;
     raResidencyManager := Some TheResidencyManager;
     mResource := Some 1 |}.

#[local] Instance gpgmm_allocator_constants : AllocatorConstants := {|
  kDefaultPreferredResourceHeapSize := 4 * 1024 * 1024;
  kDefaultFragmentationLimit := FloatOps.Z.ldexp PrimFloat.one (- 3);
  ALLOCATOR_FLAG_ALWAYS_COMMITED := 0x1;
  ALLOCATOR_FLAG_ALWAYS_IN_BUDGET := 0x2;
  ALLOCATOR_FLAG_DISABLE_MEMORY_PREFETCH := 0x4;
  ALLOCATOR_FLAG_ALWAYS_ON_DEMAND := 0x8;
  PrevPowerOfTwo := fun n => if 0 <? n then 2 ^ Z.log2 n else 0
|}.

(** A device with 40 address bits per resource and per process. *)
Definition sample_feature : Caps.D3D12_FEATURE_DATA_GPU_VIRTUAL_ADDRESS_SUPPORT :=
  {| Caps.MaxGPUVirtualAddressBitsPerResource := 40;
     Caps.MaxGPUVirtualAddressBitsPerProcess := 40 |}.

#[local] Instance simple_Platform : Platform Pool Budget SimpleDevice unit := {|
  CheckFeatureSupport := fun _ => (S_OK, sample_feature);
  AdapterGetDesc := fun _ => S_OK;
  CreateResidencyManager := fun _ _ _ _ =>
    (S_OK, Some {| budgetLimit := 2 ^ 30; budgetUsed := 0 |});
  NewAllocators := fun _ _ => empty_pool (2 ^ 22);
  NewInfo := zero_info
|}.

(** A descriptor that leaves the sizes to their defaults, but for a maximum
    resource heap size of 1 GiB. *)
Definition sample_descriptor : ALLOCATOR_DESC SimpleDevice unit :=
  {| AllocatorDesc.Adapter := Some 1;
     AllocatorDesc.Device := Some working_device;
     AllocatorDesc.AllocatorFlags := 0;
     AllocatorDesc.IsUMA := false;
     AllocatorDesc.ResourceHeapTier := D3D12_RESOURCE_HEAP_TIER_2;
     AllocatorDesc.PreferredResourceHeapSize := 0;
     AllocatorDesc.MaxResourceHeapSize := 2 ^ 30;
     AllocatorDesc.ResourceFragmentationLimit := PrimFloat.zero;
     AllocatorDesc.BudgetOptions := tt |}.

Definition sample_caps : Caps.Caps :=
  {| Caps.mMaxResourceSize := 2 ^ 40 - 1;
     Caps.mMaxResourceHeapSize := 2 ^ 40 - 1 |}.

(** The world of the allocator made from [sample_descriptor]. *)
Definition created_world : SampleWorld :=
  {| this := new_ResourceAllocator (newDescriptor sample_descriptor sample_caps)
               working_device None sample_caps;
     resourceAllocationOut := None;
     calls := [] |}.

(** A writer that skips instant events, and events of two threads. *)
Module TraceSample.
Import Ascii String EventTrace.
Local Open Scope string_scope.

#[export] Instance sample_TraceConstants : TraceConstants := {|
  TRACE_EVENT_PHASE_BEGIN := "B";
  TRACE_EVENT_PHASE_END := "E";
  TRACE_EVENT_PHASE_INSTANT := "i";
  TRACE_EVENT_PHASE_CREATE_OBJECT := "N";
  TRACE_EVENT_PHASE_SNAPSHOT_OBJECT := "O";
  TRACE_EVENT_PHASE_DELETE_OBJECT := "D";
  TRACE_EVENT_FLAG_HAS_ID := 0x1;
  TRACE_EVENT_FLAG_HAS_LOCAL_ID := 0x2;
  TRACE_EVENT_FLAG_HAS_GLOBAL_ID := 0x4;
  GetPID := 7;
  hex := fun n =>
    HexadecimalString.NilZero.string_of_uint (N.to_hex_uint (Z.to_N n))
|}.

Definition new_writer : EventTraceWriter :=
  {| mTraceFile := "trace.json";
     mSkipDurationEvents := false;
     mSkipObjectEvents := false;
     mSkipInstantEvents := true;
     mBufferPerThread := [];
     written := [] |}.

Definition sample_event (phase : ascii) (threadID : Z)
    (timestamp : PrimFloat.float) (flags : Z) : TraceEvent :=
  {| mPhase := phase; mCategory := Default; mName := "allocation";
     mID := 255; mTID := threadID; mTimestamp := timestamp;
     mFlags := flags; mArgs := [] |}.

Definition one_second : PrimFloat.float := PrimFloat.one.

(** Thread 1 begins, thread 2 creates an object, thread 1 logs an instant
    event and ends; an event without a timestamp comes last. *)
Definition sample_events : list TraceEvent :=
  [ sample_event "B" 1 one_second 0;
    sample_event "N" 2 one_second 0x1;
    sample_event "i" 1 one_second 0;
    sample_event "E" 1 one_second 0;
    sample_event "E" 2 PrimFloat.zero 0 ].

Definition instant_events : list TraceEvent :=
  [ sample_event "i" 1 one_second 0; sample_event "i" 2 one_second 0 ].

(** A process with one writer, no thread of which has traced yet, and the
    writer after the events were enqueued on it. *)
Definition new_process : Process :=
  {| writers := [new_writer]; destroyed := []; pBufferInTLS := [] |}.

Definition enqueued (events : list TraceEvent) : EventTraceWriter :=
  match enqueue_all 0 events new_process with
  | Some process =>
      match writer_at 0 process with
      | Some writer => writer
      | None => new_writer
      end
  | None => new_writer
  end.

End TraceSample.

(** * Verification *)

(** ** The pure helpers on a few inputs *)

Example FAILED_codes :
  FAILED S_OK = false /\ FAILED E_FAIL = true /\
  FAILED E_OUTOFMEMORY = true /\ FAILED E_INVALIDARG = true.
Proof. repeat split. Qed.

Example GetHeapAlignment_buffers :
  GetHeapAlignment D3D12_HEAP_FLAG_ALLOW_ONLY_BUFFERS = 65536.
Proof. reflexivity. Qed.

Example GetHeapAlignment_all :
  GetHeapAlignment D3D12_HEAP_FLAG_ALLOW_ALL_BUFFERS_AND_TEXTURES = 4194304.
Proof. reflexivity. Qed.

Example GetResourceHeapType_tier1_render_target :
  GetResourceHeapType D3D12_RESOURCE_DIMENSION_TEXTURE2D D3D12_HEAP_TYPE_DEFAULT
    D3D12_RESOURCE_FLAG_ALLOW_RENDER_TARGET D3D12_RESOURCE_HEAP_TIER_1
  = RESOURCE_HEAP_TYPE_DEFAULT_ALLOW_ONLY_RT_OR_DS_TEXTURES.
Proof. reflexivity. Qed.

Example GetResourceHeapType_custom :
  GetResourceHeapType D3D12_RESOURCE_DIMENSION_BUFFER D3D12_HEAP_TYPE_CUSTOM
    D3D12_RESOURCE_FLAG_NONE D3D12_RESOURCE_HEAP_TIER_2
  = RESOURCE_HEAP_TYPE_INVALID.
Proof. reflexivity. Qed.

(** The valid heap types never reach the [UNREACHABLE()] of
    [GetInitialResourceState]. *)
Lemma GetInitialResourceState_valid dimension heapType flags tier :
  GetResourceHeapType dimension heapType flags tier <> RESOURCE_HEAP_TYPE_INVALID ->
  GetInitialResourceState heapType <> None.
Proof.
  unfold GetResourceHeapType.
  destruct (_ <=? _), dimension, heapType; cbn; congruence.
Qed.

Lemma FAILED_SUCCEEDED (hr : HRESULT) : SUCCEEDED hr = negb (FAILED hr).
Proof. unfold SUCCEEDED, FAILED. destruct (Z.ltb_spec hr 0), (Z.leb_spec 0 hr); auto; lia. Qed.

(** ** Runs of the monad *)

Section Runs.
Context {W : Type}.

Lemma bind_Some {A B} (m : St W A) (k : A -> St W B) w b w2 :
  bind m k w = Some (b, w2) <->
  exists a w1, m w = Some (a, w1) /\ k a w1 = Some (b, w2).
Proof.
  unfold bind. split.
  - destruct (m w) as [[a w1]|]; [eauto | discriminate].
  - intros (a & w1 & -> & Hk). exact Hk.
Qed.

Lemma ReturnIfFailed_Some (expr rest : St W HRESULT) w hr w2 :
  ReturnIfFailed expr rest w = Some (hr, w2) <->
  (expr w = Some (hr, w2) /\ FAILED hr = true) \/
  (exists hr1 w1, expr w = Some (hr1, w1) /\ FAILED hr1 = false /\
                  rest w1 = Some (hr, w2)).
Proof.
  unfold ReturnIfFailed. rewrite bind_Some. split.
  - intros (hr1 & w1 & He & Hk). destruct (FAILED hr1) eqn:F.
    + inversion Hk; subst. left; auto.
    + right; eauto.
  - intros [[He F] | (hr1 & w1 & He & F & Hk)].
    + exists hr, w2. rewrite F. auto.
    + exists hr1, w1. rewrite F. auto.
Qed.

Lemma ReturnIfSucceededWhen_Some (cond : bool) (expr rest : St W HRESULT)
    w hr w2 :
  ReturnIfSucceededWhen cond expr rest w = Some (hr, w2) <->
  (cond = true /\ expr w = Some (hr, w2) /\ SUCCEEDED hr = true) \/
  (cond = true /\
   exists hr1 w1, expr w = Some (hr1, w1) /\ SUCCEEDED hr1 = false /\
                  rest w1 = Some (hr, w2)) \/
  (cond = false /\ rest w = Some (hr, w2)).
Proof.
  unfold ReturnIfSucceededWhen, ReturnIfSucceeded. destruct cond.
  - rewrite bind_Some. split.
    + intros (hr1 & w1 & He & Hk). destruct (SUCCEEDED hr1) eqn:S1.
      * inversion Hk; subst. left; auto.
      * right; left; eauto 8.
    + intros [(_ & He & S1) | [(_ & hr1 & w1 & He & S1 & Hk) | (C & _)]];
        try discriminate.
      * exists hr, w2. rewrite S1. auto.
      * exists hr1, w1. rewrite S1. auto.
  - split; [intros; right; right; auto |].
    intros [(C & _) | [(C & _) | (_ & Hk)]]; (discriminate || assumption).
Qed.

(** A transition relation that every step of a computation respects is
    respected by the whole run. *)
Section Steps.
Variable I : W -> W -> Prop.
Hypothesis I_refl : forall w, I w w.
Hypothesis I_trans : forall w1 w2 w3, I w1 w2 -> I w2 w3 -> I w1 w3.

Lemma steps_ret {A} (a : A) : steps I (ret a).
Proof. intros w a' w' E. inversion E; subst. apply I_refl. Qed.

Lemma steps_abort {A} : steps I (@abort W A).
Proof. intros w a w' E. discriminate. Qed.

Lemma steps_gets {A} (f : W -> A) : steps I (gets f).
Proof. intros w a w' E. inversion E; subst. apply I_refl. Qed.

Lemma steps_bind {A B} (m : St W A) (k : A -> St W B) :
  steps I m -> (forall a, steps I (k a)) -> steps I (bind m k).
Proof.
  intros Hm Hk w b w2 E. apply bind_Some in E as (a & w1 & E1 & E2).
  eapply I_trans; [eapply Hm | eapply Hk]; eauto.
Qed.

Lemma steps_modify (f : W -> W) : (forall w, I w (f w)) -> steps I (modify f).
Proof. intros Hf w a w' E. inversion E; subst. apply Hf. Qed.

Lemma steps_ReturnIfFailed (expr rest : St W HRESULT) :
  steps I expr -> steps I rest -> steps I (ReturnIfFailed expr rest).
Proof.
  intros He Hr. apply steps_bind; [assumption |].
  intros hr. destruct (FAILED hr); [apply steps_ret | assumption].
Qed.

Lemma steps_ReturnIfSucceededWhen cond (expr rest : St W HRESULT) :
  steps I expr -> steps I rest -> steps I (ReturnIfSucceededWhen cond expr rest).
Proof.
  intros He Hr. unfold ReturnIfSucceededWhen, ReturnIfSucceeded.
  destruct cond; [| assumption].
  apply steps_bind; [assumption |].
  intros hr. destruct (SUCCEEDED hr); [apply steps_ret | assumption].
Qed.
End Steps.
End Runs.

(** ** [TryAllocateResource] *)

Section TryAllocateResourceFacts.
Context {K : HeaderConstants} {M R D : Type}.
Context {MA : MemoryAllocator M} {RM : ResidencyManager R} {DV : Device D}.
Local Abbreviation W := (World M R D).

(** C3.  An allocator with a fixed memory size ([GetMemorySize() !=
    kInvalidSize]) that is asked for more than that size makes
    [TryAllocateResource] return [E_FAIL] at once: the world is left exactly
    as it was, so [TryAllocateMemory] is not called (nothing is logged) and
    no allocator state changes. *)
Theorem TryAllocateResource_rejects_oversized
    (allocator : AllocatorRef) (size alignment : Z)
    (neverAllocate cacheSize prefetchMemory : bool)
    (createResourceFn : MemoryAllocation -> St W HRESULT) (w : W) :
  GetMemorySize allocator (mAllocators (this w)) <> kInvalidSize ->
  size > GetMemorySize allocator (mAllocators (this w)) ->
  TryAllocateResource allocator size alignment neverAllocate cacheSize
    prefetchMemory createResourceFn w = Some (E_FAIL, w).
Proof.
  intros Hfixed Hsize. unfold TryAllocateResource, bind, allocator_GetMemorySize, gets.
  destruct (Z.eqb_spec (GetMemorySize allocator (mAllocators (this w))) kInvalidSize)
    as [E | _]; [contradiction |].
  destruct (Z.ltb_spec (GetMemorySize allocator (mAllocators (this w))) size)
    as [_ | L]; [reflexivity | lia].
Qed.

Lemma TryAllocateResource_fits allocator size alignment neverAllocate
    cacheSize prefetchMemory (createResourceFn : MemoryAllocation -> St W HRESULT) w :
  fits allocator size w ->
  TryAllocateResource allocator size alignment neverAllocate cacheSize
    prefetchMemory createResourceFn w =
  bind (allocator_TryAllocateMemory allocator size alignment neverAllocate
          cacheSize prefetchMemory)
    (fun allocation =>
       match allocation with
       | None => ret E_FAIL
       | Some allocation =>
           bind (createResourceFn allocation) (fun hr =>
             if FAILED hr
             then bind (allocator_DeallocateMemory allocator allocation)
                       (fun _ => ret hr)
             else ret hr)
       end) w.
Proof.
  intros Hfits. unfold TryAllocateResource at 1.
  unfold bind at 1. unfold allocator_GetMemorySize, gets.
  destruct Hfits as [E | L].
  - rewrite E, Z.eqb_refl. reflexivity.
  - destruct (Z.ltb_spec (GetMemorySize allocator (mAllocators (this w))) size);
      [lia |].
    rewrite andb_false_r. reflexivity.
Qed.

(** C1.  When the memory allocation succeeds and the resource creation that
    follows fails with [hr], [TryAllocateResource] hands the allocation
    back to the very allocator it came from (the last call it makes is
    [DeallocateMemory] on that allocator, with that allocation) and only
    then returns [hr]. *)
Theorem TryAllocateResource_deallocates_on_failure
    (allocator : AllocatorRef) (size alignment : Z)
    (neverAllocate cacheSize prefetchMemory : bool)
    (createResourceFn : MemoryAllocation -> St W HRESULT)
    (w w1 w2 : W) (allocation : MemoryAllocation) (hr : HRESULT) :
  allocator <> ThisResourceAllocator ->
  fits allocator size w ->
  allocator_TryAllocateMemory allocator size alignment neverAllocate
    cacheSize prefetchMemory w = Some (Some allocation, w1) ->
  createResourceFn allocation w1 = Some (hr, w2) ->
  FAILED hr = true ->
  TryAllocateResource allocator size alignment neverAllocate cacheSize
    prefetchMemory createResourceFn w =
  Some (hr,
        set_this (add_call w2 (CallDeallocateMemory allocator allocation))
          (set_mAllocators (this w2)
             (DeallocateMemory allocator allocation (mAllocators (this w2))))).
Proof.
  intros Hstack Hfits Halloc Hcreate Hfailed.
  rewrite TryAllocateResource_fits by assumption.
  unfold bind at 1. rewrite Halloc.
  unfold bind at 1. rewrite Hcreate, Hfailed.
  destruct allocator; try contradiction; reflexivity.
Qed.

End TryAllocateResourceFacts.

(** ** The call log of the sub-allocation attempts *)

Section AttemptFacts.
Context {K : HeaderConstants} {M R D : Type}.
Context {MA : MemoryAllocator M} {RM : ResidencyManager R} {DV : Device D}.
Local Abbreviation W := (World M R D).

Lemma new_calls_app (w w' : W) l : calls w' = calls w ++ l -> new_calls w w' = l.
Proof.
  intros E. unfold new_calls. rewrite E, skipn_app, skipn_all, Nat.sub_diag.
  reflexivity.
Qed.

Lemma new_calls_refl (w : W) : new_calls w w = [].
Proof. apply new_calls_app. rewrite app_nil_r. reflexivity. Qed.

Lemma same_config_refl (a : ResourceAllocator M R D) : same_config a a.
Proof. repeat split. Qed.

Lemma same_config_trans (a b c : ResourceAllocator M R D) :
  same_config a b -> same_config b c -> same_config a c.
Proof.
  unfold same_config. intros (?&?&?&?&?&?&?) (?&?&?&?&?&?&?).
  repeat split; congruence.
Qed.

Lemma quiet_refl P (w : W) : quiet P w w.
Proof.
  split; [apply same_config_refl |]. split; [reflexivity |].
  exists []. rewrite app_nil_r. auto.
Qed.

Lemma quiet_trans P (w1 w2 w3 : W) :
  quiet P w1 w2 -> quiet P w2 w3 -> quiet P w1 w3.
Proof.
  intros (C1 & I1 & l1 & E1 & F1) (C2 & I2 & l2 & E2 & F2).
  split; [eapply same_config_trans; eauto |]. split; [congruence |].
  exists (l1 ++ l2). split.
  - rewrite E2, E1, app_assoc. reflexivity.
  - apply Forall_app; auto.
Qed.

Lemma quiet_impl (P Q : Call -> Prop) (w w' : W) :
  (forall c, P c -> Q c) -> quiet P w w' -> quiet Q w w'.
Proof.
  intros H (C & I & l & E & F). repeat split; try apply C; auto.
  exists l. split; [assumption |]. eapply Forall_impl; eauto.
Qed.

Lemma quiet_new_calls P (w w' : W) :
  quiet P w w' -> Forall P (new_calls w w').
Proof. intros (_ & _ & l & E & F). erewrite new_calls_app by eassumption. exact F. Qed.

Section Quiet.
Variable P : Call -> Prop.
Local Abbreviation step := (steps (quiet (M:=M) (R:=R) (D:=D) P)).

Lemma step_bind {A B} (m : St W A) (k : A -> St W B) :
  step m -> (forall a, step (k a)) -> step (bind m k).
Proof. apply steps_bind, quiet_trans. Qed.

Lemma step_ret {A} (a : A) : step (ret a).
Proof. apply steps_ret, quiet_refl. Qed.

Lemma step_ReturnIfFailed (expr rest : St W HRESULT) :
  step expr -> step rest -> step (ReturnIfFailed expr rest).
Proof. apply steps_ReturnIfFailed; [apply quiet_refl | apply quiet_trans]. Qed.

Lemma step_ReturnIfSucceededWhen cond (expr rest : St W HRESULT) :
  step expr -> step rest -> step (ReturnIfSucceededWhen cond expr rest).
Proof.
  apply steps_ReturnIfSucceededWhen; [apply quiet_refl | apply quiet_trans].
Qed.

Lemma step_log c : P c -> step (log c).
Proof.
  intros Hc. apply steps_modify. intros w.
  split; [apply same_config_refl |]. split; [reflexivity |].
  exists [c]. auto.
Qed.

Lemma step_set_resourceAllocationOut r : step (set_resourceAllocationOut r).
Proof.
  apply steps_modify. intros w.
  split; [repeat split |]. split; [reflexivity |].
  exists []. simpl. rewrite app_nil_r. auto.
Qed.

Lemma step_residency_Get : step residency_Get.
Proof. apply steps_gets, quiet_refl. Qed.

Lemma step_TryAllocateMemory allocator size alignment nv cs pf :
  (forall r, P (CallTryAllocateMemory allocator size alignment nv cs pf r)) ->
  step (allocator_TryAllocateMemory allocator size alignment nv cs pf).
Proof.
  intros Hc w a w' E. unfold allocator_TryAllocateMemory in E.
  destruct (TryAllocateMemory _ _ _ _ _ _ _) as [r m]. inversion E; subst.
  split; [repeat split |]. split; [reflexivity |].
  eexists [_]. split; [reflexivity | auto].
Qed.

Lemma step_DeallocateMemory allocator allocation :
  allocator <> ThisResourceAllocator ->
  P (CallDeallocateMemory allocator allocation) ->
  step (allocator_DeallocateMemory allocator allocation).
Proof.
  intros Hstack Hc. unfold allocator_DeallocateMemory.
  apply step_bind; [apply step_log, Hc |]. intros _.
  destruct allocator; try contradiction;
    (apply steps_modify; intros w; split; [repeat split |]; split;
     [reflexivity | exists []; rewrite app_nil_r; auto]).
Qed.

Lemma step_residency_update f c : P c -> step (residency_update f c).
Proof.
  intros Hc w a w' E. unfold residency_update in E.
  destruct (mResidencyManager (this w)) eqn:Hr; inversion E; subst.
  - split; [repeat split; simpl; unfold has_ResidencyManager; simpl;
            rewrite Hr; reflexivity |].
    split; [reflexivity |]. exists [c]. auto.
  - apply quiet_refl.
Qed.

Lemma step_device_CreatePlacedResource heap offset desc state clear :
  (forall hr, P (CallCreatePlacedResource heap offset hr)) ->
  step (device_CreatePlacedResource heap offset desc state clear).
Proof.
  intros Hc w a w' E. unfold device_CreatePlacedResource in E.
  destruct (DeviceCreatePlacedResource _ _ _ _ _ _) as [r d].
  inversion E; subst.
  split; [repeat split |]. split; [reflexivity |].
  eexists [_]. split; [reflexivity | auto].
Qed.

Lemma step_TryAllocateResource allocator size alignment nv cs pf
    (createResourceFn : MemoryAllocation -> St W HRESULT) :
  allocator <> ThisResourceAllocator ->
  (forall r, P (CallTryAllocateMemory allocator size alignment nv cs pf r)) ->
  (forall a, P (CallDeallocateMemory allocator a)) ->
  (forall a, step (createResourceFn a)) ->
  step (TryAllocateResource allocator size alignment nv cs pf createResourceFn).
Proof.
  intros Hstack Ht Hd Hc. unfold TryAllocateResource.
  apply step_bind; [apply steps_gets, quiet_refl |]. intros memorySize.
  destruct (_ && _); [apply step_ret |].
  apply step_bind; [apply step_TryAllocateMemory, Ht |].
  intros [allocation |]; [| apply step_ret].
  apply step_bind; [apply Hc |]. intros hr.
  destruct (FAILED hr); [| apply step_ret].
  apply step_bind; [apply step_DeallocateMemory; auto |].
  intros _. apply step_ret.
Qed.
Hypothesis P_placement : forall c, placement_call c -> P c.

Lemma step_createWithinResource a : step (createWithinResource a).
Proof.
  unfold createWithinResource.
  destruct (GetMemory a) as [heap |]; [| apply steps_abort].
  apply step_bind; [apply steps_gets, quiet_refl |]. intros device.
  destruct (PageableAsResource device (mPageable heap)) as [hr res].
  apply step_ReturnIfFailed; [apply step_ret |].
  apply step_bind; [apply step_residency_Get |]. intros rm.
  apply step_bind; [apply step_set_resourceAllocationOut |]. intros _.
  apply step_ret.
Qed.

Lemma step_CreatePlacedResource heap offset desc clear state :
  step (CreatePlacedResource heap offset desc clear state).
Proof.
  unfold CreatePlacedResource. destruct heap as [heap |]; [| apply steps_abort].
  apply step_bind; [apply step_residency_update, P_placement; exact I |].
  intros _.
  apply step_bind;
    [apply step_device_CreatePlacedResource; intros; apply P_placement; exact I |].
  intros r.
  apply step_bind; [apply step_residency_update, P_placement; exact I |].
  intros _.
  unfold ReturnIfFailedOut. apply step_bind; [apply step_ret |].
  intros hr. destruct (FAILED hr); apply step_ret.
Qed.

Lemma step_createPlaced desc clear state a :
  step (createPlaced desc clear state a).
Proof.
  unfold createPlaced.
  apply step_bind; [apply step_CreatePlacedResource |]. intros r.
  apply step_ReturnIfFailed; [apply step_ret |].
  apply step_bind; [apply step_residency_Get |]. intros rm.
  apply step_bind; [apply step_set_resourceAllocationOut |]. intros _.
  apply step_ret.
Qed.
End Quiet.

Lemma placement_attempt_call nv pf c : placement_call c -> attempt_call nv pf c.
Proof. destruct c; simpl; tauto. Qed.

End AttemptFacts.

(** ** [CreateCommittedResource] *)

Section CommittedFacts.
Context {K : HeaderConstants} {M R D : Type}.
Context {MA : MemoryAllocator M} {RM : ResidencyManager R} {DV : Device D}.
Local Abbreviation W := (World M R D).

(** [CreateCommittedResource] under a budget: the eviction comes first, and
    the committed resource is created next if and only if it succeeded. *)
Lemma CreateCommittedResource_in_budget
    (heapType : D3D12_HEAP_TYPE) (heapFlags resourceSize : Z)
    (resourceDescriptor : D3D12_RESOURCE_DESC)
    (clearValue : option D3D12_CLEAR_VALUE)
    (initialResourceState : D3D12_RESOURCE_STATES) (w : W) (residency : R) :
  mIsAlwaysInBudget (this w) = true ->
  mResidencyManager (this w) = Some residency ->
  let group :=
    GetPreferredMemorySegmentGroup (mDevice (this w)) (mIsUMA (this w)) heapType in
  let hrEvict := fst (Evict resourceSize group residency) in
  exists result w' l,
    CreateCommittedResource heapType heapFlags resourceSize resourceDescriptor
      clearValue initialResourceState w = Some (result, w') /\
    calls w' = calls w ++ CallEvict resourceSize group hrEvict :: l /\
    (FAILED hrEvict = true ->
     result = (hrEvict, None) /\ l = [] /\ mDevice (this w') = mDevice (this w)) /\
    (FAILED hrEvict = false ->
     exists flags hr rest,
       l = CallCreateCommittedResource heapType flags hr :: rest).
Proof.
  intros Hbudget Hres group hrEvict. subst hrEvict.
  unfold CreateCommittedResource, bind at 1, gets.
  unfold has_ResidencyManager. rewrite Hbudget, Hres.
  change (true && true) with true. cbv iota.
  unfold ReturnIfFailedOut at 1, bind at 1, residency_Evict.
  rewrite Hres. fold group. destruct (Evict resourceSize group residency) as [hrE r'].
  simpl fst. destruct (FAILED hrE) eqn:F.
  - eexists _, _, []. split; [reflexivity |]. split; [reflexivity |].
    split; [intros _; repeat split | discriminate].
  - unfold bind at 1, device_CreateCommittedResource.
    destruct (DeviceCreateCommittedResource _ _ _ _ _ _) as [[hr res] d].
    unfold ReturnIfFailedOut, bind, ret. cbn [fst snd].
    destruct (FAILED hr).
    + eexists _, _, [_]. split; [reflexivity |].
      split; [simpl; rewrite <- app_assoc; reflexivity |].
      split; [discriminate |]. intros _. eexists _, _, _. reflexivity.
    + unfold residency_update. simpl.
      eexists _, _, [_; _]. split; [reflexivity |].
      split; [simpl; rewrite <- !app_assoc; reflexivity |].
      split; [discriminate |]. intros _. eexists _, _, _. reflexivity.
Qed.

(** C6.  With [ALLOCATOR_FLAG_ALWAYS_IN_BUDGET] and a residency manager,
    [CreateCommittedResource] returns, and the first call it makes is
    [Evict] with the requested size and the preferred memory segment group
    of the heap type; whatever else it calls (the creation of the committed
    resource) comes after it in the log.  When that eviction fails, its
    error is the result, the out-parameters stay unset, nothing else is
    called, and the device is left as it was. *)
Theorem CreateCommittedResource_evicts_first
    (heapType : D3D12_HEAP_TYPE) (heapFlags resourceSize : Z)
    (resourceDescriptor : D3D12_RESOURCE_DESC)
    (clearValue : option D3D12_CLEAR_VALUE)
    (initialResourceState : D3D12_RESOURCE_STATES) (w : W) (residency : R) :
  mIsAlwaysInBudget (this w) = true ->
  mResidencyManager (this w) = Some residency ->
  let group :=
    GetPreferredMemorySegmentGroup (mDevice (this w)) (mIsUMA (this w)) heapType in
  let hrEvict := fst (Evict resourceSize group residency) in
  exists result w' l,
    CreateCommittedResource heapType heapFlags resourceSize resourceDescriptor
      clearValue initialResourceState w = Some (result, w') /\
    calls w' = calls w ++ CallEvict resourceSize group hrEvict :: l /\
    (FAILED hrEvict = true ->
     result = (hrEvict, None) /\ l = [] /\ mDevice (this w') = mDevice (this w)).
Proof.
  intros Hbudget Hres group hrEvict.
  destruct (CreateCommittedResource_in_budget heapType heapFlags resourceSize
              resourceDescriptor clearValue initialResourceState w Hbudget Hres)
    as (result & w' & l & E & Hcalls & Hfail & _).
  exists result, w', l. auto.
Qed.

Lemma CreateCommittedResource_cases heapType heapFlags resourceSize desc
    clearValue state (w : W) result w' :
  CreateCommittedResource heapType heapFlags resourceSize desc clearValue
    state w = Some (result, w') ->
  quiet committed_call w w' /\
  mAllocators (this w') = mAllocators (this w) /\
  resourceAllocationOut w' = resourceAllocationOut w /\
  ((FAILED (fst result) = true /\ snd result = None) \/
   (fst result = S_OK /\
    Exists (fun c => is_CallCreateCommittedResource c = true) (new_calls w w') /\
    exists resource heap,
      snd result = Some (resource, heap) /\ mSize heap = resourceSize)).
Proof.
  unfold CreateCommittedResource, bind at 1, gets.
  set (group := GetPreferredMemorySegmentGroup _ _ _).
  set (rest := bind (device_CreateCommittedResource _ _ _ _ _) _).
  assert (Hrest : forall w0 result0 w0',
    rest w0 = Some (result0, w0') ->
    quiet committed_call w0 w0' /\
    mAllocators (this w0') = mAllocators (this w0) /\
    resourceAllocationOut w0' = resourceAllocationOut w0 /\
    ((FAILED (fst result0) = true /\ snd result0 = None) \/
     (fst result0 = S_OK /\
      Exists (fun c => is_CallCreateCommittedResource c = true) (new_calls w0 w0') /\
      exists resource heap,
        snd result0 = Some (resource, heap) /\ mSize heap = resourceSize))).
  { subst rest. intros w0 result0 w0'.
    unfold bind at 1, device_CreateCommittedResource.
    destruct (DeviceCreateCommittedResource _ _ _ _ _ _) as [[hr res] d].
    unfold ReturnIfFailedOut, bind at 1, ret. cbn [fst snd].
    destruct (FAILED hr) eqn:F.
    - intros E. inversion E; subst. clear E.
      split; [split; [repeat split |]; split; [reflexivity |];
              eexists [_]; split; [reflexivity | repeat constructor] |].
      repeat split. left. auto.
    - unfold bind, residency_update, ret. cbn [fst snd].
      destruct (mResidencyManager (this (add_call _ _))) eqn:Hr;
        intros E; inversion E; subst; clear E; simpl in Hr.
      + split; [split; [repeat split; simpl; unfold has_ResidencyManager;
                        simpl; rewrite Hr; reflexivity |];
                split; [reflexivity |];
                eexists [_; _]; split;
                [simpl; rewrite <- app_assoc; reflexivity | repeat constructor] |].
        repeat split. right. split; [reflexivity |]. split.
        * erewrite new_calls_app
            by (simpl; rewrite <- app_assoc; reflexivity).
          left. reflexivity.
        * eexists _, _. split; reflexivity.
      + split; [split; [repeat split |]; split; [reflexivity |];
                eexists [_]; split; [reflexivity | repeat constructor] |].
        repeat split. right. split; [reflexivity |]. split.
        * erewrite new_calls_app by reflexivity. left. reflexivity.
        * eexists _, _. split; reflexivity. }
  destruct (mIsAlwaysInBudget (this w) && has_ResidencyManager (this w)).
  - unfold ReturnIfFailedOut, bind at 1, residency_Evict.
    destruct (mResidencyManager (this w)) as [r |] eqn:Hr; [| discriminate].
    destruct (Evict resourceSize group r) as [hrE r'].
    assert (Hq : quiet committed_call w
                   (add_call (set_this w (set_mResidencyManager (this w) (Some r')))
                      (CallEvict resourceSize group hrE))).
    { split; [repeat split; simpl; unfold has_ResidencyManager; simpl;
              rewrite Hr; reflexivity |].
      split; [reflexivity |]. eexists [_]. split; [reflexivity |].
      repeat constructor. }
    destruct (FAILED hrE) eqn:F.
    + intros E. inversion E; subst. clear E.
      split; [exact Hq |]. repeat split. left. auto.
    + intros E. apply Hrest in E as (Q & A & O & C).
      split; [eapply quiet_trans; eauto |].
      split; [rewrite A; reflexivity |]. split; [rewrite O; reflexivity |].
      destruct C as [C | (S & Ex & C)]; [left; exact C | right].
      split; [exact S |]. split; [| exact C].
      destruct Q as (_ & _ & l & El & _).
      erewrite new_calls_app in Ex by exact El.
      erewrite new_calls_app
        by (rewrite El; simpl; rewrite <- app_assoc; reflexivity).
      right. exact Ex.
  - apply Hrest.
Qed.

End CommittedFacts.

(** ** [CreateResourceInternal] *)

Section CreateResourceFacts.
Context {K : HeaderConstants} {M R D : Type}.
Context {MA : MemoryAllocator M} {RM : ResidencyManager R} {DV : Device D}.
Local Abbreviation W := (World M R D).

Lemma createCommitted_cases allocationDescriptor heapFlags resourceInfo desc
    clearValue state (w : W) hr w' :
  createCommitted allocationDescriptor heapFlags resourceInfo desc clearValue
    state w = Some (hr, w') ->
  same_config (this w) (this w') /\
  mAllocators (this w') = mAllocators (this w) /\
  (exists l, calls w' = calls w ++ l /\ Forall committed_call l) /\
  ((FAILED hr = true /\ mInfo (this w') = mInfo (this w) /\
    resourceAllocationOut w' = resourceAllocationOut w) \/
   (hr = S_OK /\
    Exists (fun c => is_CallCreateCommittedResource c = true) (new_calls w w') /\
    mInfo (this w') = info_add_memory (mInfo (this w)) (SizeInBytes resourceInfo) /\
    exists r, resourceAllocationOut w' = Some r /\
              committed_allocation (SizeInBytes resourceInfo) r)).
Proof.
  unfold createCommitted. intros E.
  apply bind_Some in E as ([hr1 out] & w1 & E1 & E2).
  apply CreateCommittedResource_cases in E1 as (Q & A & O & C).
  cbn [fst snd] in C, E2.
  apply ReturnIfFailed_Some in E2 as [[E2 F] | (hr2 & w2 & E2 & F & E3)].
  - inversion E2; subst. destruct Q as (Cf & I & L).
    split; [exact Cf |]. split; [exact A |]. split; [exact L |].
    left. auto.
  - inversion E2; subst; clear E2.
    destruct C as [[F' _] | (S & Ex & res & heap & -> & Hsize)]; [congruence |].
    unfold bind, modify, residency_Get, gets, set_resourceAllocationOut, ret in E3.
    inversion E3; subst; clear E3. cbn.
    destruct Q as (Cf & I & l & El & Fl).
    split; [exact Cf |]. split; [exact A |].
    split; [exists l; auto |]. right.
    split; [reflexivity |].
    split; [erewrite new_calls_app in * by (cbn; exact El); exact Ex |].
    split; [rewrite I, Hsize; reflexivity |].
    eexists. split; [reflexivity |].
    split; [reflexivity |]. split; [reflexivity |]. split; [reflexivity |].
    split; [reflexivity |]. exists heap. split; [reflexivity | exact Hsize].
Qed.

(** One guarded attempt: either it returns its success, or the rest of the
    function runs from a world that the attempt reached quietly (from the
    same world when the guard is false). *)
Lemma attempt_cases P cond (expr rest : St W HRESULT) w hr w' :
  steps (quiet P) expr ->
  ReturnIfSucceededWhen cond expr rest w = Some (hr, w') ->
  (cond = true /\ quiet P w w' /\ SUCCEEDED hr = true) \/
  (exists w1, quiet P w w1 /\ (cond = false -> w1 = w) /\
              rest w1 = Some (hr, w')).
Proof.
  intros He E. apply ReturnIfSucceededWhen_Some in E
    as [(C & E & S) | [(C & hr1 & w1 & E & S & Er) | (C & Er)]].
  - left. eauto.
  - right. exists w1. split; [eauto |]. split; [congruence | assumption].
  - right. exists w. split; [apply quiet_refl |]. auto.
Qed.

Lemma CreateResourceInternal_outcome allocationDescriptor resourceDescriptor
    initialResourceState clearValue (w : W) hr w' :
  CreateResourceInternal allocationDescriptor resourceDescriptor
    initialResourceState clearValue w = Some (hr, w') ->
  outcome allocationDescriptor resourceDescriptor initialResourceState
    clearValue w hr w'.
Proof.
  unfold CreateResourceInternal, bind at 1, gets. intros E.
  destruct (GetResourceAllocationInfo (mDevice (this w)) resourceDescriptor)
    as [info desc] eqn:G.
  assert (Hi : request_info w resourceDescriptor = info)
    by (unfold request_info; rewrite G; reflexivity).
  assert (Hd : request_desc w resourceDescriptor = desc)
    by (unfold request_desc; rewrite G; reflexivity).
  assert (Ht : request_heap_type w allocationDescriptor resourceDescriptor =
               GetResourceHeapType (Dimension desc) (HeapType allocationDescriptor)
                 (Flags desc) (mResourceHeapTier (this w)))
    by (unfold request_heap_type; rewrite Hd; reflexivity).
  destruct (Z.eqb_spec (SizeInBytes info) kInvalidSize) as [Ei | _].
  { inversion E; subst. apply RejectedSize; auto. left. exact Ei. }
  destruct (Z.ltb_spec (mMaxResourceHeapSize (this w)) (SizeInBytes info)).
  { inversion E; subst. apply RejectedSize; auto. right; left. lia. }
  destruct (Z.ltb_spec (mCapsMaxResourceSize (this w)) (SizeInBytes info)).
  { inversion E; subst. apply RejectedSize; auto. right; right. lia. }
  cbn [orb] in E. rewrite <- Ht in E.
  destruct (is_RESOURCE_HEAP_TYPE_INVALID
              (request_heap_type w allocationDescriptor resourceDescriptor)) eqn:Hv.
  { inversion E; subst. apply RejectedHeapType; auto.
    destruct (request_heap_type _ _ _); try discriminate. reflexivity. }
  fold (neverAllocate_of allocationDescriptor) in E.
  fold (prefetchMemory_of allocationDescriptor) in E.
  set (nv := neverAllocate_of allocationDescriptor) in *.
  set (pf := prefetchMemory_of allocationDescriptor) in *.
  set (t := request_heap_type w allocationDescriptor resourceDescriptor) in *.
  assert (Htail : forall w3,
    quiet (attempt_call nv pf) w w3 ->
    (mIsAlwaysCommitted (this w) = true -> w3 = w) ->
    (if nv then ret E_OUTOFMEMORY
     else createCommitted allocationDescriptor (GetHeapFlags t) info desc
            clearValue initialResourceState) w3 = Some (hr, w') ->
    outcome allocationDescriptor resourceDescriptor initialResourceState
      clearValue w hr w').
  { intros w3 Q N Et. subst nv pf.
    destruct (neverAllocate_of allocationDescriptor) eqn:Hnv.
    - inversion Et; subst. apply NeverAllocated; rewrite ?Hnv; auto.
    - eapply Committed; rewrite ?Hnv; eauto. rewrite Hi, Hd. exact Et. }
  destruct (mIsAlwaysCommitted (this w)) eqn:Ha.
  { cbn [negb] in E. rewrite !andb_false_r in E. cbn [andb] in E.
    unfold ReturnIfSucceededWhen in E.
    apply Htail with (w3 := w); auto. apply quiet_refl. }
  apply attempt_cases with (P := attempt_call nv pf) in E.
  2:{ apply step_TryAllocateResource; try discriminate;
      try (intros; simpl; auto);
      apply step_createWithinResource. }
  destruct E as [(C & Q & S) | (w1 & Q1 & N1 & E)].
  { apply SubAllocated; auto. }
  apply attempt_cases with (P := attempt_call nv pf) in E.
  2:{ apply step_TryAllocateResource; try discriminate;
      try (intros; simpl; auto);
      apply step_createPlaced; apply placement_attempt_call. }
  destruct E as [(C & Q & S) | (w2 & Q2 & N2 & E)].
  { apply SubAllocated; [assumption | eapply quiet_trans; eauto | exact S]. }
  apply attempt_cases with (P := attempt_call nv pf) in E.
  2:{ apply step_TryAllocateResource; try discriminate;
      try (intros; simpl; auto);
      apply step_createPlaced; apply placement_attempt_call. }
  destruct E as [(C & Q & S) | (w3 & Q3 & N3 & E)].
  { apply SubAllocated; [assumption | | exact S].
    eapply quiet_trans; [eauto |]. eapply quiet_trans; eauto. }
  apply Htail with (w3 := w3); [| discriminate | exact E].
  eapply quiet_trans; [eauto |]. eapply quiet_trans; eauto.
Qed.

(** A successful run that created a committed resource. *)
Lemma committed_outcome ad rd st cv (w : W) hr w' :
  CreateResourceInternal ad rd st cv w = Some (hr, w') ->
  SUCCEEDED hr = true ->
  existsb is_CallCreateCommittedResource (new_calls w w') = true ->
  same_config (this w) (this w') /\
  (mIsAlwaysCommitted (this w) = true ->
   mAllocators (this w') = mAllocators (this w)) /\
  mInfo (this w') =
    info_add_memory (mInfo (this w)) (SizeInBytes (request_info w rd)) /\
  exists r, resourceAllocationOut w' = Some r /\
            committed_allocation (SizeInBytes (request_info w rd)) r.
Proof.
  intros E S Hc.
  assert (Hquiet : forall nv pf, quiet (attempt_call nv pf) w w' -> False).
  { intros nv pf Q. apply quiet_new_calls in Q.
    apply existsb_exists in Hc as (c & Hin & Hc).
    rewrite Forall_forall in Q. specialize (Q c Hin).
    destruct c; simpl in *; try discriminate. contradiction. }
  apply CreateResourceInternal_outcome in E.
  destruct E as [_ -> _ | _ -> _ | _ Q _ | _ Q _ _ | w1 _ Q N E];
    try discriminate; try (exfalso; eapply Hquiet; eassumption).
  apply createCommitted_cases in E
    as (Cf & A & _ & [(F & _) | (_ & _ & I & Hr)]).
  - rewrite FAILED_SUCCEEDED in S. rewrite F in S. discriminate.
  - destruct Q as (Cq & Iq & _).
    split; [eapply same_config_trans; eauto |].
    split; [intros Ha; rewrite A, (N Ha); reflexivity |].
    split; [rewrite I, Iq; reflexivity | exact Hr].
Qed.

End CreateResourceFacts.

(** ** What a failed request leaves behind *)

Lemma obtained_app l1 l2 : obtained (l1 ++ l2) = obtained l1 ++ obtained l2.
Proof.
  induction l1 as [| c l1 IH]; [reflexivity |].
  destruct c; cbn; auto. destruct result; cbn; [f_equal |]; auto.
Qed.

Lemma handed_back_app l1 l2 :
  handed_back (l1 ++ l2) = handed_back l1 ++ handed_back l2.
Proof.
  induction l1 as [| c l1 IH]; [reflexivity |].
  destruct c; cbn; auto. f_equal. auto.
Qed.

Lemma silent_calls l :
  Forall (fun c => placement_call c \/ committed_call c) l ->
  obtained l = [] /\ handed_back l = [].
Proof.
  induction 1 as [| c l Hc _ [IH1 IH2]]; [auto |].
  destruct c; cbn in *; auto; destruct Hc; contradiction.
Qed.

Section BalanceFacts.
Context {K : HeaderConstants} {M R D : Type}.
Context {MA : MemoryAllocator M} {RM : ResidencyManager R} {DV : Device D}.
Local Abbreviation W := (World M R D).

Lemma balanced_refl (w : W) : balanced w w.
Proof. exists []. rewrite app_nil_r. auto. Qed.

Lemma balanced_trans (w1 w2 w3 : W) :
  balanced w1 w2 -> balanced w2 w3 -> balanced w1 w3.
Proof.
  intros (l1 & E1 & B1) (l2 & E2 & B2). exists (l1 ++ l2). split.
  - rewrite E2, E1, app_assoc. reflexivity.
  - rewrite obtained_app, handed_back_app. congruence.
Qed.

Lemma allocator_DeallocateMemory_calls allocator a (w w' : W) :
  allocator <> ThisResourceAllocator ->
  allocator_DeallocateMemory allocator a w = Some (tt, w') ->
  calls w' = calls w ++ [CallDeallocateMemory allocator a].
Proof.
  intros Hstack. unfold allocator_DeallocateMemory, bind, log, modify.
  destruct allocator; try contradiction; intros E; inversion E; reflexivity.
Qed.

(** An attempt that does not succeed has handed back what it obtained. *)
Lemma TryAllocateResource_balanced allocator size alignment nv cs pf
    (createResourceFn : MemoryAllocation -> St W HRESULT) w hr w' :
  allocator <> ThisResourceAllocator ->
  (forall a, steps (quiet placement_call) (createResourceFn a)) ->
  TryAllocateResource allocator size alignment nv cs pf createResourceFn w
    = Some (hr, w') ->
  SUCCEEDED hr = false ->
  balanced w w'.
Proof.
  intros Hstack Hfn E S. unfold TryAllocateResource in E.
  apply bind_Some in E as (memorySize & w0 & E0 & E).
  unfold allocator_GetMemorySize, gets in E0. inversion E0; subst; clear E0.
  destruct (_ && _); [inversion E; subst; apply balanced_refl |].
  apply bind_Some in E as (allocation & w1 & E1 & E).
  unfold allocator_TryAllocateMemory in E1.
  destruct (TryAllocateMemory _ _ _ _ _ _ _) as [r m].
  inversion E1; subst; clear E1.
  destruct allocation as [a |].
  - apply bind_Some in E as (hr1 & w2 & E2 & E).
    apply Hfn in E2 as (_ & _ & l2 & E2 & F2).
    destruct (silent_calls (l := l2)) as [O2 B2];
      [eapply Forall_impl; [| exact F2]; auto |].
    destruct (FAILED hr1) eqn:F.
    + apply bind_Some in E as ([] & w3 & E3 & E). inversion E; subst; clear E.
      apply allocator_DeallocateMemory_calls in E3; [| assumption].
      eexists. split.
      * rewrite E3, E2. cbn [calls add_call set_this].
        rewrite <- !app_assoc. reflexivity.
      * rewrite obtained_app, handed_back_app, obtained_app, handed_back_app.
        rewrite O2, B2. reflexivity.
    + inversion E; subst. rewrite FAILED_SUCCEEDED, F in S. discriminate.
  - inversion E; subst. eexists [_]. split; reflexivity.
Qed.

Lemma ReturnIfSucceededWhen_failed (J : W -> W -> Prop) cond
    (expr rest : St W HRESULT) w hr w' :
  J w w ->
  (forall hr1 w1, expr w = Some (hr1, w1) -> SUCCEEDED hr1 = false -> J w w1) ->
  ReturnIfSucceededWhen cond expr rest w = Some (hr, w') ->
  FAILED hr = true ->
  exists w1, J w w1 /\ rest w1 = Some (hr, w').
Proof.
  intros Hrefl He E F. apply ReturnIfSucceededWhen_Some in E
    as [(_ & _ & S) | [(_ & hr1 & w1 & E & S & Er) | (_ & Er)]].
  - rewrite FAILED_SUCCEEDED, F in S. discriminate.
  - exists w1. split; [eapply He; eauto | assumption].
  - exists w. auto.
Qed.

(** A request that fails has handed back, to the allocator it came from,
    every allocation it obtained on the way. *)
Lemma failed_request_is_balanced ad rd st cv (w : W) hr w' :
  CreateResourceInternal ad rd st cv w = Some (hr, w') ->
  FAILED hr = true ->
  obtained (new_calls w w') = handed_back (new_calls w w').
Proof.
  intros E F.
  assert (B : balanced w w').
  { unfold CreateResourceInternal, bind at 1, gets in E.
    destruct (GetResourceAllocationInfo (mDevice (this w)) rd) as [info desc].
    destruct (SizeInBytes info =? kInvalidSize);
      [inversion E; subst; apply balanced_refl |].
    destruct (_ || _); [inversion E; subst; apply balanced_refl |].
    destruct (is_RESOURCE_HEAP_TYPE_INVALID _);
      [inversion E; subst; apply balanced_refl |].
    apply ReturnIfSucceededWhen_failed with (J := balanced) in E
      as (w1 & B1 & E); [| apply balanced_refl | | exact F].
    2:{ intros hr1 w1. apply TryAllocateResource_balanced; [discriminate |].
        intros a. apply step_createWithinResource. }
    apply ReturnIfSucceededWhen_failed with (J := balanced) in E
      as (w2 & B2 & E); [| apply balanced_refl | | exact F].
    2:{ intros hr1 w2. apply TryAllocateResource_balanced; [discriminate |].
        intros a. apply step_createPlaced. auto. }
    apply ReturnIfSucceededWhen_failed with (J := balanced) in E
      as (w3 & B3 & E); [| apply balanced_refl | | exact F].
    2:{ intros hr1 w3. apply TryAllocateResource_balanced; [discriminate |].
        intros a. apply step_createPlaced. auto. }
    apply (balanced_trans B1), (balanced_trans B2), (balanced_trans B3).
    destruct (flag_set _ _).
    - inversion E; subst. apply balanced_refl.
    - apply createCommitted_cases in E as (_ & _ & (l & El & Fl) & _).
      exists l. split; [exact El |].
      destruct (silent_calls (l := l)) as [-> ->];
        [eapply Forall_impl; [| exact Fl]; auto | reflexivity]. }
  destruct B as (l & El & B). erewrite new_calls_app by exact El. exact B.
Qed.

End BalanceFacts.

(** ** Eviction before a committed resource *)

Section BudgetFacts.
Context {K : HeaderConstants} {M R D : Type}.
Context {MA : MemoryAllocator M} {RM : ResidencyManager R} {DV : Device D}.
Local Abbreviation W := (World M R D).

(** X1.  Under a budget, a request either never enters the committed path, or
    the committed path opens with the eviction of the size computed for the
    request; when that eviction fails nothing follows it and its error is
    the result of the request. *)
Lemma request_evicts_before_committing ad rd st cv (w : W) hr w' :
  mIsAlwaysInBudget (this w) = true ->
  has_ResidencyManager (this w) = true ->
  CreateResourceInternal ad rd st cv w = Some (hr, w') ->
  Forall (attempt_call (neverAllocate_of ad) (prefetchMemory_of ad))
         (new_calls w w') \/
  exists attempts group hrEvict l,
    new_calls w w' =
      attempts ++
      CallEvict (SizeInBytes (request_info w rd)) group hrEvict :: l /\
    Forall (attempt_call (neverAllocate_of ad) (prefetchMemory_of ad)) attempts /\
    (FAILED hrEvict = true -> l = [] /\ hr = hrEvict).
Proof.
  intros Hbudget Hres E. apply CreateResourceInternal_outcome in E.
  destruct E as [_ _ -> | _ _ -> | _ Q _ | _ Q _ _ | w1 _ Q _ E].
  - left. rewrite new_calls_refl. constructor.
  - left. rewrite new_calls_refl. constructor.
  - left. apply quiet_new_calls, Q.
  - left. apply quiet_new_calls, Q.
  - right. destruct Q as ((_ & _ & _ & _ & Hb & _ & Hr) & _ & la & Ela & Fla).
    rewrite Hbudget in Hb. rewrite Hres in Hr.
    unfold has_ResidencyManager in Hr.
    destruct (mResidencyManager (this w1)) as [r1 |] eqn:Hr1; [| discriminate].
    unfold createCommitted in E.
    apply bind_Some in E as (r & w2 & E1 & E2).
    destruct (CreateCommittedResource_in_budget (HeapType ad)
                (GetHeapFlags (request_heap_type w ad rd))
                (SizeInBytes (request_info w rd)) (request_desc w rd) cv st
                w1 Hb Hr1) as (r' & w2' & l & E1' & El & Hfail & _).
    rewrite E1 in E1'. inversion E1'; subst r' w2'; clear E1'.
    assert (Hcalls : calls w' = calls w2 /\
                     (FAILED (fst r) = true -> hr = fst r)).
    { apply ReturnIfFailed_Some in E2 as [[E2 F] | (hr2 & w3 & E2 & F & E3)].
      - inversion E2; subst. auto.
      - inversion E2; subst; clear E2. split; [| congruence].
        destruct (snd r) as [[res heap] |]; [| discriminate].
        unfold bind, modify, residency_Get, gets, set_resourceAllocationOut,
          ret in E3.
        inversion E3; subst. reflexivity. }
    destruct Hcalls as (Hcalls & Hhr).
    eexists la, _, _, l. split; [| split; [exact Fla |]].
    + apply new_calls_app. rewrite Hcalls, El, Ela, <- app_assoc. reflexivity.
    + intros F. destruct (Hfail F) as (-> & -> & _).
      split; [reflexivity |]. apply Hhr. exact F.
Qed.

End BudgetFacts.

(** ** The claims about [CreateResourceInternal] *)

Section Claims.
Context {K : HeaderConstants} {M R D : Type}.
Context {MA : MemoryAllocator M} {RM : ResidencyManager R} {DV : Device D}.
Local Abbreviation W := (World M R D).

Lemma CreateResourceInternal_new_calls ad rd st cv (w : W) hr w' :
  CreateResourceInternal ad rd st cv w = Some (hr, w') ->
  Forall (fun c => attempt_call (neverAllocate_of ad) (prefetchMemory_of ad) c \/
                   committed_call c)
         (new_calls w w').
Proof.
  intros E. apply CreateResourceInternal_outcome in E.
  destruct E as [_ _ -> | _ _ -> | _ Q _ | _ Q _ _ | w1 _ Q _ E].
  - rewrite new_calls_refl. constructor.
  - rewrite new_calls_refl. constructor.
  - apply quiet_new_calls in Q. eapply Forall_impl; [| exact Q]. auto.
  - apply quiet_new_calls in Q. eapply Forall_impl; [| exact Q]. auto.
  - apply createCommitted_cases in E as (_ & _ & (l2 & E2 & F2) & _).
    destruct Q as (_ & _ & l1 & E1 & F1).
    erewrite new_calls_app by (rewrite E2, E1, <- app_assoc; reflexivity).
    apply Forall_app. split; (eapply Forall_impl; [| eassumption]); auto.
Qed.

(** C2 (what the code does).  On the sub-allocated resource heap path the
    request's prefetch flag arrives in the [cacheSize] position of
    [TryAllocateMemory], and [prefetchMemory] is always [false]: every call
    on a [mResourceAllocatorOfType] allocator logged by
    [CreateResourceInternal] has [cacheSize] equal to the prefetch flag and
    [prefetchMemory = false]. *)
Theorem resource_allocator_receives_swapped_flags ad rd st cv (w : W) hr w' :
  CreateResourceInternal ad rd st cv w = Some (hr, w') ->
  Forall (resource_allocator_flags (prefetchMemory_of ad) false)
         (new_calls w w').
Proof.
  intros E. apply CreateResourceInternal_new_calls in E.
  eapply Forall_impl; [| exact E].
  intros c [A | C].
  - destruct c; simpl in *; auto. destruct allocator; simpl in *; tauto.
  - destruct c; simpl in *; auto; contradiction.
Qed.

(** C5 (as the code has it).  A successful [CreateResourceInternal] that
    created a committed resource leaves in the out slot a standalone
    allocation owned by the facade, without a block, whose recorded heap
    offset is [kInvalidOffset] and whose heap has exactly the size computed
    for the request. *)
Theorem committed_allocation_is_standalone ad rd st cv (w : W) hr w' :
  CreateResourceInternal ad rd st cv w = Some (hr, w') ->
  SUCCEEDED hr = true ->
  existsb is_CallCreateCommittedResource (new_calls w w') = true ->
  exists r, resourceAllocationOut w' = Some r /\
            committed_allocation (SizeInBytes (request_info w rd)) r.
Proof.
  intros E S Hc.
  destruct (committed_outcome _ _ _ _ _ E S Hc) as (_ & _ & _ & Hr).
  exact Hr.
Qed.

(** C7.  A request whose computed allocation size exceeds
    [mMaxResourceHeapSize] or the device's maximum resource size is refused
    with [E_OUTOFMEMORY] by [CreateResourceInternal] and by [CreateResource],
    in an unchanged world: no allocator is consulted. *)
Theorem oversized_request_is_out_of_memory ad rd st cv (w : W) :
  SizeInBytes (request_info w rd) > mMaxResourceHeapSize (this w) \/
  SizeInBytes (request_info w rd) > mCapsMaxResourceSize (this w) ->
  CreateResourceInternal ad rd st cv w = Some (E_OUTOFMEMORY, w) /\
  CreateResource true ad rd st cv w = Some (E_OUTOFMEMORY, w).
Proof.
  intros Hsize.
  assert (E : CreateResourceInternal ad rd st cv w = Some (E_OUTOFMEMORY, w)).
  { unfold CreateResourceInternal, bind, gets. unfold request_info in Hsize.
    destruct (GetResourceAllocationInfo (mDevice (this w)) rd) as [info desc].
    cbn [fst] in Hsize.
    destruct (SizeInBytes info =? kInvalidSize); [reflexivity |].
    destruct (Z.ltb_spec (mMaxResourceHeapSize (this w)) (SizeInBytes info));
      [reflexivity |].
    destruct (Z.ltb_spec (mCapsMaxResourceSize (this w)) (SizeInBytes info));
      [reflexivity | lia]. }
  split; [exact E |].
  unfold CreateResource, ReturnIfFailed, bind. cbn [negb]. rewrite E.
  reflexivity.
Qed.

(** C10.  When the device reports an allocation size of 0 for the
    descriptor, [GetResourceAllocationInfo] returns [kInvalidSize] instead,
    and [CreateResourceInternal] and [CreateResource] fail with
    [E_OUTOFMEMORY] in an unchanged world: no allocator is consulted. *)
Theorem zero_size_is_out_of_memory ad rd st cv (w : W) reported :
  backend_report (mDevice (this w)) rd = Some reported ->
  SizeInBytes reported = 0 ->
  SizeInBytes (request_info w rd) = kInvalidSize /\
  CreateResourceInternal ad rd st cv w = Some (E_OUTOFMEMORY, w) /\
  CreateResource true ad rd st cv w = Some (E_OUTOFMEMORY, w).
Proof.
  unfold backend_report. intros Hreport Hzero.
  destruct (UsesBufferAlignment rd) eqn:Hquery; [discriminate |].
  inversion Hreport; subst reported; clear Hreport.
  assert (Hi : SizeInBytes (request_info w rd) = kInvalidSize).
  { unfold request_info, GetResourceAllocationInfo. rewrite Hquery.
    destruct (QueryResourceAllocationInfo (mDevice (this w)) rd) as [info desc].
    cbn [fst] in *. rewrite Hzero. reflexivity. }
  assert (E : CreateResourceInternal ad rd st cv w = Some (E_OUTOFMEMORY, w)).
  { unfold CreateResourceInternal, bind, gets. unfold request_info in Hi.
    destruct (GetResourceAllocationInfo (mDevice (this w)) rd) as [info desc].
    cbn [fst] in Hi. rewrite Hi, Z.eqb_refl. reflexivity. }
  split; [exact Hi |]. split; [exact E |].
  unfold CreateResource, ReturnIfFailed, bind. cbn [negb]. rewrite E.
  reflexivity.
Qed.

End Claims.

(** ** Releasing an allocation *)

Section ReleaseFacts.
Context {K : HeaderConstants} {M R D : Type}.
Context {MA : MemoryAllocator M} {RM : ResidencyManager R} {DV : Device D}.
Local Abbreviation W := (World M R D).


(** A release through an allocator stack always returns. *)
Lemma ReleaseThis_returns (w : W) (allocation : ResourceAllocation) :
  GetAllocator (base allocation) <> Some ThisResourceAllocator ->
  exists self' w', ReleaseThis (Some allocation) w = Some (self', w').
Proof.
  intros Hstack. unfold ReleaseThis, bind.
  destruct (GetAllocator (base allocation)) as [allocator |];
    [| eexists _, _; reflexivity].
  unfold allocator_DeallocateMemory, bind, log, modify.
  destruct allocator; try (exfalso; apply Hstack; reflexivity);
    eexists _, _; reflexivity.
Qed.

End ReleaseFacts.

(** ** Committed allocations and their release *)

Lemma total_size_cons r rs size :
  GetSize (base r) = Some size -> total_size (r :: rs) = size + total_size rs.
Proof.
  intros H. unfold total_size. cbn [fold_right]. unfold allocation_size at 1.
  rewrite H. reflexivity.
Qed.

Section Counters.
Context {K : HeaderConstants}.

Lemma info_moved_refl i : info_in_range i -> info_moved i i 0 0.
Proof. intros H. unfold info_moved. rewrite !Z.add_0_r. auto. Qed.

Lemma info_in_range_count i : info_in_range i -> 0 < 2 ^ kCountBits.
Proof. intros [_ H]. lia. Qed.

Lemma info_moved_trans i j k a b c d :
  info_moved i j a b -> info_moved j k c d -> info_moved i k (a + c) (b + d).
Proof.
  intros (B1 & F1 & U1 & C1 & R1) (B2 & F2 & U2 & C2 & R2).
  pose proof (info_in_range_count R1) as Hm.
  unfold info_moved. repeat split; try congruence; try apply R2.
  - rewrite U2, <- Z.add_mod_idemp_l, U1, Z.add_mod_idemp_l by lia.
    f_equal. lia.
  - rewrite C2, <- Z.add_mod_idemp_l, C1, Z.add_mod_idemp_l by lia.
    f_equal. lia.
Qed.

Lemma info_moved_add i size :
  info_in_range i -> info_moved i (info_add_memory i size) size 1.
Proof.
  intros R. pose proof (info_in_range_count R) as Hm.
  unfold info_moved, info_add_memory, info_in_range, wrap64, wrap. cbn.
  rewrite !Z.mod_mod by lia. repeat split; auto;
    apply Z.mod_pos_bound; lia.
Qed.

Lemma info_moved_sub i size :
  info_in_range i -> info_moved i (info_sub_memory i size) (- size) (- 1).
Proof.
  intros R. pose proof (info_in_range_count R) as Hm.
  unfold info_moved, info_sub_memory, info_in_range, wrap64, wrap. cbn.
  rewrite !Z.mod_mod by lia. repeat split; auto;
    apply Z.mod_pos_bound; lia.
Qed.

Lemma info_moved_back i j : info_in_range i -> info_moved i j 0 0 -> j = i.
Proof.
  intros Ri (B & F & U & C & Rj). rewrite !Z.add_0_r in *.
  destruct Ri as [Ui Ci], Rj as [Uj Cj].
  rewrite !Z.mod_small in U, C by lia.
  destruct i, j; cbn in *; congruence.
Qed.
End Counters.

Section RoundTrip.
Context {K : HeaderConstants} {M R D : Type}.
Context {MA : MemoryAllocator M} {RM : ResidencyManager R} {DV : Device D}.
Local Abbreviation W := (World M R D).

Lemma committed_allocation_size size r :
  committed_allocation size r -> GetSize (base r) = Some size.
Proof.
  intros (_ & Hm & _ & _ & heap & Hh & Hs). unfold GetSize.
  unfold GetMethod in Hm. unfold GetMemory in Hh. rewrite Hm, Hh, <- Hs.
  reflexivity.
Qed.

Lemma committed_allocations_info (w w1 : W) rs :
  committed_allocations w rs w1 ->
  info_in_range (mInfo (this w)) ->
  info_moved (mInfo (this w)) (mInfo (this w1)) (total_size rs)
             (Z.of_nat (length rs)) /\
  Forall (fun r => GetSize (base r) <> None) rs /\
  mIsAlwaysCommitted (this w1) = mIsAlwaysCommitted (this w) /\
  (mIsAlwaysCommitted (this w) = true ->
   mAllocators (this w1) = mAllocators (this w)).
Proof.
  induction 1 as [w | w ad rd st cv w1 r rs w2 E Hc Ho _ IH]; intros Hr.
  - split; [apply info_moved_refl, Hr |]. auto.
  - destruct (committed_outcome _ _ _ _ _ E eq_refl Hc)
      as (Cf & A & I & r' & Ho' & Hs).
    rewrite Ho in Ho'. inversion Ho'; subst r'; clear Ho'.
    apply committed_allocation_size in Hs.
    pose proof (info_moved_add (SizeInBytes (request_info w rd)) Hr) as Hm.
    rewrite <- I in Hm.
    destruct IH as (Hm2 & Hf & Ha & Aa); [apply Hm |].
    destruct Cf as (_ & _ & _ & Hac & _).
    split; [| split; [| split]].
    + rewrite (@total_size_cons r rs _ Hs).
      replace (Z.of_nat (length (r :: rs)))
        with (1 + Z.of_nat (length rs)) by (cbn [length]; lia).
      eapply info_moved_trans; eauto.
    + constructor; [congruence | exact Hf].
    + congruence.
    + intros Hw. rewrite Aa, A by congruence. reflexivity.
Qed.

Lemma DeallocateAll_info rs :
  Forall (fun r => GetSize (base r) <> None) rs ->
  forall w : W,
    info_in_range (mInfo (this w)) ->
    exists w2,
      DeallocateAll rs w = Some (tt, w2) /\
      info_moved (mInfo (this w)) (mInfo (this w2)) (- total_size rs)
                 (- Z.of_nat (length rs)) /\
      mAllocators (this w2) = mAllocators (this w).
Proof.
  induction 1 as [| r rs Hs _ IH]; intros w Hr.
  - exists w. split; [reflexivity |]. split; [| reflexivity].
    apply info_moved_refl, Hr.
  - destruct (GetSize (base r)) as [size |] eqn:Hsize; [| contradiction].
    pose proof (info_moved_sub size Hr) as Hm.
    set (w1 := add_call
                 (set_this w (set_mInfo (this w)
                    (info_sub_memory (mInfo (this w)) size)))
                 (CallSafeRelease (base r))).
    assert (Estep : DeallocateAll (r :: rs) w = DeallocateAll rs w1).
    { cbn [DeallocateAll].
      unfold bind at 1, ResourceAllocator_DeallocateMemory.
      rewrite Hsize. reflexivity. }
    destruct (IH w1) as (w2 & E & Hm2 & A); [apply Hm |].
    rewrite Estep.
    exists w2. split; [exact E |]. split; [| rewrite A; reflexivity].
    replace (- total_size (r :: rs)) with (- size + - total_size rs)
      by (rewrite (@total_size_cons r rs size Hsize); lia).
    replace (- Z.of_nat (length (r :: rs)))
      with (- 1 + - Z.of_nat (length rs)) by (cbn [length]; lia).
    eapply info_moved_trans; eauto.
Qed.

Lemma total_size_Permutation rs rs' :
  Permutation rs rs' -> total_size rs = total_size rs'.
Proof. unfold total_size. induction 1; cbn [fold_right]; lia. Qed.

Lemma QueryInfo_ext (a b : ResourceAllocator M R D) :
  mInfo a = mInfo b -> mAllocators a = mAllocators b ->
  QueryInfo a = QueryInfo b.
Proof. intros I A. unfold QueryInfo. rewrite I, A. reflexivity. Qed.

(** C8.  After [k] successful committed allocations, releasing all of them
    (in any order) through [DeallocateMemory] returns, and the facade's
    counters [mInfo] are exactly what they were before the first
    allocation: every release subtracts the size and the count its
    allocation added.  The committed path never counts block bytes.  When
    the facade only makes committed allocations
    ([ALLOCATOR_FLAG_ALWAYS_COMMITED]), the whole of [QueryInfo] is back to
    its earlier value. *)
Theorem committed_round_trip (w w1 : W)
    (allocations order : list ResourceAllocation) :
  info_in_range (mInfo (this w)) ->
  committed_allocations w allocations w1 ->
  Permutation allocations order ->
  exists w2,
    DeallocateAll order w1 = Some (tt, w2) /\
    mInfo (this w2) = mInfo (this w) /\
    UsedBlockUsage (mInfo (this w1)) = UsedBlockUsage (mInfo (this w)) /\
    (mIsAlwaysCommitted (this w) = true ->
     QueryInfo (this w2) = QueryInfo (this w)).
Proof.
  intros Hr Hallocs Hperm.
  destruct (committed_allocations_info Hallocs Hr) as (Hm & Hf & _ & Ha).
  assert (Hf' : Forall (fun r => GetSize (base r) <> None) order).
  { rewrite Forall_forall in *. intros r Hin. apply Hf.
    eapply Permutation_in; [apply Permutation_sym |]; eauto. }
  assert (Hr1 : info_in_range (mInfo (this w1))) by apply Hm.
  destruct (DeallocateAll_info Hf' w1 Hr1) as (w2 & E & Hm2 & A).
  exists w2. split; [exact E |].
  assert (Hback : mInfo (this w2) = mInfo (this w)).
  { apply info_moved_back; [exact Hr |].
    pose proof (info_moved_trans Hm Hm2) as Ht.
    rewrite <- (total_size_Permutation Hperm) in Ht.
    rewrite <- (Permutation_length Hperm) in Ht.
    rewrite !Z.add_opp_diag_r in Ht. exact Ht. }
  split; [exact Hback |]. split; [apply Hm |].
  intros Hc. apply QueryInfo_ext; [exact Hback |].
  rewrite A. auto.
Qed.

End RoundTrip.

(** ** The run of a request, exit by exit *)

Section RequestRunFacts.
Context {K : HeaderConstants} {M R D : Type}.
Context {MA : MemoryAllocator M} {RM : ResidencyManager R} {DV : Device D}.
Local Abbreviation W := (World M R D).
Local Abbreviation keeps' := (keeps (M:=M) (R:=R) (D:=D)).

Lemma keeps_refl (w : W) : keeps w w.
Proof. split; reflexivity. Qed.

Lemma keeps_trans (w1 w2 w3 : W) : keeps w1 w2 -> keeps w2 w3 -> keeps w1 w3.
Proof. unfold keeps. intros [A1 O1] [A2 O2]. split; congruence. Qed.

Lemma CreatePlacedResource_keeps heap offset desc clear state :
  steps keeps' (CreatePlacedResource (M:=M) (R:=R) (D:=D) heap offset desc clear state).
Proof.
  assert (Hu : forall f c, steps keeps' (residency_update (M:=M) (D:=D) f c)).
  { intros f c w a w' E. unfold residency_update in E.
    destruct (mResidencyManager (this w)); inversion E; subst; split; reflexivity. }
  unfold CreatePlacedResource. destruct heap as [heap |]; [| intros w a w' E; discriminate].
  apply steps_bind; [apply keeps_trans | apply Hu |]. intros _.
  apply steps_bind; [apply keeps_trans | |].
  { intros w a w' E. unfold device_CreatePlacedResource in E.
    destruct (DeviceCreatePlacedResource _ _ _ _ _ _) as [r d].
    inversion E; subst. split; reflexivity. }
  intros r. apply steps_bind; [apply keeps_trans | apply Hu |]. intros _.
  unfold ReturnIfFailedOut. apply steps_bind; [apply keeps_trans | |].
  - apply steps_ret, keeps_refl.
  - intros hr. destruct (FAILED hr); apply steps_ret, keeps_refl.
Qed.

Lemma createWithinResource_creates :
  creates true (createWithinResource (M:=M) (R:=R) (D:=D)).
Proof.
  intros a w hr w' E.
  split; [eapply step_createWithinResource; eassumption |].
  unfold createWithinResource in E.
  destruct (GetMemory a) as [heap |] eqn:Hm; [| discriminate].
  unfold bind at 1, gets in E.
  destruct (PageableAsResource (mDevice (this w)) (mPageable heap)) as [hr1 res].
  unfold ReturnIfFailed, bind, ret, residency_Get, gets,
    set_resourceAllocationOut, modify in E.
  destruct (FAILED hr1) eqn:F; inversion E; subst; clear E.
  - split; [reflexivity |]. left. auto.
  - split; [reflexivity |]. right. split; [reflexivity |].
    eexists. split; [reflexivity |]. split; [| reflexivity].
    unfold records. cbn. rewrite Hm. auto.
Qed.

Lemma createPlaced_creates desc clear state :
  creates false (createPlaced (M:=M) (R:=R) (D:=D) desc clear state).
Proof.
  intros a w hr w' E.
  split; [eapply step_createPlaced; [| eassumption]; auto |].
  unfold createPlaced in E. apply bind_Some in E as (r & w1 & E1 & E).
  apply CreatePlacedResource_keeps in E1 as [A O].
  unfold ReturnIfFailed, bind, ret, residency_Get, gets,
    set_resourceAllocationOut, modify in E.
  destruct (FAILED (fst r)) eqn:F; inversion E; subst; clear E.
  - split; [exact A |]. left. auto.
  - split; [exact A |]. right. split; [reflexivity |].
    eexists. split; [reflexivity |]. split; [| reflexivity].
    unfold records. cbn. auto.
Qed.

(** One [TryAllocateResource]: its calls, and what it leaves behind. *)
Lemma TryAllocateResource_run within allocator size alignment nv cs pf
    (createResourceFn : MemoryAllocation -> St W HRESULT) w hr w' :
  allocator <> ThisResourceAllocator ->
  creates within createResourceFn ->
  TryAllocateResource allocator size alignment nv cs pf createResourceFn w
    = Some (hr, w') ->
  same_config (this w) (this w') /\
  mInfo (this w') = mInfo (this w) /\
  exists kept l,
    calls w' = calls w ++ l /\
    attempt_log allocator size alignment nv cs pf kept l /\
    match kept with
    | None =>
        SUCCEEDED hr = false /\
        resourceAllocationOut w' = resourceAllocationOut w
    | Some a => hr = S_OK /\ exists r, handed_out within w' a r
    end.
Proof.
  intros Hstack Hfn E. unfold TryAllocateResource in E.
  apply bind_Some in E as (memorySize & w0 & E0 & E).
  unfold allocator_GetMemorySize, gets in E0. inversion E0; subst; clear E0.
  destruct (_ && _).
  { inversion E; subst. split; [apply same_config_refl |].
    split; [reflexivity |]. exists None, []. rewrite app_nil_r.
    split; [reflexivity |]. split; [constructor |]. split; reflexivity. }
  apply bind_Some in E as (allocation & w1 & E1 & E).
  unfold allocator_TryAllocateMemory in E1.
  destruct (TryAllocateMemory _ _ _ _ _ _ _) as [r m].
  inversion E1; subst; clear E1.
  destruct allocation as [a |].
  2:{ inversion E; subst. split; [repeat split |]. split; [reflexivity |].
      exists None. eexists. split; [reflexivity |].
      split; [constructor |]. split; reflexivity. }
  apply bind_Some in E as (hr1 & w2 & E2 & E).
  destruct (Hfn _ _ _ _ E2) as ((Cf & I & p & Ep & Fp) & A & C).
  destruct (FAILED hr1) eqn:F.
  - apply bind_Some in E as ([] & w3 & E3 & E). inversion E; subst; clear E.
    assert (H3 : calls w' = calls w2 ++ [CallDeallocateMemory allocator a] /\
                 same_config (this w2) (this w') /\
                 mInfo (this w') = mInfo (this w2) /\
                 resourceAllocationOut w' = resourceAllocationOut w2).
    { unfold allocator_DeallocateMemory, bind, log, modify in E3.
      destruct allocator; try contradiction; inversion E3; subst;
        repeat split. }
    destruct H3 as (E3' & Cf3 & I3 & O3).
    split; [eapply same_config_trans; [| exact Cf3];
            eapply same_config_trans; [| exact Cf]; repeat split |].
    split; [rewrite I3, I; reflexivity |].
    exists None. eexists. split.
    + rewrite E3', Ep. cbn [calls add_call set_this].
      rewrite <- !app_assoc. reflexivity.
    + split; [apply attempt_undone; exact Fp |].
      split; [rewrite FAILED_SUCCEEDED, F; reflexivity |].
      rewrite O3. destruct C as [[_ O] | [S _]]; [exact O |].
      subst hr. discriminate.
  - inversion E; subst; clear E.
    split; [eapply same_config_trans; [| exact Cf]; repeat split |].
    split; [rewrite I; reflexivity |].
    exists (Some a). eexists. split.
    + rewrite Ep. cbn [calls add_call set_this].
      rewrite <- !app_assoc. reflexivity.
    + split; [apply attempt_kept; exact Fp |].
      destruct C as [[F' _] | C]; [congruence | exact C].
Qed.

(** One guarded attempt of [CreateResourceInternal]: either it is the exit
    of the function, or the rest runs from a world in which the attempt has
    left nothing. *)
Lemma attempt_run within cond allocator size alignment nv cs pf
    (createResourceFn : MemoryAllocation -> St W HRESULT)
    (rest : St W HRESULT) w hr w' :
  allocator <> ThisResourceAllocator ->
  creates within createResourceFn ->
  ReturnIfSucceededWhen cond
    (TryAllocateResource allocator size alignment nv cs pf createResourceFn)
    rest w = Some (hr, w') ->
  (cond = true /\ hr = S_OK /\ mInfo (this w') = mInfo (this w) /\
   exists a l r,
     calls w' = calls w ++ l /\
     attempt_log allocator size alignment nv cs pf (Some a) l /\
     handed_out within w' a r) \/
  (exists w1 l,
     calls w1 = calls w ++ l /\
     missed cond (attempt_log allocator size alignment nv cs pf) l /\
     same_config (this w) (this w1) /\
     mInfo (this w1) = mInfo (this w) /\
     resourceAllocationOut w1 = resourceAllocationOut w /\
     (cond = false -> w1 = w) /\
     rest w1 = Some (hr, w')).
Proof.
  intros Hstack Hfn E. apply ReturnIfSucceededWhen_Some in E
    as [(C & E & S) | [(C & hr1 & w1 & E & S & Er) | (C & Er)]].
  - eapply TryAllocateResource_run in E as (_ & I & kept & l & El & Hl & Hk);
      [| eassumption | eassumption].
    destruct kept as [a |]; [| destruct Hk as [S' _]; congruence].
    destruct Hk as (-> & r & Ho). left. eauto 10.
  - eapply TryAllocateResource_run in E as (Cf & I & kept & l & El & Hl & Hk);
      [| eassumption | eassumption].
    destruct kept as [a |]; [destruct Hk as (-> & _); discriminate |].
    destruct Hk as (_ & O). right. exists w1, l. subst cond.
    repeat split; auto; try apply Cf. discriminate.
  - right. exists w, []. subst cond. rewrite app_nil_r.
    repeat split; auto.
Qed.

Lemma CreateResourceInternal_run ad rd st cv (w : W) hr w' :
  CreateResourceInternal ad rd st cv w = Some (hr, w') ->
  request_run ad rd st cv w hr w'.
Proof.
  unfold CreateResourceInternal, bind at 1, gets. intros E.
  destruct (GetResourceAllocationInfo (mDevice (this w)) rd)
    as [info desc] eqn:G.
  assert (Hi : request_info w rd = info)
    by (unfold request_info; rewrite G; reflexivity).
  assert (Hd : request_desc w rd = desc)
    by (unfold request_desc; rewrite G; reflexivity).
  subst info desc.
  destruct (Z.eqb_spec (SizeInBytes (request_info w rd)) kInvalidSize)
    as [Ei | Ni].
  { inversion E; subst. apply RunRejectedSize; auto. left. exact Ei. }
  destruct (Z.ltb_spec (mMaxResourceHeapSize (this w))
              (SizeInBytes (request_info w rd))).
  { inversion E; subst. apply RunRejectedSize; auto. right; left. lia. }
  destruct (Z.ltb_spec (mCapsMaxResourceSize (this w))
              (SizeInBytes (request_info w rd))).
  { inversion E; subst. apply RunRejectedSize; auto. right; right. lia. }
  cbn [orb] in E.
  change (GetResourceHeapType (Dimension (request_desc w rd)) (HeapType ad)
            (Flags (request_desc w rd)) (mResourceHeapTier (this w)))
    with (request_heap_type w ad rd) in E.
  destruct (is_RESOURCE_HEAP_TYPE_INVALID (request_heap_type w ad rd)) eqn:Hv.
  { inversion E; subst. apply RunRejectedHeapType; auto.
    destruct (request_heap_type _ _ _); try discriminate. reflexivity. }
  assert (Hacc : accepted w ad rd).
  { unfold accepted. repeat split; try lia; auto.
    intros Et. rewrite Et in Hv. discriminate. }
  apply attempt_run with (within := true) in E;
    [| discriminate | apply createWithinResource_creates].
  destruct E as [(C1 & -> & I1 & a & l1 & r & El & Hl & Ho)
                | (w1 & l1 & E1 & M1 & Cf1 & I1 & O1 & N1 & E)].
  { eapply RunWithin; eauto. }
  apply attempt_run with (within := false) in E;
    [| discriminate | apply createPlaced_creates].
  destruct E as [(C2 & -> & I2 & a & l2 & r & El & Hl & Ho)
                | (w2 & l2 & E2 & M2 & Cf2 & I2 & O2 & N2 & E)].
  { eapply RunSubAllocated; eauto.
    - rewrite El, E1, <- app_assoc. reflexivity.
    - congruence. }
  apply attempt_run with (within := false) in E;
    [| discriminate | apply createPlaced_creates].
  destruct E as [(C3 & -> & I3 & a & l3 & r & El & Hl & Ho)
                | (w3 & l3 & E3 & M3 & Cf3 & I3 & O3 & N3 & E)].
  { eapply RunHeap; eauto.
    - rewrite El, E2, E1, <- !app_assoc. reflexivity.
    - congruence. }
  assert (Hcalls : calls w3 = calls w ++ l1 ++ l2 ++ l3)
    by (rewrite E3, E2, E1, <- !app_assoc; reflexivity).
  assert (Hmissed : all_missed w ad rd st l1 l2 l3) by (repeat split; assumption).
  assert (Hout : resourceAllocationOut w3 = resourceAllocationOut w) by congruence.
  assert (Hinfo : mInfo (this w3) = mInfo (this w)) by congruence.
  change (flag_set (AllocationFlags ad) ALLOCATION_FLAG_NEVER_ALLOCATE_MEMORY)
    with (neverAllocate_of ad) in E.
  destruct (neverAllocate_of ad) eqn:Hnv.
  - inversion E; subst. eapply RunNeverAllocated; eauto.
  - eapply RunCommitted; eauto.
    + eapply same_config_trans; [exact Cf1 |].
      eapply same_config_trans; [exact Cf2 | exact Cf3].
    + intros Ha. rewrite N3, N2, N1; auto; rewrite Ha;
        rewrite ?andb_false_r; reflexivity.
Qed.

End RequestRunFacts.

(** ** What the calls of a request add up to *)

Lemma tried_app l1 l2 : tried (l1 ++ l2) = tried l1 ++ tried l2.
Proof.
  induction l1 as [| c l1 IH]; [reflexivity |].
  destruct c; cbn; auto. f_equal. exact IH.
Qed.

Lemma tried_silent l :
  Forall (fun c => placement_call c \/ committed_call c) l -> tried l = [].
Proof.
  induction 1 as [| c l Hc _ IH]; [reflexivity |].
  destruct c; cbn in *; auto; destruct Hc; contradiction.
Qed.

Lemma placement_silent p :
  Forall placement_call p ->
  obtained p = [] /\ handed_back p = [] /\ tried p = [].
Proof.
  intros F.
  assert (F' : Forall (fun c => placement_call c \/ committed_call c) p)
    by (eapply Forall_impl; [| exact F]; auto).
  destruct (silent_calls F') as [O B]. rewrite (tried_silent F'). auto.
Qed.

Lemma attempt_log_accounts allocator size alignment nv cs pf kept l :
  attempt_log allocator size alignment nv cs pf kept l ->
  obtained l =
    handed_back l ++
    match kept with Some a => [(allocator, a)] | None => [] end /\
  (tried l = [] \/ tried l = [allocator]).
Proof.
  destruct 1 as [| | a p Fp | a p Fp]; cbn; auto;
    destruct (placement_silent Fp) as (O & B & T).
  - rewrite obtained_app, handed_back_app, tried_app, O, B, T. cbn. auto.
  - rewrite O, B, T. auto.
Qed.

Lemma attempt_log_Forall (Q : Call -> Prop) allocator size alignment nv cs pf
    kept l :
  (forall r, Q (CallTryAllocateMemory allocator size alignment nv cs pf r)) ->
  (forall a, Q (CallDeallocateMemory allocator a)) ->
  (forall c, placement_call c -> Q c) ->
  attempt_log allocator size alignment nv cs pf kept l ->
  Forall Q l.
Proof.
  intros Ht Hd Hp. destruct 1 as [| | a p Fp | a p Fp]; repeat constructor; auto.
  - apply Forall_app. split; [eapply Forall_impl; eauto | auto].
  - eapply Forall_impl; eauto.
Qed.

Lemma missed_accounts guard allocator size alignment nv cs pf l :
  missed guard (attempt_log allocator size alignment nv cs pf) l ->
  obtained l = handed_back l /\
  exists b : bool,
    tried l = (if b then [allocator] else []) /\ (b = true -> guard = true).
Proof.
  unfold missed. destruct guard.
  - intros H. apply attempt_log_accounts in H as [A [T | T]].
    + rewrite app_nil_r in A. split; [exact A |]. exists false. auto.
    + rewrite app_nil_r in A. split; [exact A |]. exists true. auto.
  - intros ->. split; [reflexivity |]. exists false. split; [reflexivity |].
    discriminate.
Qed.

Lemma missed_Forall (Q : Call -> Prop) guard allocator size alignment nv cs pf l :
  (guard = true ->
   (forall r, Q (CallTryAllocateMemory allocator size alignment nv cs pf r)) /\
   (forall a, Q (CallDeallocateMemory allocator a)) /\
   (forall c, placement_call c -> Q c)) ->
  missed guard (attempt_log allocator size alignment nv cs pf) l ->
  Forall Q l.
Proof.
  unfold missed. destruct guard.
  - intros H. destruct (H eq_refl) as (Ht & Hd & Hp).
    apply attempt_log_Forall; assumption.
  - intros _ ->. constructor.
Qed.

Section RequestFacts.
Context {K : HeaderConstants} {M R D : Type}.
Context {MA : MemoryAllocator M} {RM : ResidencyManager R} {DV : Device D}.
Local Abbreviation W := (World M R D).

Lemma all_missed_accounts (w : W) ad rd st l1 l2 l3 :
  all_missed w ad rd st l1 l2 l3 ->
  obtained (l1 ++ l2 ++ l3) = handed_back (l1 ++ l2 ++ l3).
Proof.
  intros (M1 & M2 & M3).
  apply missed_accounts in M1 as [A1 _], M2 as [A2 _], M3 as [A3 _].
  rewrite !obtained_app, !handed_back_app. congruence.
Qed.

Lemma committed_silent l :
  Forall committed_call l ->
  obtained l = [] /\ handed_back l = [] /\ tried l = [].
Proof.
  intros F.
  assert (F' : Forall (fun c => placement_call c \/ committed_call c) l)
    by (eapply Forall_impl; [| exact F]; auto).
  destruct (silent_calls F') as [O B]. rewrite (tried_silent F'). auto.
Qed.

(** X2.  A successful request keeps exactly one thing: either the committed
    resource it created, and then every allocation obtained from the stacks
    on the way was handed back; or one allocation from a stack, the last one
    obtained, which the allocation object in the out slot records (same
    allocator, memory, offset and block).  The result is [S_OK], whatever
    success code the device returned. *)
Theorem successful_request_keeps_one_allocation ad rd st cv (w : W) hr w' :
  CreateResourceInternal ad rd st cv w = Some (hr, w') ->
  SUCCEEDED hr = true ->
  hr = S_OK /\
  exists r,
    resourceAllocationOut w' = Some r /\
    ((committed_allocation (SizeInBytes (request_info w rd)) r /\
      obtained (new_calls w w') = handed_back (new_calls w w')) \/
     (exists allocator a,
        obtained (new_calls w w') =
          handed_back (new_calls w w') ++ [(allocator, a)] /\
        records r a /\
        mInfo (this w') = mInfo (this w))).
Proof.
  intros E S. apply CreateResourceInternal_run in E.
  destruct E as [_ -> _ | _ -> _
                | l1 a r _ _ H1 El (Ho & Hr & _) I ->
                | l1 l2 a r _ M1 _ H2 El (Ho & Hr & _) I ->
                | l1 l2 l3 a r _ M1 M2 _ H3 El (Ho & Hr & _) I ->
                | l1 l2 l3 _ _ _ _ _ _ ->
                | l1 l2 l3 w3 _ Hm _ El _ _ _ _ E]; try discriminate.
  - split; [reflexivity |]. exists r. split; [exact Ho |]. right.
    exists (BufferAllocatorOfType (request_heap_type w ad rd)), a.
    erewrite new_calls_app by exact El.
    apply attempt_log_accounts in H1 as [A _]. auto.
  - split; [reflexivity |]. exists r. split; [exact Ho |]. right.
    exists (ResourceAllocatorOfType (request_heap_type w ad rd)), a.
    erewrite new_calls_app by exact El.
    apply missed_accounts in M1 as [A1 _].
    apply attempt_log_accounts in H2 as [A2 _].
    rewrite obtained_app, handed_back_app, A1, A2, app_assoc. auto.
  - split; [reflexivity |]. exists r. split; [exact Ho |]. right.
    exists (ResourceHeapAllocatorOfType (request_heap_type w ad rd)), a.
    erewrite new_calls_app by exact El.
    apply missed_accounts in M1 as [A1 _], M2 as [A2 _].
    apply attempt_log_accounts in H3 as [A3 _].
    rewrite !obtained_app, !handed_back_app, A1, A2, A3, !app_assoc. auto.
  - apply all_missed_accounts in Hm.
    apply createCommitted_cases in E
      as (_ & _ & (l4 & E4 & F4) & [(F & _) | (-> & _ & _ & r & Ho & Hc)]).
    + rewrite FAILED_SUCCEEDED, F in S. discriminate.
    + split; [reflexivity |]. exists r. split; [exact Ho |]. left.
      split; [exact Hc |].
      erewrite new_calls_app by (rewrite E4, El; rewrite <- app_assoc; reflexivity).
      destruct (committed_silent F4) as (O4 & B4 & _).
      rewrite obtained_app, handed_back_app, O4, B4, !app_nil_r. exact Hm.
Qed.

(** X3.  A failed request leaves the facade as it found it: its counters and the
    out slot are unchanged, and every allocation obtained on the way was
    handed back to the allocator it came from. *)
Theorem failed_request_leaves_nothing ad rd st cv (w : W) hr w' :
  CreateResourceInternal ad rd st cv w = Some (hr, w') ->
  FAILED hr = true ->
  mInfo (this w') = mInfo (this w) /\
  resourceAllocationOut w' = resourceAllocationOut w /\
  obtained (new_calls w w') = handed_back (new_calls w w').
Proof.
  intros E F. apply CreateResourceInternal_run in E.
  destruct E as [_ _ -> | _ _ ->
                | l1 a r _ _ _ _ _ _ ->
                | l1 l2 a r _ _ _ _ _ _ _ ->
                | l1 l2 l3 a r _ _ _ _ _ _ _ _ ->
                | l1 l2 l3 _ Hm _ El O I _
                | l1 l2 l3 w3 _ Hm _ El O I _ _ E]; try discriminate.
  - rewrite new_calls_refl. auto.
  - rewrite new_calls_refl. auto.
  - erewrite new_calls_app by exact El.
    split; [exact I |]. split; [exact O |]. eapply all_missed_accounts; eauto.
  - apply all_missed_accounts in Hm.
    apply createCommitted_cases in E
      as (_ & _ & (l4 & E4 & F4) & [(_ & I4 & O4) | (-> & _)]);
      [| discriminate].
    split; [congruence |]. split; [congruence |].
    erewrite new_calls_app by (rewrite E4, El; rewrite <- app_assoc; reflexivity).
    destruct (committed_silent F4) as (Ob & Bb & _).
    rewrite obtained_app, handed_back_app, Ob, Bb, !app_nil_r. exact Hm.
Qed.

End RequestFacts.

(** ** A request that must not allocate *)

Section NeverAllocate.
Context {K : HeaderConstants} {M R D : Type}.
Context {MA : MemoryAllocator M} {RM : ResidencyManager R} {DV : Device D}.
Local Abbreviation W := (World M R D).






End NeverAllocate.

Section RequestCalls.
Context {K : HeaderConstants} {M R D : Type}.
Context {MA : MemoryAllocator M} {RM : ResidencyManager R} {DV : Device D}.
Local Abbreviation W := (World M R D).

Lemma GetHeapFlags_without_deny t :
  Z.land (GetHeapFlags t)
    (Z.lnot (Z.lor (Z.lor D3D12_HEAP_FLAG_DENY_NON_RT_DS_TEXTURES
                          D3D12_HEAP_FLAG_DENY_RT_DS_TEXTURES)
                   D3D12_HEAP_FLAG_DENY_BUFFERS))
  = D3D12_HEAP_FLAG_NONE.
Proof. destruct t; reflexivity. Qed.

Lemma CreateCommittedResource_log heapType heapFlags resourceSize desc
    clearValue state (w : W) result w' :
  CreateCommittedResource heapType heapFlags resourceSize desc clearValue
    state w = Some (result, w') ->
  exists l,
    calls w' = calls w ++ l /\
    Forall (committed_path_call heapType
              (Z.land heapFlags
                 (Z.lnot (Z.lor (Z.lor D3D12_HEAP_FLAG_DENY_NON_RT_DS_TEXTURES
                                       D3D12_HEAP_FLAG_DENY_RT_DS_TEXTURES)
                                D3D12_HEAP_FLAG_DENY_BUFFERS)))
              resourceSize) l.
Proof.
  unfold CreateCommittedResource, bind at 1, gets.
  set (flags := Z.land heapFlags _).
  set (group := GetPreferredMemorySegmentGroup _ _ _).
  set (rest := bind (device_CreateCommittedResource _ _ _ _ _) _).
  assert (Hrest : forall w0 result0 w0',
    rest w0 = Some (result0, w0') ->
    exists l, calls w0' = calls w0 ++ l /\
              Forall (committed_path_call heapType flags resourceSize) l).
  { subst rest. intros w0 result0 w0'.
    unfold bind at 1, device_CreateCommittedResource.
    destruct (DeviceCreateCommittedResource _ _ _ _ _ _) as [[hr res] d].
    unfold ReturnIfFailedOut, bind at 1, ret. cbn [fst snd].
    destruct (FAILED hr).
    - intros E. inversion E; subst. eexists [_]. split; [reflexivity |].
      repeat constructor.
    - unfold bind, residency_update, ret. cbn [fst snd].
      destruct (mResidencyManager (this (add_call _ _)));
        intros E; inversion E; subst; clear E.
      + eexists [_; _]. split; [simpl; rewrite <- app_assoc; reflexivity |].
        repeat constructor.
      + eexists [_]. split; [reflexivity |]. repeat constructor. }
  destruct (mIsAlwaysInBudget (this w) && has_ResidencyManager (this w)).
  - unfold ReturnIfFailedOut, bind at 1, residency_Evict.
    destruct (mResidencyManager (this w)) as [r |]; [| discriminate].
    destruct (Evict resourceSize group r) as [hrE r'].
    destruct (FAILED hrE).
    + intros E. inversion E; subst. eexists [_]. split; [reflexivity |].
      repeat constructor.
    + intros E. apply Hrest in E as (l & El & Fl).
      exists (CallEvict resourceSize group hrE :: l). split.
      * rewrite El. simpl. rewrite <- app_assoc. reflexivity.
      * constructor; [reflexivity | exact Fl].
  - apply Hrest.
Qed.

Lemma createCommitted_log ad t info desc clearValue state (w : W) hr w' :
  createCommitted ad (GetHeapFlags t) info desc clearValue state w
    = Some (hr, w') ->
  exists l,
    calls w' = calls w ++ l /\
    Forall (committed_path_call (HeapType ad) D3D12_HEAP_FLAG_NONE
              (SizeInBytes info)) l.
Proof.
  unfold createCommitted. intros E.
  apply bind_Some in E as ([hr1 out] & w1 & E1 & E2).
  apply CreateCommittedResource_log in E1 as (l & El & Fl).
  rewrite GetHeapFlags_without_deny in Fl.
  exists l. split; [| exact Fl]. cbn [fst snd] in E2.
  apply ReturnIfFailed_Some in E2 as [[E2 F] | (hr2 & w2 & E2 & F & E3)].
  - inversion E2; subst. exact El.
  - inversion E2; subst; clear E2.
    destruct out as [[res heap] |]; [| discriminate].
    unfold bind, modify, residency_Get, gets, set_resourceAllocationOut, ret in E3.
    inversion E3; subst. exact El.
Qed.

Lemma missed_attempt_Forall (Q : Call -> Prop) guard
    (attempt : option MemoryAllocation -> list Call -> Prop) l :
  (guard = true -> forall kept l, attempt kept l -> Forall Q l) ->
  missed guard attempt l -> Forall Q l.
Proof.
  unfold missed. destruct guard.
  - intros H. apply H. reflexivity.
  - intros _ ->. constructor.
Qed.

(** Whatever holds of the calls of each attempt that is made, and of the
    calls of the committed path, holds of all the calls of a request. *)
Lemma request_run_Forall (Q : Call -> Prop) ad rd st cv (w : W) hr w' :
  request_run ad rd st cv w hr w' ->
  (accepted w ad rd -> within_guard w ad rd st = true ->
   forall kept l, within_attempt w ad rd kept l -> Forall Q l) ->
  (accepted w ad rd -> suballocate_guard w ad = true ->
   forall kept l, suballocated_attempt w ad rd kept l -> Forall Q l) ->
  (accepted w ad rd -> heap_guard w = true ->
   forall kept l, heap_attempt w ad rd kept l -> Forall Q l) ->
  (accepted w ad rd -> neverAllocate_of ad = false ->
   forall c,
     committed_path_call (HeapType ad) D3D12_HEAP_FLAG_NONE
       (SizeInBytes (request_info w rd)) c -> Q c) ->
  Forall Q (new_calls w w').
Proof.
  intros Hrun H1 H2 H3 H4.
  destruct Hrun as [_ _ -> | _ _ ->
                | l1 a r Ha C1 A1 El _ _ _
                | l1 l2 a r Ha M1 C2 A2 El _ _ _
                | l1 l2 l3 a r Ha M1 M2 C3 A3 El _ _ _
                | l1 l2 l3 Ha (M1 & M2 & M3) _ El _ _ _
                | l1 l2 l3 w3 Ha (M1 & M2 & M3) Hnv El _ _ _ _ E].
  - rewrite new_calls_refl. constructor.
  - rewrite new_calls_refl. constructor.
  - erewrite new_calls_app by exact El. eauto.
  - erewrite new_calls_app by exact El. apply Forall_app. split.
    + (eapply missed_attempt_Forall; [| eassumption]; eauto).
    + eauto.
  - erewrite new_calls_app by exact El. rewrite !Forall_app. repeat split.
    + (eapply missed_attempt_Forall; [| eassumption]; eauto).
    + (eapply missed_attempt_Forall; [| eassumption]; eauto).
    + eauto.
  - erewrite new_calls_app by exact El. rewrite !Forall_app. repeat split;
      (eapply missed_attempt_Forall; [| eassumption]; eauto).
  - apply createCommitted_log in E as (l4 & E4 & F4).
    erewrite new_calls_app
      by (rewrite E4, El; rewrite <- app_assoc; reflexivity).
    rewrite !Forall_app. repeat split;
      try (eapply missed_attempt_Forall; [| eassumption]; eauto).
    eapply Forall_impl; [| exact F4]. auto.
Qed.

Lemma attempt_log_attempted allocator size alignment nv cs pf kept l :
  attempt_log allocator size alignment nv cs pf kept l ->
  attempted true allocator l.
Proof.
  intros H. unfold attempted.
  destruct H as [| | a p Fp | a p Fp].
  - left. reflexivity.
  - right. split; [reflexivity |]. do 7 eexists.
    split; [reflexivity | constructor].
  - right. split; [reflexivity |]. do 7 eexists.
    split; [reflexivity |]. apply Forall_app. split.
    + eapply Forall_impl; [| exact Fp]. auto.
    + constructor; [| constructor]. right. eexists. reflexivity.
  - right. split; [reflexivity |]. do 7 eexists.
    split; [reflexivity |]. eapply Forall_impl; [| exact Fp]. auto.
Qed.

Lemma missed_attempted guard allocator size alignment nv cs pf l :
  missed guard (attempt_log allocator size alignment nv cs pf) l ->
  attempted guard allocator l.
Proof.
  unfold missed. destruct guard.
  - apply attempt_log_attempted.
  - intros ->. left. reflexivity.
Qed.

(** X4.  The calls of a request are those of at most one attempt on the
    buffer allocator, then at most one on the resource allocator, then at
    most one on the resource heap allocator of the request's heap type, each
    made only under its guard, followed by the calls of the committed path.
    An attempt is one [TryAllocateMemory] on its stack, followed by nothing
    but the placement of a resource and the return of memory to that stack:
    so each stack is asked at most once, in this order, and no call of the
    committed path comes before or between the attempts.  The committed
    path is entered only without [ALLOCATION_FLAG_NEVER_ALLOCATE_MEMORY] and
    after every allocation the attempts obtained was handed back. *)
Theorem allocators_are_tried_once_in_order ad rd st cv (w : W) hr w' :
  CreateResourceInternal ad rd st cv w = Some (hr, w') ->
  exists within suballocated heap last_resort,
    new_calls w w' = within ++ suballocated ++ heap ++ last_resort /\
    attempted (within_guard w ad rd st)
      (BufferAllocatorOfType (request_heap_type w ad rd)) within /\
    attempted (suballocate_guard w ad)
      (ResourceAllocatorOfType (request_heap_type w ad rd)) suballocated /\
    attempted (heap_guard w)
      (ResourceHeapAllocatorOfType (request_heap_type w ad rd)) heap /\
    Forall committed_call last_resort /\
    (last_resort <> [] ->
     neverAllocate_of ad = false /\
     obtained (within ++ suballocated ++ heap) =
       handed_back (within ++ suballocated ++ heap)).
Proof.
  intros E. apply CreateResourceInternal_run in E.
  assert (Hnil : forall guard allocator, attempted guard allocator [])
    by (intros; left; reflexivity).
  destruct E as [_ _ -> | _ _ ->
                | l1 a r _ C1 A1 El _ _ _
                | l1 l2 a r _ M1 C2 A2 El _ _ _
                | l1 l2 l3 a r _ M1 M2 C3 A3 El _ _ _
                | l1 l2 l3 _ (M1 & M2 & M3) _ El _ _ _
                | l1 l2 l3 w3 _ Hm Hnv El _ _ _ _ E].
  - exists [], [], [], []. rewrite new_calls_refl.
    repeat split; auto. congruence.
  - exists [], [], [], []. rewrite new_calls_refl.
    repeat split; auto. congruence.
  - exists l1, [], [], []. erewrite new_calls_app by exact El.
    rewrite !app_nil_r. apply attempt_log_attempted in A1. rewrite C1 in *.
    repeat split; auto; congruence.
  - exists l1, l2, [], []. erewrite new_calls_app by exact El.
    rewrite !app_nil_r. apply missed_attempted in M1.
    apply attempt_log_attempted in A2. rewrite C2 in *.
    repeat split; auto; congruence.
  - exists l1, l2, l3, []. erewrite new_calls_app by exact El.
    rewrite !app_nil_r. apply missed_attempted in M1, M2.
    apply attempt_log_attempted in A3. rewrite C3 in *.
    repeat split; auto; congruence.
  - exists l1, l2, l3, []. erewrite new_calls_app by exact El.
    rewrite !app_nil_r. apply missed_attempted in M1, M2, M3.
    repeat split; auto; congruence.
  - pose proof (all_missed_accounts Hm) as Hback.
    destruct Hm as (M1 & M2 & M3).
    apply missed_attempted in M1, M2, M3.
    apply createCommitted_cases in E as (_ & _ & (l4 & E4 & F4) & _).
    exists l1, l2, l3, l4.
    erewrite new_calls_app
      by (rewrite E4, El; rewrite <- !app_assoc; reflexivity).
    repeat split; auto.
Qed.

(** X5.  A facade that always commits ([ALLOCATOR_FLAG_ALWAYS_COMMITED]) asks no
    allocator stack for anything and places no resource: all the calls of a
    request are those of the committed path, and the stacks are left as
    they were. *)
Theorem always_committed_asks_no_allocator ad rd st cv (w : W) hr w' :
  mIsAlwaysCommitted (this w) = true ->
  CreateResourceInternal ad rd st cv w = Some (hr, w') ->
  Forall committed_call (new_calls w w') /\
  mAllocators (this w') = mAllocators (this w).
Proof.
  intros Ha E. apply CreateResourceInternal_outcome in E.
  destruct E as [_ _ -> | _ _ -> | Hf _ _ | _ _ N _ | w1 _ _ N E].
  - rewrite new_calls_refl. auto.
  - rewrite new_calls_refl. auto.
  - congruence.
  - rewrite (N Ha), new_calls_refl. auto.
  - rewrite (N Ha) in E.
    apply createCommitted_cases in E as (_ & A & (l & El & Fl) & _).
    erewrite new_calls_app by exact El. auto.
Qed.

Lemma guards_of_never_suballocate (w : W) ad rd st :
  neverSubAllocate_of ad = true ->
  within_guard w ad rd st = false /\ suballocate_guard w ad = false.
Proof.
  intros H. unfold within_guard, suballocate_guard. rewrite H.
  cbn [negb]. rewrite !andb_false_r. auto.
Qed.

(** X6.  A request with [ALLOCATION_FLAG_NEVER_SUBALLOCATE_MEMORY] is never
    sub-allocated: the only allocator stack it touches is the resource heap
    allocator of its heap type, which gives it a heap of its own. *)
Theorem never_suballocate_asks_heap_allocator_only ad rd st cv (w : W) hr w' :
  neverSubAllocate_of ad = true ->
  CreateResourceInternal ad rd st cv w = Some (hr, w') ->
  Forall (only_allocator
            (ResourceHeapAllocatorOfType (request_heap_type w ad rd)))
         (new_calls w w').
Proof.
  intros Hn E. apply CreateResourceInternal_run in E.
  destruct (guards_of_never_suballocate w ad rd st Hn) as [G1 G2].
  eapply request_run_Forall; [exact E | | | |].
  - intros _ C. congruence.
  - intros _ C. congruence.
  - intros _ _ kept l H. unfold heap_attempt in H.
    eapply attempt_log_Forall; [| | | exact H]; try (intros; reflexivity).
    intros c Hc. destruct c; try contradiction; exact I.
  - intros _ _ c Hc. destruct c; try contradiction; exact I.
Qed.

Lemma within_guard_true (w : W) ad rd st :
  within_guard w ad rd st = true ->
  Width (request_desc w rd) < InfoAlignment (request_info w rd) /\
  Dimension (request_desc w rd) = D3D12_RESOURCE_DIMENSION_BUFFER /\
  GetInitialResourceState (HeapType ad) = Some st /\
  allowWithin_of ad = true /\
  mIsAlwaysCommitted (this w) = false /\
  neverSubAllocate_of ad = false.
Proof.
  unfold within_guard. rewrite !andb_true_iff, !negb_true_iff.
  intros (((((A & L) & B) & S) & C) & N).
  split; [apply Z.ltb_lt; exact L |].
  split; [destruct (Dimension _); try discriminate; reflexivity |].
  split; [| auto].
  destruct (GetInitialResourceState _) as [s |]; [| discriminate].
  apply Z.eqb_eq in S. congruence.
Qed.

(** X7.  No collaborator is asked for more than the request needs, or for more
    than the facade allows: the buffer allocator is asked for the width of a
    buffer that is smaller than its alignment; every other allocator, and
    the eviction of the committed path, is given the size computed for the
    request, which is a valid size within [mMaxResourceHeapSize] and the
    device's maximum resource size; the heap of a committed resource has
    that size. *)
Theorem request_asks_for_its_size ad rd st cv (w : W) hr w' :
  CreateResourceInternal ad rd st cv w = Some (hr, w') ->
  Forall (sized_call w rd) (new_calls w w').
Proof.
  intros E. apply CreateResourceInternal_run in E.
  eapply request_run_Forall; [exact E | | | |].
  - intros _ C kept l H. apply within_guard_true in C as (L & _).
    unfold within_attempt in H.
    eapply attempt_log_Forall; [| | | exact H].
    + intros r. cbn. auto.
    + intros a. exact I.
    + intros c Hc. destruct c; try contradiction; exact I.
  - intros (Hi & Hm & Hc & _) _ kept l H. unfold suballocated_attempt in H.
    eapply attempt_log_Forall; [| | | exact H].
    + intros r. cbn. auto.
    + intros a. exact I.
    + intros c Hc'. destruct c; try contradiction; exact I.
  - intros (Hi & Hm & Hc & _) _ kept l H. unfold heap_attempt in H.
    eapply attempt_log_Forall; [| | | exact H].
    + intros r. cbn. auto.
    + intros a. exact I.
    + intros c Hc'. destruct c; try contradiction; exact I.
  - intros (Hi & Hm & Hc & _) _ c Hp.
    destruct c; try contradiction; cbn in *; auto.
    subst size. auto.
Qed.

(** X8.  The committed resource of a request is created with the heap type of
    the request and with no heap flags at all
    ([D3D12_HEAP_FLAG_NONE]): the flags of every resource heap type consist
    of deny bits only, and [CreateCommittedResource] clears those. *)
Theorem committed_resource_is_created_without_heap_flags
    ad rd st cv (w : W) hr w' :
  CreateResourceInternal ad rd st cv w = Some (hr, w') ->
  Forall (created_as (HeapType ad) D3D12_HEAP_FLAG_NONE) (new_calls w w').
Proof.
  intros E. apply CreateResourceInternal_run in E.
  assert (Hattempt : forall allocator size alignment nv cs pf kept l,
    attempt_log allocator size alignment nv cs pf kept l ->
    Forall (created_as (HeapType ad) D3D12_HEAP_FLAG_NONE) l).
  { intros allocator size alignment nv cs pf kept l H.
    eapply attempt_log_Forall; [| | | exact H]; try (intros; exact I).
    intros c Hc. destruct c; try contradiction; exact I. }
  eapply request_run_Forall; [exact E | | | |];
    try (intros _ _ kept l H; eapply Hattempt; exact H).
  intros _ _ c Hc. destruct c; try contradiction; cbn in *; auto.
Qed.

End RequestCalls.

(** ** The helpers of the request: heap types, alignment, placement *)

Lemma GetResourceHeapType_invalid dimension heapType flags tier :
  GetResourceHeapType dimension heapType flags tier = RESOURCE_HEAP_TYPE_INVALID
  <-> unsupported dimension heapType tier.
Proof.
  unfold GetResourceHeapType, unsupported, D3D12_RESOURCE_HEAP_TIER_2.
  destruct (Z.leb_spec 2 tier) as [Ht | Ht].
  - split.
    + destruct heapType; try discriminate. auto.
    + intros [-> | [L _]]; [reflexivity | lia].
  - split.
    + destruct dimension, heapType; cbn; try discriminate; auto;
        try (intros _; right; split; [lia |]; right; split;
             [reflexivity | discriminate]);
        destruct (_ || _); discriminate.
    + intros [-> | [_ [-> | [Hx Hh]]]].
      * destruct dimension; reflexivity.
      * reflexivity.
      * destruct dimension; try discriminate;
          destruct heapType; try reflexivity; contradiction.
Qed.

(** X9.  The resource heap type chosen for a request is one of the request's
    heap type.  On resource heap tier 2 and above its heap flags deny
    nothing; below, they allow the kind of resource requested (a buffer, a
    render-target or depth-stencil texture, another texture) and deny the
    two other kinds. *)
Theorem resource_heap_type_suits_request dimension heapType flags tier :
  GetResourceHeapType dimension heapType flags tier
    <> RESOURCE_HEAP_TYPE_INVALID ->
  GetHeapType (GetResourceHeapType dimension heapType flags tier) = heapType /\
  (D3D12_RESOURCE_HEAP_TIER_2 <= tier ->
   denied_categories
     (GetHeapFlags (GetResourceHeapType dimension heapType flags tier)) = 0%nat) /\
  (tier < D3D12_RESOURCE_HEAP_TIER_2 ->
   heap_accepts
     (GetHeapFlags (GetResourceHeapType dimension heapType flags tier))
     dimension flags = true /\
   denied_categories
     (GetHeapFlags (GetResourceHeapType dimension heapType flags tier)) = 2%nat).
Proof.
  unfold GetResourceHeapType, D3D12_RESOURCE_HEAP_TIER_2.
  destruct (Z.leb_spec 2 tier) as [Ht | Ht].
  - destruct heapType; intros Hv; try contradiction;
      (split; [reflexivity |]; split; [reflexivity | lia]).
  - destruct dimension, heapType; intros Hv; try contradiction;
      try (split; [reflexivity |]; split; [lia |]; intros _; split; reflexivity).
    all: unfold heap_accepts;
      destruct (flag_set flags D3D12_RESOURCE_FLAG_ALLOW_DEPTH_STENCIL
                || flag_set flags D3D12_RESOURCE_FLAG_ALLOW_RENDER_TARGET);
      (split; [reflexivity |]; split; [lia |]; intros _; split; reflexivity).
Qed.

(** X10.  Neither call of [GetInitialResourceState] can reach its
    [UNREACHABLE()]: the constructor calls it with the heap type of each of
    the eight resource heap types, and [CreateResourceInternal] only after
    the request's heap type was found to be supported. *)
Theorem GetInitialResourceState_is_never_unreachable :
  (forall t, In t resourceHeapTypes ->
     GetInitialResourceState (GetHeapType t) <> None) /\
  (forall dimension heapType flags tier,
     GetResourceHeapType dimension heapType flags tier
       <> RESOURCE_HEAP_TYPE_INVALID ->
     GetInitialResourceState heapType <> None).
Proof.
  split.
  - intros t _. destruct t; discriminate.
  - apply GetInitialResourceState_valid.
Qed.

Section HelperFacts.
Context {K : HeaderConstants} {M R D : Type}.
Context {MA : MemoryAllocator M} {RM : ResidencyManager R} {DV : Device D}.
Local Abbreviation W := (World M R D).

(** X11.  A request for a heap type the allocator has no resource heap type for
    (a custom heap; below resource heap tier 2, a texture outside the
    default heap, or a resource of unknown dimension) is refused with
    [E_INVALIDARG], provided its size passed the tests that come first; the
    world is unchanged. *)
Theorem unsupported_request_is_invalid_argument ad rd st cv (w : W) :
  ~ size_rejected w rd ->
  unsupported (Dimension (request_desc w rd)) (HeapType ad)
    (mResourceHeapTier (this w)) ->
  CreateResourceInternal ad rd st cv w = Some (E_INVALIDARG, w) /\
  CreateResource true ad rd st cv w = Some (E_INVALIDARG, w).
Proof.
  intros Hsize Hu.
  apply (GetResourceHeapType_invalid _ _ (Flags (request_desc w rd))) in Hu.
  assert (E : CreateResourceInternal ad rd st cv w = Some (E_INVALIDARG, w)).
  { unfold CreateResourceInternal, bind, gets.
    unfold size_rejected, request_info in Hsize. unfold request_desc in Hu.
    destruct (GetResourceAllocationInfo (mDevice (this w)) rd) as [info desc].
    cbn [fst snd] in *.
    destruct (Z.eqb_spec (SizeInBytes info) kInvalidSize); [tauto |].
    destruct (Z.ltb_spec (mMaxResourceHeapSize (this w)) (SizeInBytes info));
      [exfalso; apply Hsize; right; left; lia |].
    destruct (Z.ltb_spec (mCapsMaxResourceSize (this w)) (SizeInBytes info));
      [exfalso; apply Hsize; right; right; lia |].
    cbn [orb]. rewrite Hu. reflexivity. }
  split; [exact E |].
  unfold CreateResource, ReturnIfFailed, bind. cbn [negb]. rewrite E.
  reflexivity.
Qed.

(** X12.  [GetResourceAllocationInfo] changes nothing of the descriptor but its
    alignment, and leaves it with an alignment that is either 0 or the one
    reported with the size.  A buffer without alignment keeps its
    descriptor and gets the default placement alignment (64 KiB) without
    the device being asked; any other descriptor never comes back with a
    size of 0 (where [kInvalidSize] is not 0). *)
Theorem GetResourceAllocationInfo_alignment (device : D)
    (resourceDescriptor : D3D12_RESOURCE_DESC) :
  let info := fst (GetResourceAllocationInfo device resourceDescriptor) in
  let desc := snd (GetResourceAllocationInfo device resourceDescriptor) in
  desc = with_Alignment resourceDescriptor (Alignment desc) /\
  (Alignment desc = 0 \/ Alignment desc = InfoAlignment info) /\
  (UsesBufferAlignment resourceDescriptor = true ->
   desc = resourceDescriptor /\
   InfoAlignment info = D3D12_DEFAULT_RESOURCE_PLACEMENT_ALIGNMENT /\
   SizeInBytes info =
     AlignTo (Width resourceDescriptor)
             D3D12_DEFAULT_RESOURCE_PLACEMENT_ALIGNMENT) /\
  (UsesBufferAlignment resourceDescriptor = false ->
   kInvalidSize <> 0 -> SizeInBytes info <> 0).
Proof.
  assert (Heta : forall d, d = with_Alignment d (Alignment d))
    by (intros [? ? ? ? ? ? ? ? ? ? ?]; reflexivity).
  assert (Hwith : forall d a b,
            with_Alignment (with_Alignment d a) b = with_Alignment d b)
    by reflexivity.
  unfold GetResourceAllocationInfo.
  destruct (UsesBufferAlignment resourceDescriptor) eqn:Hb; cbn [fst snd].
  - unfold UsesBufferAlignment in Hb. apply andb_true_iff in Hb as [Ha _].
    apply Z.eqb_eq in Ha.
    split; [apply Heta |]. split; [left; exact Ha |].
    split; [auto | discriminate].
  - unfold QueryResourceAllocationInfo.
    set (small := _ && _ && _).
    set (d1 := if small then _ else resourceDescriptor).
    assert (H1 : d1 = with_Alignment resourceDescriptor (Alignment d1)).
    { subst d1. destruct small; [reflexivity | apply Heta]. }
    destruct (negb (Alignment d1 =? 0)
              && negb (Alignment d1 =? InfoAlignment
                         (DeviceGetResourceAllocationInfo device d1))) eqn:Hr.
    + cbn [fst snd].
      split; [rewrite H1 at 1; reflexivity |].
      split; [left; reflexivity |]. split; [discriminate |].
      intros _ Hk.
      destruct (Z.eqb_spec (SizeInBytes
        (DeviceGetResourceAllocationInfo device (with_Alignment d1 0))) 0);
        cbn; auto.
    + cbn [fst snd]. split; [exact H1 |].
      split; [| split; [discriminate |]].
      * apply andb_false_iff in Hr as [Hr | Hr];
          apply negb_false_iff, Z.eqb_eq in Hr.
        -- left. exact Hr.
        -- right. rewrite Hr.
           destruct (SizeInBytes _ =? 0); reflexivity.
      * intros _ Hk. destruct (Z.eqb_spec (SizeInBytes
          (DeviceGetResourceAllocationInfo device d1)) 0); cbn; auto.
Qed.

(** X13.  [CreatePlacedResource] returns for every heap.  With a residency
    manager, the heap is locked before the device is asked to place the
    resource and unlocked afterwards, whether the device succeeded or not;
    without one, the device call is all there is.  A failure of the device
    is the result, with no resource; any success is reported as [S_OK]. *)
Theorem CreatePlacedResource_locks_and_unlocks heap offset desc cv st (w : W) :
  exists hrDevice hr res w',
    CreatePlacedResource (Some heap) offset desc cv st w = Some ((hr, res), w') /\
    new_calls w w' =
      (if has_ResidencyManager (this w)
       then [CallLockHeap heap; CallCreatePlacedResource heap offset hrDevice;
             CallUnlockHeap heap]
       else [CallCreatePlacedResource heap offset hrDevice]) /\
    mResidencyManager (this w') =
      option_map (fun r => UnlockHeap heap (LockHeap heap r))
                 (mResidencyManager (this w)) /\
    (if FAILED hrDevice then hr = hrDevice /\ res = None
     else hr = S_OK /\ res <> None).
Proof.
  unfold CreatePlacedResource, bind, residency_update,
    device_CreatePlacedResource, ReturnIfFailedOut, ret, has_ResidencyManager.
  destruct (mResidencyManager (this w)) as [r |] eqn:Hr; cbn.
  - destruct (DeviceCreatePlacedResource heap offset desc st cv (mDevice (this w)))
      as [[hrDevice res] d]. cbn.
    exists hrDevice. destruct (FAILED hrDevice) eqn:F;
      eexists _, _, _; (split; [reflexivity |]);
      (split; [apply new_calls_app; cbn; rewrite <- !app_assoc; reflexivity |]);
      (split; [reflexivity |]); rewrite ?F; split; congruence.
  - destruct (DeviceCreatePlacedResource heap offset desc st cv (mDevice (this w)))
      as [[hrDevice res] d]. cbn. rewrite Hr.
    exists hrDevice. destruct (FAILED hrDevice) eqn:F;
      eexists _, _, _; (split; [reflexivity |]);
      (split; [apply new_calls_app; cbn; reflexivity |]);
      (split; [exact Hr |]); rewrite ?F; split; congruence.
Qed.

Lemma request_run_result ad rd st cv (w : W) hr w' :
  request_run ad rd st cv w hr w' ->
  (hr = S_OK /\ exists r, resourceAllocationOut w' = Some r) \/
  (FAILED hr = true /\
   resourceAllocationOut w' = resourceAllocationOut w /\
   mInfo (this w') = mInfo (this w)).
Proof.
  intros [_ -> -> | _ -> ->
         | l1 a r _ _ _ _ (Ho & _) _ ->
         | l1 l2 a r _ _ _ _ _ (Ho & _) _ ->
         | l1 l2 l3 a r _ _ _ _ _ _ (Ho & _) _ ->
         | l1 l2 l3 _ _ _ _ O I ->
         | l1 l2 l3 w3 _ _ _ _ O I _ _ E]; eauto.
  apply createCommitted_cases in E
    as (_ & _ & _ & [(F & I4 & O4) | (-> & _ & _ & r & Ho & _)]).
  - right. split; [exact F |]. split; congruence.
  - left. eauto.
Qed.

(** X14.  The public [CreateResource]: without an out pointer it returns
    [E_POINTER] and does nothing.  Otherwise its result is either [S_OK],
    and then the out slot holds an allocation, or a failure, and then the
    out slot and the counters of the facade are as they were. *)
Theorem CreateResource_writes_the_out_slot_on_success
    hasOut ad rd st cv (w : W) hr w' :
  CreateResource hasOut ad rd st cv w = Some (hr, w') ->
  (hasOut = false /\ hr = E_POINTER /\ w' = w) \/
  (hasOut = true /\ hr = S_OK /\
   exists r, resourceAllocationOut w' = Some r) \/
  (hasOut = true /\ FAILED hr = true /\
   resourceAllocationOut w' = resourceAllocationOut w /\
   mInfo (this w') = mInfo (this w)).
Proof.
  unfold CreateResource. destruct hasOut; cbn [negb].
  - intros E. right.
    apply ReturnIfFailed_Some in E as [[E F] | (hr1 & w1 & E & F & E')].
    + apply CreateResourceInternal_run, request_run_result in E
        as [(-> & _) | H]; [discriminate | auto].
    + inversion E'; subst; clear E'.
      apply CreateResourceInternal_run, request_run_result in E
        as [(_ & H) | (F' & _)]; [auto | congruence].
  - intros E. inversion E; subst. auto.
Qed.

End HelperFacts.

(** ** Resources created elsewhere, and mapping *)

Section ResourceFacts.
Context {K : HeaderConstants} {M R D : Type}.
Context {MA : MemoryAllocator M} {RM : ResidencyManager R} {DV : Device D}.
Context {RS : Resources D} {HL : HeapLock R}.
Local Abbreviation W := (World M R D).

(** What the import of a resource leaves in the out slot. *)
Lemma CreateResource_imported_cases hasOut resource (w : W) hr w' :
  CreateResource_imported hasOut resource w = Some (hr, w') ->
  (FAILED hr = true /\ w' = w /\
   (hasOut = false -> hr = E_POINTER) /\
   (hasOut = true -> resource = None -> hr = E_INVALIDARG) /\
   (forall res, hasOut = true -> resource = Some res ->
      hr = fst (ResourceGetHeapProperties (mDevice (this w)) res))) \/
  (hr = S_OK /\ this w' = this w /\ calls w' = calls w /\
   exists res r,
     resource = Some res /\
     FAILED (fst (ResourceGetHeapProperties (mDevice (this w)) res)) = false /\
     resourceAllocationOut w' = Some r /\
     mResource r = Some res /\
     raResidencyManager r = None /\
     committed_allocation
       (SizeInBytes
          (fst (GetResourceAllocationInfo (mDevice (this w))
                  (ResourceGetDesc (mDevice (this w)) res)))) r).
Proof.
  unfold CreateResource_imported. destruct hasOut; cbn [negb].
  2:{ intros E. inversion E; subst. left. repeat split; auto; discriminate. }
  destruct resource as [res |].
  2:{ intros E. inversion E; subst. left. repeat split; auto; discriminate. }
  unfold bind at 1, gets.
  destruct (GetResourceAllocationInfo (mDevice (this w))
              (ResourceGetDesc (mDevice (this w)) res)) as [info desc] eqn:Eg.
  destruct (ResourceGetHeapProperties (mDevice (this w)) res)
    as [hr1 heapType] eqn:Eh.
  unfold ReturnIfFailed, bind, ret, set_resourceAllocationOut, modify.
  cbn [fst]. destruct (FAILED hr1) eqn:F; intros E; inversion E; subst; clear E.
  - left. repeat split; auto; try discriminate.
    intros res' _ Hres. inversion Hres; subst. rewrite Eh. reflexivity.
  - right. repeat split.
    exists res. eexists. rewrite Eh, Eg. repeat split; try reflexivity; auto.
    eexists. split; reflexivity.
Qed.

(** X15.  The import of a resource always returns, without calling any
    collaborator and without touching the facade or its counters.  Without
    an out pointer it returns [E_POINTER]; with one but without a resource,
    [E_INVALIDARG]; with a resource that does not give its heap properties,
    the error of [GetHeapProperties]; in these three cases nothing has
    changed.  In every other case it returns [S_OK], whatever the size of
    the resource, and the out slot holds a standalone allocation of this
    resource, owned by the facade, of the size computed for the resource and
    with no residency manager. *)
Theorem imported_resource_is_wrapped_not_counted hasOut resource (w : W) :
  exists hr w',
    CreateResource_imported hasOut resource w = Some (hr, w') /\
    this w' = this w /\
    calls w' = calls w /\
    match hasOut, resource with
    | false, _ => hr = E_POINTER /\ w' = w
    | true, None => hr = E_INVALIDARG /\ w' = w
    | true, Some res =>
        if FAILED (fst (ResourceGetHeapProperties (mDevice (this w)) res))
        then hr = fst (ResourceGetHeapProperties (mDevice (this w)) res) /\
             w' = w
        else hr = S_OK /\
             exists r,
               resourceAllocationOut w' = Some r /\
               mResource r = Some res /\
               raResidencyManager r = None /\
               committed_allocation
                 (SizeInBytes
                    (fst (GetResourceAllocationInfo (mDevice (this w))
                            (ResourceGetDesc (mDevice (this w)) res)))) r
    end.
Proof.
  unfold CreateResource_imported. destruct hasOut; cbn [negb].
  2:{ exists E_POINTER, w. repeat split. }
  destruct resource as [res |].
  2:{ exists E_INVALIDARG, w. repeat split. }
  unfold bind at 1, gets.
  destruct (GetResourceAllocationInfo (mDevice (this w))
              (ResourceGetDesc (mDevice (this w)) res)) as [info desc].
  destruct (ResourceGetHeapProperties (mDevice (this w)) res)
    as [hr1 heapType].
  unfold ReturnIfFailed, bind, ret, set_resourceAllocationOut, modify.
  cbn [fst]. destruct (FAILED hr1).
  - exists hr1, w. repeat split.
  - eexists _, _. split; [reflexivity |]. split; [reflexivity |].
    split; [reflexivity |]. split; [reflexivity |].
    eexists. split; [reflexivity |]. repeat split. eexists. split; reflexivity.
Qed.

(** X16.  Releasing an imported resource takes one memory off the counters of
    the facade, although its import added none: after the release
    [UsedMemoryCount] is one below its value before the import (modulo the
    width of the counter), and [UsedMemoryUsage] has gone down by the size
    of the allocation. *)
Theorem released_import_is_uncounted resource (w w1 w2 : W)
    (r : ResourceAllocation) (self' : option ResourceAllocation) :
  CreateResource_imported true resource w = Some (S_OK, w1) ->
  resourceAllocationOut w1 = Some r ->
  ReleaseThis (Some r) w1 = Some (self', w2) ->
  exists size,
    GetSize (base r) = Some size /\
    mInfo (this w2) = info_sub_memory (mInfo (this w)) size /\
    UsedMemoryCount (mInfo (this w2)) =
      wrap kCountBits (UsedMemoryCount (mInfo (this w)) - 1).
Proof.
  intros E Ho Er. apply CreateResource_imported_cases in E
    as [(F & _) | (_ & T & _ & res & r' & _ & _ & Ho' & _ & _ & Hc)];
    [discriminate |].
  rewrite Ho in Ho'. inversion Ho'; subst r'; clear Ho'.
  destruct Hc as (Ha & _).
  unfold ReleaseThis in Er. rewrite Ha in Er.
  apply bind_Some in Er as ([] & w3 & E1 & E2).
  inversion E2; subst; clear E2.
  unfold allocator_DeallocateMemory, bind at 1, log, modify in E1.
  unfold ResourceAllocator_DeallocateMemory in E1.
  destruct (GetSize (base r)) as [size |]; [| discriminate].
  unfold bind, log, modify in E1. inversion E1; subst; clear E1.
  exists size. cbn. rewrite T. auto.
Qed.

(** X17.  [Map] without a heap returns [E_INVALIDARG] and touches nothing.  With
    a heap and a residency manager, the heap is locked first; if the lock
    fails, its error is the result and the resource is not mapped;
    otherwise, and without a residency manager, the result is that of
    mapping the resource.  A lock that succeeded is not undone when mapping
    the resource fails. *)
Theorem Map_locks_before_mapping (self : ResourceAllocation)
    (subresource : Z) (pRange : option (Z * Z)) (w : W) hr w' :
  Map self subresource pRange w = Some (hr, w') ->
  match GetMemory (base self) with
  | None => hr = E_INVALIDARG /\ w' = w
  | Some heap =>
      match raResidencyManager self with
      | Some _ =>
          exists r,
            mResidencyManager (this w) = Some r /\
            new_calls w w' = [CallLockHeap heap] /\
            mResidencyManager (this w') = Some (LockHeap heap r) /\
            if FAILED (LockHeapResult heap r)
            then hr = LockHeapResult heap r /\
                 mDevice (this w') = mDevice (this w)
            else exists res,
                   mResource self = Some res /\
                   (hr, mDevice (this w')) =
                     ResourceMap res subresource pRange (mDevice (this w))
      | None =>
          new_calls w w' = [] /\
          exists res,
            mResource self = Some res /\
            (hr, mDevice (this w')) =
              ResourceMap res subresource pRange (mDevice (this w))
      end
  end.
Proof.
  unfold Map. destruct (GetMemory (base self)) as [heap |].
  2:{ intros E. inversion E. auto. }
  destruct (raResidencyManager self) as [rm |].
  - intros E. apply bind_Some in E as (hr1 & w1 & El & E).
    unfold residency_LockHeap in El.
    destruct (mResidencyManager (this w)) as [r |] eqn:Hr; [| discriminate].
    inversion El; subst; clear El.
    exists r. split; [reflexivity |].
    destruct (FAILED (LockHeapResult heap r)).
    + inversion E; subst. split; [apply new_calls_app; reflexivity |].
      split; [reflexivity |]. split; reflexivity.
    + unfold resource_Map in E.
      destruct (mResource self) as [res |]; [| discriminate].
      cbn in E.
      destruct (ResourceMap res subresource pRange (mDevice (this w)))
        as [hr' d] eqn:Em. inversion E; subst.
      split; [apply new_calls_app; reflexivity |].
      split; [reflexivity |]. exists res. split; [reflexivity |].
      rewrite Em. reflexivity.
  - unfold resource_Map.
    destruct (mResource self) as [res |]; [| discriminate].
    destruct (ResourceMap res subresource pRange (mDevice (this w)))
      as [hr' d] eqn:Em. intros E. inversion E; subst.
    split; [apply new_calls_app; cbn; rewrite app_nil_r; reflexivity |].
    exists res. split; [reflexivity |]. rewrite Em. reflexivity.
Qed.

(** X18.  [Map] followed by [Unmap] locks the heap of the allocation once and
    unlocks it once, in this order, when the allocation has a residency
    manager, and makes no residency call at all when it has none. *)
Theorem Map_then_Unmap_balances_the_lock (self : ResourceAllocation)
    (subresource : Z) (pRange : option (Z * Z)) (w w1 w2 : W) hr heap :
  GetMemory (base self) = Some heap ->
  Map self subresource pRange w = Some (hr, w1) ->
  FAILED hr = false ->
  Unmap self subresource pRange w1 = Some (tt, w2) ->
  new_calls w w2 =
    match raResidencyManager self with
    | Some _ => [CallLockHeap heap; CallUnlockHeap heap]
    | None => []
    end /\
  mResidencyManager (this w2) =
    match raResidencyManager self with
    | Some _ =>
        option_map (fun r => UnlockHeap heap (LockHeap heap r))
                   (mResidencyManager (this w))
    | None => mResidencyManager (this w)
    end.
Proof.
  intros Hm E1 S E2. unfold Map in E1. unfold Unmap in E2.
  rewrite Hm in E1, E2.
  assert (Hmap : forall (w0 : W) hr0 w0',
    resource_Map (mResource self) subresource pRange w0 = Some (hr0, w0') ->
    calls w0' = calls w0 /\
    mResidencyManager (this w0') = mResidencyManager (this w0)).
  { intros w0 hr0 w0'. unfold resource_Map.
    destruct (mResource self) as [res |]; [| discriminate].
    destruct (ResourceMap res subresource pRange (mDevice (this w0))).
    intros E. inversion E; subst. auto. }
  assert (Hunmap : forall (w0 : W) w0',
    resource_Unmap (mResource self) subresource pRange w0 = Some (tt, w0') ->
    calls w0' = calls w0 /\
    mResidencyManager (this w0') = mResidencyManager (this w0)).
  { intros w0 w0'. unfold resource_Unmap.
    destruct (mResource self) as [res |]; [| discriminate].
    unfold modify. intros E. inversion E; subst. auto. }
  destruct (raResidencyManager self) as [rm |].
  - apply bind_Some in E1 as (hr1 & wl & El & E1).
    unfold residency_LockHeap in El.
    destruct (mResidencyManager (this w)) as [r |] eqn:Hr; [| discriminate].
    inversion El; subst; clear El.
    destruct (FAILED (LockHeapResult heap r)) eqn:F.
    { inversion E1; subst. congruence. }
    apply Hmap in E1 as [C1 R1]. cbn in C1, R1.
    apply bind_Some in E2 as ([] & wu & Eu & E2).
    unfold residency_UnlockHeap in Eu. rewrite R1 in Eu.
    inversion Eu; subst; clear Eu.
    apply Hunmap in E2 as [C2 R2]. cbn in C2, R2.
    split; [| rewrite R2; reflexivity].
    apply new_calls_app. rewrite C2, C1, <- app_assoc. reflexivity.
  - apply Hmap in E1 as [C1 R1].
    apply bind_Some in E2 as ([] & wu & Eu & E2).
    inversion Eu; subst; clear Eu.
    apply Hunmap in E2 as [C2 R2].
    split; [| congruence].
    apply new_calls_app. rewrite C2, C1, app_nil_r. reflexivity.
Qed.

End ResourceFacts.

(** ** Without a residency manager *)

Section UnmanagedFacts.
Context {K : HeaderConstants} {M R D : Type}.
Context {MA : MemoryAllocator M} {RM : ResidencyManager R} {DV : Device D}.
Local Abbreviation W := (World M R D).
Local Abbreviation free := (steps (unmanaged (M:=M) (R:=R) (D:=D))).

Lemma unmanaged_refl (w : W) : unmanaged w w.
Proof. intros H. split; [exact H |]. exists []. rewrite app_nil_r. auto. Qed.

Lemma unmanaged_trans (w1 w2 w3 : W) :
  unmanaged w1 w2 -> unmanaged w2 w3 -> unmanaged w1 w3.
Proof.
  intros H12 H23 H1. destruct (H12 H1) as (H2 & l1 & E1 & F1).
  destruct (H23 H2) as (H3 & l2 & E2 & F2).
  split; [exact H3 |]. exists (l1 ++ l2). split.
  - rewrite E2, E1, app_assoc. reflexivity.
  - apply Forall_app. auto.
Qed.

Lemma quiet_unmanaged (Q : Call -> Prop) (w w' : W) :
  (forall c, Q c -> ~ residency_call c) -> quiet Q w w' -> unmanaged w w'.
Proof.
  intros HQ ((_ & _ & _ & _ & _ & _ & Hr) & _ & l & El & Fl) H.
  split; [congruence |]. exists l. split; [exact El |].
  eapply Forall_impl; [| exact Fl]. exact HQ.
Qed.

Lemma free_bind {A B} (m : St W A) (k : A -> St W B) :
  free m -> (forall a, free (k a)) -> free (bind m k).
Proof. apply steps_bind, unmanaged_trans. Qed.

Lemma free_ret {A} (a : A) : free (ret a).
Proof. apply steps_ret, unmanaged_refl. Qed.

Lemma free_silent {A} (m : St W A) :
  (forall w a w', m w = Some (a, w') ->
     calls w' = calls w /\
     has_ResidencyManager (this w') = has_ResidencyManager (this w)) ->
  free m.
Proof.
  intros Hm w a w' E H. destruct (Hm _ _ _ E) as [C Hr].
  split; [congruence |]. exists []. rewrite app_nil_r. auto.
Qed.

Lemma free_residency_update f c : free (residency_update f c).
Proof.
  intros w a w' E H. unfold residency_update in E.
  assert (Hr : mResidencyManager (this w) = None).
  { unfold has_ResidencyManager in H.
    destruct (mResidencyManager (this w)); [discriminate | reflexivity]. }
  rewrite Hr in E. inversion E; subst. apply unmanaged_refl. exact H.
Qed.

Lemma free_residency_Evict size group : free (residency_Evict size group).
Proof.
  intros w a w' E H. unfold residency_Evict in E.
  unfold has_ResidencyManager in H.
  destruct (mResidencyManager (this w)); discriminate.
Qed.

Lemma free_quiet {A} (Q : Call -> Prop) (m : St W A) :
  (forall c, Q c -> ~ residency_call c) -> steps (quiet Q) m -> free m.
Proof. intros HQ Hm w a w' E. eapply quiet_unmanaged; eauto. Qed.

Lemma free_TryAllocateResource allocator size alignment nv cs pf
    (createResourceFn : MemoryAllocation -> St W HRESULT) :
  allocator <> ThisResourceAllocator ->
  (forall a, free (createResourceFn a)) ->
  free (TryAllocateResource allocator size alignment nv cs pf createResourceFn).
Proof.
  intros Hstack Hfn. unfold TryAllocateResource.
  apply free_bind; [apply free_silent; intros w a w' E; inversion E; auto |].
  intros memorySize. destruct (_ && _); [apply free_ret |].
  apply free_bind.
  { apply free_quiet
      with (Q := fun c => match c with
                          | CallTryAllocateMemory _ _ _ _ _ _ _ => True
                          | _ => False
                          end).
    - intros c. destruct c; simpl; tauto.
    - apply step_TryAllocateMemory. intros; exact I. }
  intros [a |]; [| apply free_ret].
  apply free_bind; [apply Hfn |]. intros hr.
  destruct (FAILED hr); [| apply free_ret].
  apply free_bind; [| intros; apply free_ret].
  apply free_quiet
    with (Q := fun c => match c with
                        | CallDeallocateMemory _ _ => True
                        | _ => False
                        end).
  - intros c. destruct c; simpl; tauto.
  - apply step_DeallocateMemory; [assumption | exact I].
Qed.

Lemma free_out r : free (set_resourceAllocationOut (M:=M) (R:=R) (D:=D) r).
Proof. apply free_silent. intros w a w' E. inversion E; subst. auto. Qed.

Lemma free_residency_Get : free (residency_Get (M:=M) (R:=R) (D:=D)).
Proof. apply free_silent. intros w a w' E. inversion E; subst. auto. Qed.

Lemma free_createWithinResource a :
  free (createWithinResource (M:=M) (R:=R) (D:=D) a).
Proof.
  apply free_quiet with (Q := fun _ => False); [tauto |].
  apply step_createWithinResource.
Qed.

Lemma free_createPlaced desc clear state a :
  free (createPlaced (M:=M) (R:=R) (D:=D) desc clear state a).
Proof.
  unfold createPlaced, CreatePlacedResource.
  destruct (GetMemory a) as [heap |]; [| intros w x w' E; discriminate].
  apply free_bind.
  - apply free_bind; [apply free_residency_update |]. intros _.
    apply free_bind.
    { apply free_quiet
        with (Q := fun c => match c with
                            | CallCreatePlacedResource _ _ _ => True
                            | _ => False
                            end).
      - intros c. destruct c; simpl; tauto.
      - apply step_device_CreatePlacedResource. intros; exact I. }
    intros r. apply free_bind; [apply free_residency_update |]. intros _.
    unfold ReturnIfFailedOut. apply free_bind; [apply free_ret |].
    intros hr. destruct (FAILED hr); apply free_ret.
  - intros r. unfold ReturnIfFailed. apply free_bind; [apply free_ret |].
    intros hr. destruct (FAILED hr); [apply free_ret |].
    apply free_bind; [apply free_residency_Get |]. intros rm.
    apply free_bind; [apply free_out |]. intros _. apply free_ret.
Qed.

Lemma free_CreateCommittedResource heapType heapFlags size desc clear state :
  free (CreateCommittedResource (M:=M) (R:=R) (D:=D) heapType heapFlags size
          desc clear state).
Proof.
  unfold CreateCommittedResource.
  apply free_bind; [apply free_silent; intros w a w' E; inversion E; auto |].
  intros self.
  cbv zeta.
  set (rest := bind (device_CreateCommittedResource _ _ _ _ _) _).
  assert (Hrest : free rest).
  { subst rest. apply free_bind.
    - intros w r w' E H. unfold device_CreateCommittedResource in E.
      destruct (DeviceCreateCommittedResource _ _ _ _ _ _) as [r0 d].
      inversion E; subst. split; [exact H |].
      eexists [_]. split; [reflexivity |]. repeat constructor. simpl. tauto.
    - intros r. unfold ReturnIfFailedOut. apply free_bind; [apply free_ret |].
      intros hr. destruct (FAILED hr); [apply free_ret |].
      apply free_bind; [apply free_residency_update |]. intros _.
      apply free_ret. }
  destruct (_ && _); [| exact Hrest].
  unfold ReturnIfFailedOut. apply free_bind; [apply free_residency_Evict |].
  intros hr. destruct (FAILED hr); [apply free_ret | exact Hrest].
Qed.

Lemma free_createCommitted ad heapFlags info desc clear state :
  free (createCommitted (M:=M) (R:=R) (D:=D) ad heapFlags info desc clear state).
Proof.
  unfold createCommitted.
  apply free_bind; [apply free_CreateCommittedResource |]. intros r.
  unfold ReturnIfFailed. apply free_bind; [apply free_ret |].
  intros hr. destruct (FAILED hr); [apply free_ret |].
  destruct (snd r) as [[res heap] |]; [| intros w x w' E; discriminate].
  apply free_bind;
    [apply free_silent; intros w a w' E; inversion E; subst; auto |].
  intros _. apply free_bind; [apply free_residency_Get |]. intros rm.
  apply free_bind; [apply free_out |]. intros _. apply free_ret.
Qed.

(** X19.  A facade without a residency manager makes no call on one: a request
    evicts nothing, inserts no heap and locks or unlocks none, whatever its
    flags and those of the facade ([ALLOCATOR_FLAG_ALWAYS_IN_BUDGET]
    included), and leaves the facade without one. *)
Theorem no_residency_manager_no_residency_call ad rd st cv (w : W) hr w' :
  has_ResidencyManager (this w) = false ->
  CreateResourceInternal ad rd st cv w = Some (hr, w') ->
  Forall (fun c => ~ residency_call c) (new_calls w w') /\
  has_ResidencyManager (this w') = false.
Proof.
  intros H E.
  assert (Hfree : free (CreateResourceInternal (M:=M) (R:=R) (D:=D) ad rd st cv)).
  { unfold CreateResourceInternal.
    apply free_bind; [apply free_silent; intros w0 a w0' E0; inversion E0; auto |].
    intros self.
    destruct (GetResourceAllocationInfo (mDevice self) rd) as [info desc].
    destruct (_ =? _); [apply free_ret |].
    destruct (_ || _); [apply free_ret |].
    destruct (is_RESOURCE_HEAP_TYPE_INVALID _); [apply free_ret |].
    apply steps_ReturnIfSucceededWhen;
      [apply unmanaged_refl | apply unmanaged_trans | |].
    { apply free_TryAllocateResource; [discriminate |].
      apply free_createWithinResource. }
    apply steps_ReturnIfSucceededWhen;
      [apply unmanaged_refl | apply unmanaged_trans | |].
    { apply free_TryAllocateResource; [discriminate |].
      apply free_createPlaced. }
    apply steps_ReturnIfSucceededWhen;
      [apply unmanaged_refl | apply unmanaged_trans | |].
    { apply free_TryAllocateResource; [discriminate |].
      apply free_createPlaced. }
    destruct (flag_set _ _); [apply free_ret | apply free_createCommitted]. }
  destruct (Hfree _ _ _ E H) as (H' & l & El & Fl).
  split; [| exact H']. erewrite new_calls_app by exact El. exact Fl.
Qed.

End UnmanagedFacts.

(** ** [ReportLiveDeviceObjects] *)

Lemma ReadStoredMessages_all (messages : list StoredMessage) (total : Z) :
  Forall (fun message => FAILED (lengthResult message) = false /\
                         FAILED (messageResult message) = false) messages ->
  ReadStoredMessages messages total =
    (S_OK, if (live_objects messages =? 0)%nat then total
           else (total + Z.of_nat (live_objects messages)) mod 2 ^ 64).
Proof.
  intros H. revert total.
  induction H as [| message messages [Hl Hm] _ IH]; intros total;
    [reflexivity |].
  cbn [ReadStoredMessages]. rewrite Hl, Hm, IH. f_equal.
  unfold live_objects. cbn [filter].
  fold (live_objects messages).
  assert (Hstep : forall n : nat,
    (if (n =? 0)%nat then wrap64 (total + 1)
     else (wrap64 (total + 1) + Z.of_nat n) mod 2 ^ 64)
    = (total + Z.of_nat (S n)) mod 2 ^ 64).
  { intros n. unfold wrap64, wrap. destruct n as [| n].
    - reflexivity.
    - cbn [Nat.eqb]. rewrite Z.add_mod_idemp_l by lia. f_equal. lia. }
  destruct (ID message); cbn [length]; try apply Hstep. reflexivity.
Qed.

Lemma ReadStoredMessages_failed (messages : list StoredMessage) (total : Z) :
  FAILED (fst (ReadStoredMessages messages total)) = true ->
  exists message,
    In message messages /\
    (fst (ReadStoredMessages messages total) = lengthResult message \/
     fst (ReadStoredMessages messages total) = messageResult message).
Proof.
  revert total. induction messages as [| message messages IH]; intros total.
  - discriminate.
  - cbn [ReadStoredMessages].
    destruct (FAILED (lengthResult message)) eqn:Hl;
      [intros _; exists message; cbn; auto |].
    destruct (FAILED (messageResult message)) eqn:Hm;
      [intros _; exists message; cbn; auto |].
    intros F. apply IH in F as (m & Hin & Hr). exists m. cbn. auto.
Qed.

(** X20.  [ReportLiveDeviceObjects] never fails on account of a leak.  Without a
    debug layer it returns [S_OK] at once.  When every call on the debug
    layer succeeds it returns [S_OK] however many live heaps and resources
    the stored messages report (it counts them, and warns), and pops the
    retrieval filter.  A failure is always the error of one of the calls on
    the debug layer, and then the retrieval filter is left in place. *)
Theorem ReportLiveDeviceObjects_never_fails_on_a_leak (layer : DebugLayer) :
  (FAILED (AsDebugDevice layer) = true ->
   ReportLiveDeviceObjects layer =
     (S_OK, {| totalLiveObjects := 0; poppedRetrievalFilter := false |})) /\
  (FAILED (AsDebugDevice layer) = false ->
   FAILED (ReportResult layer) = false ->
   FAILED (AsInfoQueue layer) = false ->
   Forall (fun message => FAILED (lengthResult message) = false /\
                          FAILED (messageResult message) = false)
          (StoredMessages layer) ->
   ReportLiveDeviceObjects layer =
     (S_OK,
      {| totalLiveObjects :=
           Z.of_nat (live_objects (StoredMessages layer)) mod 2 ^ 64;
         poppedRetrievalFilter := true |})) /\
  (FAILED (fst (ReportLiveDeviceObjects layer)) = true ->
   poppedRetrievalFilter (snd (ReportLiveDeviceObjects layer)) = false /\
   (fst (ReportLiveDeviceObjects layer) = ReportResult layer \/
    fst (ReportLiveDeviceObjects layer) = AsInfoQueue layer \/
    exists message,
      In message (StoredMessages layer) /\
      (fst (ReportLiveDeviceObjects layer) = lengthResult message \/
       fst (ReportLiveDeviceObjects layer) = messageResult message))).
Proof.
  unfold ReportLiveDeviceObjects. split; [| split].
  - intros ->. reflexivity.
  - intros -> -> -> H. rewrite (ReadStoredMessages_all 0 H). cbn [FAILED].
    change (FAILED S_OK) with false. cbv iota. f_equal. f_equal.
    destruct (live_objects (StoredMessages layer)); reflexivity.
  - destruct (FAILED (AsDebugDevice layer)); [discriminate |].
    destruct (FAILED (ReportResult layer)) eqn:F1; [cbn; auto |].
    destruct (FAILED (AsInfoQueue layer)) eqn:F2; [cbn; auto |].
    destruct (ReadStoredMessages (StoredMessages layer) 0) as [hr total] eqn:Er.
    destruct (FAILED hr) eqn:F3; cbn; [| discriminate].
    intros _. split; [reflexivity |]. right; right.
    pose proof (ReadStoredMessages_failed (StoredMessages layer) 0) as Hf.
    rewrite Er in Hf. cbn in Hf. apply Hf. exact F3.
Qed.

(** ** [Caps] *)

Module CapsFacts.
Import Caps.

(** A property of the integers of a range, from its instances. *)
Lemma range_cases (P : Z -> Prop) (lo : Z) (n : nat) :
  (forall k, In k (seq 0 n) -> P (lo + Z.of_nat k)) ->
  forall z, lo <= z < lo + Z.of_nat n -> P z.
Proof.
  intros H z Hz. replace z with (lo + Z.of_nat (Z.to_nat (z - lo))) by lia.
  apply H. apply in_seq. lia.
Qed.

Lemma pow2_minus_1_exact bits :
  0 <= bits <= 53 -> pow2_minus_1 bits = Some (2 ^ bits - 1).
Proof.
  intros H. apply (@range_cases (fun z => pow2_minus_1 z = Some (2 ^ z - 1)) 0 54);
    [| lia].
  assert (Hall : forallb
            (fun k => match pow2_minus_1 (0 + Z.of_nat k) with
                      | Some v => v =? 2 ^ (0 + Z.of_nat k) - 1
                      | None => false
                      end) (seq 0 54) = true) by (vm_compute; reflexivity).
  rewrite forallb_forall in Hall. intros k Hk. specialize (Hall k Hk).
  destruct (pow2_minus_1 (0 + Z.of_nat k)); [| discriminate].
  apply Z.eqb_eq in Hall. congruence.
Qed.

Lemma pow2_minus_1_rounded bits :
  54 <= bits <= 63 -> pow2_minus_1 bits = Some (2 ^ bits).
Proof.
  intros H. apply (@range_cases (fun z => pow2_minus_1 z = Some (2 ^ z)) 54 10);
    [| lia].
  assert (Hall : forallb
            (fun k => match pow2_minus_1 (54 + Z.of_nat k) with
                      | Some v => v =? 2 ^ (54 + Z.of_nat k)
                      | None => false
                      end) (seq 0 10) = true) by (vm_compute; reflexivity).
  rewrite forallb_forall in Hall. intros k Hk. specialize (Hall k Hk).
  destruct (pow2_minus_1 (54 + Z.of_nat k)); [| discriminate].
  apply Z.eqb_eq in Hall. congruence.
Qed.

Section CapsFacts.
Context {D : Type}.
Variable CheckFeatureSupport :
  D -> HRESULT * D3D12_FEATURE_DATA_GPU_VIRTUAL_ADDRESS_SUPPORT.
Variable AdapterGetDesc : Z -> HRESULT.

(** X21.  The two sizes of the capabilities are [2^bits - 1] for the numbers of
    address bits per resource and per process that the device reports, as
    long as a number is at most 53; computed in [double] as they are, they
    come out as [2^bits] for 54 to 63 bits, and the conversion is undefined
    for 64 bits. *)
Theorem CreateCaps_sizes (device : D) (adapter : Z) hr feature :
  FAILED (AdapterGetDesc adapter) = false ->
  CheckFeatureSupport device = (hr, feature) ->
  FAILED hr = false ->
  (0 <= MaxGPUVirtualAddressBitsPerResource feature <= 63 ->
   0 <= MaxGPUVirtualAddressBitsPerProcess feature <= 63 ->
   CreateCaps CheckFeatureSupport AdapterGetDesc device adapter =
     Some (S_OK,
           Some {| mMaxResourceSize :=
                     if MaxGPUVirtualAddressBitsPerResource feature <=? 53
                     then 2 ^ MaxGPUVirtualAddressBitsPerResource feature - 1
                     else 2 ^ MaxGPUVirtualAddressBitsPerResource feature;
                   mMaxResourceHeapSize :=
                     if MaxGPUVirtualAddressBitsPerProcess feature <=? 53
                     then 2 ^ MaxGPUVirtualAddressBitsPerProcess feature - 1
                     else 2 ^ MaxGPUVirtualAddressBitsPerProcess feature |})) /\
  (MaxGPUVirtualAddressBitsPerResource feature = 64 ->
   CreateCaps CheckFeatureSupport AdapterGetDesc device adapter = None).
Proof.
  intros Ha Ef F.
  assert (Hpow : forall bits, 0 <= bits <= 63 ->
            pow2_minus_1 bits =
              Some (if bits <=? 53 then 2 ^ bits - 1 else 2 ^ bits)).
  { intros bits Hb. destruct (Z.leb_spec bits 53).
    - apply pow2_minus_1_exact. lia.
    - apply pow2_minus_1_rounded. lia. }
  unfold CreateCaps, SetMaxResourceSize, SetMaxResourceHeapSize.
  rewrite Ha, Ef, F. split.
  - intros Hr Hp. rewrite (Hpow _ Hr), (Hpow _ Hp).
    change (FAILED S_OK) with false. reflexivity.
  - intros ->. reflexivity.
Qed.

End CapsFacts.
End CapsFacts.

(** ** [CreateAllocator] *)

Section CreateAllocatorFacts.
Context {K : HeaderConstants} {C : AllocatorConstants} {M R D Budget : Type}.
Context {MA : MemoryAllocator M} {RM : ResidencyManager R} {DV : Device D}.
Context {PF : Platform M R D Budget}.

Lemma CreateAllocator_cases (descriptor : ALLOCATOR_DESC D Budget)
    (hasResidencyManagerOut : bool) hr result :
  CreateAllocator descriptor hasResidencyManagerOut = Some (hr, result) ->
  (FAILED hr = true /\ result = None) \/
  (hr = S_OK /\
   exists adapter device caps residencyManager,
     AllocatorDesc.Adapter descriptor = Some adapter /\
     AllocatorDesc.Device descriptor = Some device /\
     Caps.CreateCaps CheckFeatureSupport AdapterGetDesc device adapter
       = Some (S_OK, Some caps) /\
     AllocatorDesc.PreferredResourceHeapSize (newDescriptor descriptor caps)
       <= AllocatorDesc.MaxResourceHeapSize (newDescriptor descriptor caps) /\
     (hasResidencyManagerOut = false -> residencyManager = None) /\
     result = Some (new_ResourceAllocator (newDescriptor descriptor caps)
                      device residencyManager caps)).
Proof.
  unfold CreateAllocator.
  destruct (AllocatorDesc.Adapter descriptor) as [adapter |];
    [| intros E; inversion E; subst; left; auto].
  destruct (AllocatorDesc.Device descriptor) as [device |];
    [| intros E; inversion E; subst; left; auto].
  destruct (Caps.CreateCaps CheckFeatureSupport AdapterGetDesc device adapter)
    as [[hrCaps [caps |]] |] eqn:Ec; [| | discriminate].
  2:{ intros E. inversion E; subst. left. split; [| reflexivity].
      revert Ec. unfold Caps.CreateCaps, Caps.SetMaxResourceSize,
        Caps.SetMaxResourceHeapSize.
      destruct (FAILED (AdapterGetDesc adapter)) eqn:Fa;
        [intros E'; inversion E'; subst; exact Fa |].
      destruct (CheckFeatureSupport device) as [hrF feature].
      destruct (FAILED hrF) eqn:Ff;
        [intros E'; inversion E'; subst; exact Ff |].
      destruct (Caps.pow2_minus_1 _); [| discriminate].
      change (FAILED S_OK) with false. cbv iota.
      destruct (Caps.pow2_minus_1 _); discriminate. }
  assert (Hok : hrCaps = S_OK).
  { revert Ec. unfold Caps.CreateCaps, Caps.SetMaxResourceSize,
      Caps.SetMaxResourceHeapSize.
    destruct (FAILED (AdapterGetDesc adapter)); [discriminate |].
    destruct (CheckFeatureSupport device) as [hrF feature].
    destruct (FAILED hrF); [discriminate |].
    destruct (Caps.pow2_minus_1 _); [| discriminate].
    change (FAILED S_OK) with false. cbv iota.
    destruct (Caps.pow2_minus_1 _); [| discriminate].
    intros E'. inversion E'. reflexivity. }
  subst hrCaps. change (FAILED S_OK) with false. cbv iota zeta.
  destruct (Z.ltb_spec
              (AllocatorDesc.MaxResourceHeapSize (newDescriptor descriptor caps))
              (AllocatorDesc.PreferredResourceHeapSize
                 (newDescriptor descriptor caps))) as [Hlt | Hle];
    [intros E; inversion E; subst; left; auto |].
  destruct hasResidencyManagerOut.
  - destruct (CreateResidencyManager device adapter _ _) as [hrR residency].
    destruct (FAILED hrR) eqn:Fr; intros E; inversion E; subst;
      [left; auto | right].
    split; [reflexivity |]. exists adapter, device, caps, residency.
    repeat split; auto. discriminate.
  - change (FAILED S_OK) with false. cbv iota. intros E. inversion E; subst.
    right. split; [reflexivity |]. exists adapter, device, caps, None.
    repeat split; auto.
Qed.

(** X22.  An allocator that [CreateAllocator] returns respects the limits of the
    device and of the descriptor: its maximum resource heap size is at most
    the one of the capabilities, and at most the one of the descriptor when
    that is set; the preferred resource heap size (the default one when the
    descriptor sets none) does not exceed it; its maximum resource size is
    the one of the capabilities.  It has a residency manager only if the
    caller asked for one. *)
Theorem created_allocator_respects_the_limits
    (descriptor : ALLOCATOR_DESC D Budget) (hasResidencyManagerOut : bool)
    (allocator : ResourceAllocator M R D) :
  CreateAllocator descriptor hasResidencyManagerOut
    = Some (S_OK, Some allocator) ->
  exists adapter device caps,
    AllocatorDesc.Adapter descriptor = Some adapter /\
    AllocatorDesc.Device descriptor = Some device /\
    Caps.CreateCaps CheckFeatureSupport AdapterGetDesc device adapter
      = Some (S_OK, Some caps) /\
    mCapsMaxResourceSize allocator = Caps.GetMaxResourceSize caps /\
    mMaxResourceHeapSize allocator <= Caps.GetMaxResourceHeapSize caps /\
    (0 < AllocatorDesc.MaxResourceHeapSize descriptor ->
     mMaxResourceHeapSize allocator
       <= AllocatorDesc.MaxResourceHeapSize descriptor) /\
    (if 0 <? AllocatorDesc.PreferredResourceHeapSize descriptor
     then AllocatorDesc.PreferredResourceHeapSize descriptor
     else kDefaultPreferredResourceHeapSize)
      <= mMaxResourceHeapSize allocator /\
    (hasResidencyManagerOut = false -> mResidencyManager allocator = None).
Proof.
  intros E. apply CreateAllocator_cases in E
    as [(F & _) | (_ & adapter & device & caps & residency
                     & Ha & Hd & Hc & Hp & Hr & Hres)];
    [discriminate |].
  inversion Hres; subst allocator; clear Hres.
  exists adapter, device, caps.
  split; [exact Ha |]. split; [exact Hd |]. split; [exact Hc |].
  cbn in *. split; [reflexivity |].
  split; [destruct (0 <? AllocatorDesc.MaxResourceHeapSize descriptor); lia |].
  split; [intros Hm; destruct (Z.ltb_spec 0
            (AllocatorDesc.MaxResourceHeapSize descriptor)); lia |].
  split; [exact Hp | exact Hr].
Qed.

(** X23.  [CreateAllocator] returns an allocator exactly when it returns [S_OK].
    It refuses with [E_INVALIDARG] a descriptor without an adapter or a
    device, before it asks the device anything, and a descriptor whose
    preferred resource heap size (or the default one) exceeds the maximum
    resource heap size that the descriptor and the device allow. *)
Theorem CreateAllocator_refuses_bad_descriptors
    (descriptor : ALLOCATOR_DESC D Budget) (hasResidencyManagerOut : bool) :
  (forall hr result,
     CreateAllocator descriptor hasResidencyManagerOut = Some (hr, result) ->
     (hr = S_OK /\ result <> None) \/ (FAILED hr = true /\ result = None)) /\
  (AllocatorDesc.Adapter descriptor = None \/
   AllocatorDesc.Device descriptor = None ->
   CreateAllocator descriptor hasResidencyManagerOut
     = Some (E_INVALIDARG, None)) /\
  (forall adapter device caps,
     AllocatorDesc.Adapter descriptor = Some adapter ->
     AllocatorDesc.Device descriptor = Some device ->
     Caps.CreateCaps CheckFeatureSupport AdapterGetDesc device adapter
       = Some (S_OK, Some caps) ->
     AllocatorDesc.PreferredResourceHeapSize (newDescriptor descriptor caps)
       > AllocatorDesc.MaxResourceHeapSize (newDescriptor descriptor caps) ->
     CreateAllocator descriptor hasResidencyManagerOut
       = Some (E_INVALIDARG, None)).
Proof.
  split; [| split].
  - intros hr result E. apply CreateAllocator_cases in E
      as [H | (-> & adapter & device & caps & residency & _ & _ & _ & _ & _ & ->)];
      [right; exact H | left].
    split; [reflexivity | discriminate].
  - unfold CreateAllocator. intros [-> | ->]; [reflexivity |].
    destruct (AllocatorDesc.Adapter descriptor); reflexivity.
  - intros adapter device caps Ha Hd Hc Hp. unfold CreateAllocator.
    rewrite Ha, Hd, Hc. change (FAILED S_OK) with false. cbv iota zeta.
    destruct (Z.ltb_spec
                (AllocatorDesc.MaxResourceHeapSize (newDescriptor descriptor caps))
                (AllocatorDesc.PreferredResourceHeapSize
                   (newDescriptor descriptor caps))); [reflexivity | lia].
Qed.

(** X24.  On an allocator that [CreateAllocator] returned, a request whose
    computed size exceeds the maximum resource heap size of the descriptor
    (when it sets one) or the one of the device is refused with
    [E_OUTOFMEMORY], and nothing is called. *)
Theorem created_allocator_refuses_oversized_requests
    (descriptor : ALLOCATOR_DESC D Budget) (hasResidencyManagerOut : bool)
    (w : World M R D) ad rd st cv adapter device caps :
  CreateAllocator descriptor hasResidencyManagerOut = Some (S_OK, Some (this w)) ->
  AllocatorDesc.Adapter descriptor = Some adapter ->
  AllocatorDesc.Device descriptor = Some device ->
  Caps.CreateCaps CheckFeatureSupport AdapterGetDesc device adapter
    = Some (S_OK, Some caps) ->
  (0 < AllocatorDesc.MaxResourceHeapSize descriptor /\
   SizeInBytes (request_info w rd)
     > AllocatorDesc.MaxResourceHeapSize descriptor) \/
  SizeInBytes (request_info w rd) > Caps.GetMaxResourceHeapSize caps \/
  SizeInBytes (request_info w rd) > Caps.GetMaxResourceSize caps ->
  CreateResourceInternal ad rd st cv w = Some (E_OUTOFMEMORY, w).
Proof.
  intros E Ha Hd Hc Hsize.
  apply CreateAllocator_cases in E
    as [(F & _) | (_ & adapter' & device' & caps' & residency
                     & Ha' & Hd' & Hc' & _ & _ & Hres)];
    [discriminate |].
  rewrite Ha in Ha'. inversion Ha'; subst adapter'; clear Ha'.
  rewrite Hd in Hd'. inversion Hd'; subst device'; clear Hd'.
  rewrite Hc in Hc'. inversion Hc'; subst caps'; clear Hc'.
  assert (Hthis : this w =
            new_ResourceAllocator (newDescriptor descriptor caps) device
              residency caps) by congruence.
  assert (Hmax : mMaxResourceHeapSize (this w) =
            AllocatorDesc.MaxResourceHeapSize (newDescriptor descriptor caps))
    by (rewrite Hthis; reflexivity).
  assert (Hcap : mCapsMaxResourceSize (this w) = Caps.GetMaxResourceSize caps)
    by (rewrite Hthis; reflexivity).
  unfold CreateResourceInternal, bind, gets. unfold request_info in Hsize.
  destruct (GetResourceAllocationInfo (mDevice (this w)) rd) as [info desc].
  cbn [fst] in Hsize.
  destruct (SizeInBytes info =? kInvalidSize); [reflexivity |].
  assert (Hrej : (mMaxResourceHeapSize (this w) <? SizeInBytes info)
                 || (mCapsMaxResourceSize (this w) <? SizeInBytes info) = true).
  { rewrite Hmax, Hcap. cbn. apply orb_true_iff.
    destruct Hsize as [[Hpos Hs] | [Hs | Hs]].
    - left. apply Z.ltb_lt.
      destruct (Z.ltb_spec 0 (AllocatorDesc.MaxResourceHeapSize descriptor)); lia.
    - left. apply Z.ltb_lt.
      destruct (0 <? AllocatorDesc.MaxResourceHeapSize descriptor); lia.
    - right. apply Z.ltb_lt. lia. }
  rewrite Hrej. reflexivity.
Qed.

End CreateAllocatorFacts.

(** ** The allocator stacks of the constructor *)

(** A resource heap type chosen for a request creates heaps of the heap
    type of the request, which accept the resource below resource heap tier
    2, and the heap type has an initial resource state. *)
Lemma GetResourceHeapType_valid dimension heapType flags tier :
  GetResourceHeapType dimension heapType flags tier
    <> RESOURCE_HEAP_TYPE_INVALID ->
  GetHeapType (GetResourceHeapType dimension heapType flags tier) = heapType /\
  (tier < D3D12_RESOURCE_HEAP_TIER_2 ->
   heap_accepts
     (GetHeapFlags (GetResourceHeapType dimension heapType flags tier))
     dimension flags = true) /\
  exists state, GetInitialResourceState heapType = Some state.
Proof.
  unfold GetResourceHeapType, D3D12_RESOURCE_HEAP_TIER_2.
  destruct (Z.leb_spec 2 tier) as [Ht | Ht].
  - destruct heapType; intros Hv; try contradiction;
      (split; [reflexivity |]; split; [lia | eexists; reflexivity]).
  - destruct dimension, heapType; intros Hv; try contradiction;
      try (split; [reflexivity |]; split;
           [intros _; reflexivity | eexists; reflexivity]).
    all: unfold heap_accepts;
      destruct (flag_set flags D3D12_RESOURCE_FLAG_ALLOW_DEPTH_STENCIL
                || flag_set flags D3D12_RESOURCE_FLAG_ALLOW_RENDER_TARGET);
      (split; [reflexivity |]; split;
       [intros _; reflexivity | eexists; reflexivity]).
Qed.

Module StacksFacts.
Import Stacks.
Section StacksFacts.
Context {C : AllocatorConstants} {R D Budget : Type}.

(** X25.  What the flags of the descriptor do to the stacks of every resource
    heap type.  With [ALLOCATOR_FLAG_ALWAYS_ON_DEMAND] no stack has a pool;
    without it every stack has exactly one, of the heap alignment of the
    resource heap type (64 KiB for the buffers).  Only the slab cache of the
    resource allocator prefetches, and only without
    [ALLOCATOR_FLAG_DISABLE_MEMORY_PREFETCH].  The resource heap allocator
    never sub-allocates; the two other stacks always do. *)
Theorem flags_decide_pooling_and_prefetch
    (descriptor : ALLOCATOR_DESC D Budget) (device : D)
    (residencyManager : option R) (resourceHeapType : RESOURCE_HEAP_TYPE) :
  let flags := AllocatorDesc.AllocatorFlags descriptor in
  let stacks :=
    BuildAllocators descriptor device residencyManager resourceHeapType in
  let heapAlignment := GetHeapAlignment (GetHeapFlags resourceHeapType) in
  (if flag_set flags ALLOCATOR_FLAG_ALWAYS_ON_DEMAND
   then pools (mResourceAllocatorOfType stacks) = [] /\
        pools (mResourceHeapAllocatorOfType stacks) = [] /\
        pools (mBufferAllocatorOfType stacks) = []
   else pools (mResourceAllocatorOfType stacks) = [heapAlignment] /\
        pools (mResourceHeapAllocatorOfType stacks) = [heapAlignment] /\
        pools (mBufferAllocatorOfType stacks) =
          [D3D12_DEFAULT_RESOURCE_PLACEMENT_ALIGNMENT]) /\
  prefetches (mResourceAllocatorOfType stacks) =
    negb (flag_set flags ALLOCATOR_FLAG_DISABLE_MEMORY_PREFETCH) /\
  prefetches (mResourceHeapAllocatorOfType stacks) = false /\
  prefetches (mBufferAllocatorOfType stacks) = false /\
  suballocates (mResourceAllocatorOfType stacks) = true /\
  suballocates (mResourceHeapAllocatorOfType stacks) = false /\
  suballocates (mBufferAllocatorOfType stacks) = true.
Proof.
  intros flags stacks heapAlignment.
  unfold stacks, BuildAllocators, pooledOrNonPooledAllocator. cbn.
  fold flags.
  destruct (flag_set flags ALLOCATOR_FLAG_ALWAYS_ON_DEMAND); cbn;
    rewrite ?orb_false_r; repeat split; reflexivity.
Qed.

(** X26.  The three stacks that serve a request create memory of the heap type
    of the request: the resource allocator and the resource heap allocator
    end in a [ResourceHeapAllocator] of this heap type, on the device and
    with the residency manager of the allocator, whose heap flags accept the
    resource below resource heap tier 2; the buffer allocator ends in a
    [BufferAllocator] of this heap type that creates buffers of 64 KiB in
    the initial state of the heap type. *)
Theorem stacks_of_a_request_create_its_heap_type
    (descriptor : ALLOCATOR_DESC D Budget) (device : D)
    (residencyManager : option R) dimension heapType flags tier :
  GetResourceHeapType dimension heapType flags tier
    <> RESOURCE_HEAP_TYPE_INVALID ->
  let stacks :=
    BuildAllocators descriptor device residencyManager
      (GetResourceHeapType dimension heapType flags tier) in
  exists heapFlags state,
    innermost (mResourceAllocatorOfType stacks) =
      ResourceHeapAllocator residencyManager device heapType heapFlags
        (AllocatorDesc.IsUMA descriptor)
        (flag_set (AllocatorDesc.AllocatorFlags descriptor)
           ALLOCATOR_FLAG_ALWAYS_IN_BUDGET) /\
    innermost (mResourceHeapAllocatorOfType stacks) =
      innermost (mResourceAllocatorOfType stacks) /\
    (tier < D3D12_RESOURCE_HEAP_TIER_2 ->
     heap_accepts heapFlags dimension flags = true) /\
    GetInitialResourceState heapType = Some state /\
    innermost (mBufferAllocatorOfType stacks) =
      BufferAllocator heapType D3D12_RESOURCE_FLAG_NONE (Some state)
        D3D12_DEFAULT_RESOURCE_PLACEMENT_ALIGNMENT
        D3D12_DEFAULT_RESOURCE_PLACEMENT_ALIGNMENT.
Proof.
  intros Hvalid stacks.
  destruct (GetResourceHeapType_valid dimension heapType flags tier Hvalid)
    as (Htype & Haccepts & state & Hstate).
  exists (GetHeapFlags (GetResourceHeapType dimension heapType flags tier)),
         state.
  unfold stacks, BuildAllocators, pooledOrNonPooledAllocator. cbn.
  rewrite Htype, Hstate.
  destruct (flag_set (AllocatorDesc.AllocatorFlags descriptor)
              ALLOCATOR_FLAG_ALWAYS_ON_DEMAND); cbn; auto.
Qed.

End StacksFacts.
End StacksFacts.

(** ** The event trace writer *)

Module EventTraceFacts.
Import EventTrace.
Local Open Scope list_scope.
Local Open Scope Z_scope.

Lemma merged_cleared buffers : merged (cleared buffers) = [].
Proof.
  unfold merged, cleared, MergeAndClearBuffers. cbn.
  induction buffers as [| b buffers IH]; [reflexivity | exact IH].
Qed.

Lemma cleared_cleared buffers : cleared (cleared buffers) = cleared buffers.
Proof.
  unfold cleared, MergeAndClearBuffers. cbn.
  rewrite map_map. reflexivity.
Qed.




















Section FlushFacts.
Context {T : TraceConstants}.

Lemma skipped_ext (self self' : EventTraceWriter) event :
  mSkipDurationEvents self' = mSkipDurationEvents self ->
  mSkipObjectEvents self' = mSkipObjectEvents self ->
  mSkipInstantEvents self' = mSkipInstantEvents self ->
  skipped self' event = skipped self event.
Proof. unfold skipped. intros -> -> ->. reflexivity. Qed.

Lemma traceEvents_ext (self self' : EventTraceWriter) events :
  mSkipDurationEvents self' = mSkipDurationEvents self ->
  mSkipObjectEvents self' = mSkipObjectEvents self ->
  mSkipInstantEvents self' = mSkipInstantEvents self ->
  traceEvents self' events = traceEvents self events.
Proof.
  intros Hd Ho Hi. induction events as [| event events IH]; [reflexivity |].
  cbn. rewrite (@skipped_ext self self' event Hd Ho Hi), IH. reflexivity.
Qed.


Lemma traceEvents_skipped (self : EventTraceWriter) events :
  forallb (skipped self) events = true ->
  traceEvents self events = Some [].
Proof.
  induction events as [| event events IH]; [reflexivity |].
  cbn. intros Hall. apply andb_prop in Hall. destruct Hall as [-> Hall].
  auto.
Qed.

Lemma with_buffers_same (self : EventTraceWriter) :
  with_buffers (mBufferPerThread self) self = self.
Proof. destruct self. reflexivity. Qed.

(** What a flush does, from the merged buffer. *)
Lemma FlushQueuedEventsToDisk_cases (self : EventTraceWriter) :
  FlushQueuedEventsToDisk self =
    match traceEvents self (merged (mBufferPerThread self)) with
    | None => None
    | Some events =>
        let self' := with_buffers (cleared (mBufferPerThread self)) self in
        match merged (mBufferPerThread self) with
        | [] => Some self'
        | _ => Some (write (mTraceFile self) (traceData events) self')
        end
    end.
Proof.
  unfold FlushQueuedEventsToDisk, merged, cleared, MergeAndClearBuffers.
  cbn [fst snd].
  rewrite (@traceEvents_ext self (with_buffers _ self)) by reflexivity.
  reflexivity.
Qed.

(** X27.  A flush that follows a flush does nothing: the buffers are empty, and
    the trace file is not written again (it would be overwritten with an
    empty trace). *)
Theorem second_flush_writes_nothing (self self' : EventTraceWriter) :
  FlushQueuedEventsToDisk self = Some self' ->
  FlushQueuedEventsToDisk self' = Some self'.
Proof.
  rewrite FlushQueuedEventsToDisk_cases.
  destruct (traceEvents self _) as [events |]; [| discriminate].
  cbv zeta. intros Hflush.
  assert (Hbuffers : mBufferPerThread self' = cleared (mBufferPerThread self)).
  { destruct (merged (mBufferPerThread self));
      injection Hflush as <-; reflexivity. }
  rewrite FlushQueuedEventsToDisk_cases, Hbuffers.
  rewrite merged_cleared, cleared_cleared. cbn [traceEvents].
  cbv beta iota zeta.
  rewrite <- Hbuffers, with_buffers_same. reflexivity.
Qed.

(** X28.  A flush empties the buffers even when it skips every event it finds,
    and then still writes the trace file: with no event in it. *)
Theorem flush_of_skipped_events_writes_an_empty_trace (self : EventTraceWriter) :
  merged (mBufferPerThread self) <> [] ->
  forallb (skipped self) (merged (mBufferPerThread self)) = true ->
  FlushQueuedEventsToDisk self =
    Some (write (mTraceFile self) (traceData [])
            (with_buffers (cleared (mBufferPerThread self)) self)).
Proof.
  intros Hsome Hskipped.
  rewrite FlushQueuedEventsToDisk_cases, (traceEvents_skipped _ _ Hskipped).
  cbv zeta. destruct (merged (mBufferPerThread self)); [contradiction |].
  reflexivity.
Qed.


End FlushFacts.
End EventTraceFacts.

(** ** [GetExecutableDirectory] *)

Module PlatformUtilsFacts.
Import Ascii String PlatformUtils.
Local Open Scope string_scope.

Lemma find_last_of_Some (s chars : string) (position : nat) :
  find_last_of s chars = Some position ->
  exists file,
    s = substring 0 (position + 1) s ++ file /\
    find_last_of file chars = None /\
    find_last_of (substring 0 (position + 1) s) chars = Some position /\
    substring 0 (position + 1) (substring 0 (position + 1) s)
      = substring 0 (position + 1) s /\
    exists front c,
      substring 0 (position + 1) s = front ++ String c "" /\
      occurs c chars = true.
Proof.
  revert position. induction s as [| c s IH]; intros position; [discriminate |].
  cbn [find_last_of]. destruct (find_last_of s chars) as [p |] eqn:Hs.
  - intros E. inversion E; subst position; clear E.
    destruct (IH p eq_refl) as (file & Hsplit & Hfile & Hdir & Hidem & front & c' & Hend & Hc).
    replace (S p + 1)%nat with (S (p + 1)) by lia.
    cbn [substring]. exists file.
    split; [cbn [append]; f_equal; exact Hsplit |].
    split; [exact Hfile |].
    split; [cbn [find_last_of]; rewrite Hdir; reflexivity |].
    split; [f_equal; exact Hidem |].
    exists (String c front), c'. cbn [append]. rewrite Hend. auto.
  - destruct (occurs c chars) eqn:Hc; [| discriminate].
    intros E. inversion E; subst position; clear E.
    cbn [Nat.add substring]. exists s.
    assert (H0 : forall t, substring 0 0 t = "") by (intros [| ? ?]; reflexivity).
    rewrite !H0. split; [reflexivity |]. split; [exact Hs |].
    split; [cbn [find_last_of]; rewrite Hc; reflexivity |].
    split; [reflexivity |]. exists "", c. auto.
Qed.

(** X30.  [GetExecutableDirectory] cuts the path of the executable after its
    last path separator: the path is the directory followed by a file name with
    no separator in it, and the directory is empty (when the path has no
    separator) or ends with a separator.  The directory of a directory is
    that directory. *)
Theorem GetExecutableDirectory_cuts_after_last_separator
    (platform : Platform) (exePath : string) :
  exists file,
    exePath = GetExecutableDirectory platform exePath ++ file /\
    find_last_of file (GetPathSeparator platform) = None /\
    (GetExecutableDirectory platform exePath = "" \/
     exists front c,
       GetExecutableDirectory platform exePath = front ++ String c "" /\
       occurs c (GetPathSeparator platform) = true) /\
    GetExecutableDirectory platform (GetExecutableDirectory platform exePath)
      = GetExecutableDirectory platform exePath.
Proof.
  unfold GetExecutableDirectory.
  destruct (find_last_of exePath (GetPathSeparator platform)) as [p |] eqn:Hp.
  - destruct (find_last_of_Some _ _ Hp)
      as (file & Hsplit & Hfile & Hdir & Hidem & Hend).
    exists file. split; [exact Hsplit |]. split; [exact Hfile |].
    split; [right; exact Hend |]. rewrite Hdir. exact Hidem.
  - exists exePath. split; [reflexivity |]. split; [exact Hp |].
    split; [left; reflexivity | reflexivity].
Qed.

End PlatformUtilsFacts.

(** ** The theorems at work on the reference instance *)

Lemma TryAllocateResource_rejects_oversized_witness :
  TryAllocateResource (ResourceAllocatorOfType DEFAULT_ALL) (2 ^ 23) 65536
    false false false
    (createPlaced (buffer_desc (2 ^ 23)) None D3D12_RESOURCE_STATE_GENERIC_READ)
    pooling_world
  = Some (E_FAIL, pooling_world).
Proof.
  eapply TryAllocateResource_rejects_oversized.
  - vm_compute. discriminate.
  - reflexivity.
Defined.

Lemma TryAllocateResource_deallocates_on_failure_witness :
  exists w',
    TryAllocateResource (ResourceAllocatorOfType DEFAULT_ALL) 65536 65536
      false false false
      (createPlaced (buffer_desc 65536) None D3D12_RESOURCE_STATE_GENERIC_READ)
      failing_placement_world
    = Some (E_INVALIDARG, w') /\
    poolUsedCount (mAllocators (this w')) = 0 /\
    exists a e,
      calls w' =
        [ CallTryAllocateMemory (ResourceAllocatorOfType DEFAULT_ALL) 65536 65536
            false false false (Some a);
          e;
          CallDeallocateMemory (ResourceAllocatorOfType DEFAULT_ALL) a ].
Proof.
  eexists. split.
  - eapply TryAllocateResource_deallocates_on_failure.
    + discriminate.
    + right. vm_compute. discriminate.
    + reflexivity.
    + reflexivity.
    + reflexivity.
  - split; [reflexivity |]. eexists _, _. reflexivity.
Defined.

Lemma resource_allocator_receives_swapped_flags_witness :
  let w' :=
    result_world
      (CreateResourceInternal (default_heap ALLOCATION_FLAG_ALWAYS_PREFETCH_MEMORY)
         (buffer_desc 65536) D3D12_RESOURCE_STATE_GENERIC_READ None
         pooling_world)
      pooling_world in
  (exists a l,
     new_calls pooling_world w' =
       CallTryAllocateMemory (ResourceAllocatorOfType DEFAULT_ALL) 65536 65536
         false true false (Some a) :: l) /\
  Forall (resource_allocator_flags true false) (new_calls pooling_world w').
Proof.
  intros w'. split.
  - eexists _, _. reflexivity.
  - change (Forall
              (resource_allocator_flags
                 (prefetchMemory_of
                    (default_heap ALLOCATION_FLAG_ALWAYS_PREFETCH_MEMORY))
                 false)
              (new_calls pooling_world w')).
    apply (resource_allocator_receives_swapped_flags
             (default_heap ALLOCATION_FLAG_ALWAYS_PREFETCH_MEMORY)
             (buffer_desc 65536) D3D12_RESOURCE_STATE_GENERIC_READ None
             pooling_world (hr := S_OK)).
    reflexivity.
Defined.


(** On the reference instance the offset recorded on a committed allocation
    is [2^64 - 1], not 0. *)
Lemma committed_allocation_offset_is_not_zero :
  exists w' r,
    CreateResourceInternal (default_heap 0) (buffer_desc 65536)
      D3D12_RESOURCE_STATE_GENERIC_READ None committed_world = Some (S_OK, w') /\
    existsb is_CallCreateCommittedResource (new_calls committed_world w') = true /\
    resourceAllocationOut w' = Some r /\
    GetMethod (base r) = kStandalone /\
    GetOffset (base r) <> 0.
Proof.
  eexists _, _. split; [vm_compute; reflexivity |].
  split; [reflexivity |]. split; [reflexivity |]. split; [reflexivity |].
  vm_compute. discriminate.
Defined.

Lemma committed_allocation_is_standalone_witness :
  let w' :=
    result_world
      (CreateResourceInternal (default_heap 0) (buffer_desc 65536)
         D3D12_RESOURCE_STATE_GENERIC_READ None committed_world)
      committed_world in
  exists r, resourceAllocationOut w' = Some r /\
            committed_allocation 65536 r.
Proof.
  intros w'.
  exact (committed_allocation_is_standalone
           (default_heap 0) (buffer_desc 65536)
           D3D12_RESOURCE_STATE_GENERIC_READ None committed_world
           (hr := S_OK) (w' := w') eq_refl eq_refl eq_refl).
Defined.

Lemma CreateCommittedResource_evicts_first_witness :
  exists result w' l,
    CreateCommittedResource D3D12_HEAP_TYPE_DEFAULT
      D3D12_HEAP_FLAG_ALLOW_ALL_BUFFERS_AND_TEXTURES 65536 (buffer_desc 65536)
      None D3D12_RESOURCE_STATE_GENERIC_READ tight_budget_world
    = Some (result, w') /\
    calls w' =
      calls tight_budget_world ++
      CallEvict 65536 DXGI_MEMORY_SEGMENT_GROUP_LOCAL E_OUTOFMEMORY :: l /\
    (FAILED E_OUTOFMEMORY = true ->
     result = (E_OUTOFMEMORY, None) /\ l = [] /\
     mDevice (this w') = mDevice (this tight_budget_world)).
Proof.
  exact (CreateCommittedResource_evicts_first D3D12_HEAP_TYPE_DEFAULT
           D3D12_HEAP_FLAG_ALLOW_ALL_BUFFERS_AND_TEXTURES 65536
           (buffer_desc 65536) None D3D12_RESOURCE_STATE_GENERIC_READ
           tight_budget_world
           (residency := {| budgetLimit := 1000; budgetUsed := 0 |})
           eq_refl eq_refl).
Defined.

Lemma oversized_request_is_out_of_memory_witness :
  CreateResourceInternal (default_heap 0) (buffer_desc (2 ^ 33))
    D3D12_RESOURCE_STATE_GENERIC_READ None pooling_world
  = Some (E_OUTOFMEMORY, pooling_world) /\
  CreateResource true (default_heap 0) (buffer_desc (2 ^ 33))
    D3D12_RESOURCE_STATE_GENERIC_READ None pooling_world
  = Some (E_OUTOFMEMORY, pooling_world).
Proof.
  exact (oversized_request_is_out_of_memory (default_heap 0)
           (buffer_desc (2 ^ 33)) D3D12_RESOURCE_STATE_GENERIC_READ None
           pooling_world (or_introl eq_refl)).
Defined.

Lemma zero_size_is_out_of_memory_witness :
  SizeInBytes (request_info pooling_world (texture_desc 0)) = kInvalidSize /\
  CreateResourceInternal (default_heap 0) (texture_desc 0)
    D3D12_RESOURCE_STATE_GENERIC_READ None pooling_world
  = Some (E_OUTOFMEMORY, pooling_world) /\
  CreateResource true (default_heap 0) (texture_desc 0)
    D3D12_RESOURCE_STATE_GENERIC_READ None pooling_world
  = Some (E_OUTOFMEMORY, pooling_world).
Proof.
  exact (zero_size_is_out_of_memory (default_heap 0) (texture_desc 0)
           D3D12_RESOURCE_STATE_GENERIC_READ None pooling_world
           (reported := {| SizeInBytes := 0; InfoAlignment := 65536 |})
           eq_refl eq_refl).
Defined.

Lemma committed_round_trip_witness :
  exists w1 r1 r2,
    committed_allocations committed_world [r1; r2] w1 /\
    UsedMemoryCount (mInfo (this w1)) = 2 /\
    UsedMemoryUsage (mInfo (this w1)) = 196608 /\
    exists w2,
      DeallocateAll [r2; r1] w1 = Some (tt, w2) /\
      mInfo (this w2) = mInfo (this committed_world) /\
      UsedBlockUsage (mInfo (this w1)) =
        UsedBlockUsage (mInfo (this committed_world)) /\
      (mIsAlwaysCommitted (this committed_world) = true ->
       QueryInfo (this w2) = QueryInfo (this committed_world)).
Proof.
  assert (Hallocs : exists w1 r1 r2,
            committed_allocations committed_world [r1; r2] w1 /\
            UsedMemoryCount (mInfo (this w1)) = 2 /\
            UsedMemoryUsage (mInfo (this w1)) = 196608).
  { eexists _, _, _. split.
    - eapply committed_cons
        with (ad := default_heap 0) (rd := buffer_desc 65536)
             (st := D3D12_RESOURCE_STATE_GENERIC_READ) (cv := None);
        [vm_compute; reflexivity | reflexivity | reflexivity |].
      eapply committed_cons
        with (ad := default_heap 0) (rd := buffer_desc 131072)
             (st := D3D12_RESOURCE_STATE_GENERIC_READ) (cv := None);
        [vm_compute; reflexivity | reflexivity | reflexivity |].
      apply committed_nil.
    - split; reflexivity. }
  destruct Hallocs as (w1 & r1 & r2 & Hallocs & Hcount & Husage).
  exists w1, r1, r2.
  split; [exact Hallocs |]. split; [exact Hcount |]. split; [exact Husage |].
  apply (committed_round_trip (w := committed_world) (w1 := w1)
           (allocations := [r1; r2]) (order := [r2; r1])).
  - unfold info_in_range. cbn. lia.
  - exact Hallocs.
  - apply perm_swap.
Defined.


Lemma request_evicts_before_committing_witness :
  let w' :=
    result_world
      (CreateResourceInternal (default_heap 0) (buffer_desc 65536)
         D3D12_RESOURCE_STATE_GENERIC_READ None tight_budget_world)
      tight_budget_world in
  Forall (attempt_call false false) (new_calls tight_budget_world w') \/
  exists attempts group hrEvict l,
    new_calls tight_budget_world w' =
      attempts ++ CallEvict 65536 group hrEvict :: l /\
    Forall (attempt_call false false) attempts /\
    (FAILED hrEvict = true -> l = [] /\ E_OUTOFMEMORY = hrEvict).
Proof.
  intros w'.
  exact (request_evicts_before_committing
           (default_heap 0) (buffer_desc 65536)
           D3D12_RESOURCE_STATE_GENERIC_READ None tight_budget_world
           (hr := E_OUTOFMEMORY) (w' := w') eq_refl eq_refl eq_refl).
Defined.

Lemma successful_request_keeps_one_allocation_witness :
  let w' :=
    result_world
      (CreateResourceInternal (default_heap 0) (buffer_desc 65536)
         D3D12_RESOURCE_STATE_GENERIC_READ None pooling_world)
      pooling_world in
  S_OK = S_OK /\
  exists r,
    resourceAllocationOut w' = Some r /\
    ((committed_allocation 65536 r /\
      obtained (new_calls pooling_world w') =
        handed_back (new_calls pooling_world w')) \/
     (exists allocator a,
        obtained (new_calls pooling_world w') =
          handed_back (new_calls pooling_world w') ++ [(allocator, a)] /\
        records r a /\
        mInfo (this w') = mInfo (this pooling_world))).
Proof.
  intros w'.
  exact (successful_request_keeps_one_allocation
           (default_heap 0) (buffer_desc 65536)
           D3D12_RESOURCE_STATE_GENERIC_READ None pooling_world
           (hr := S_OK) (w' := w') eq_refl eq_refl).
Defined.

Lemma failed_request_leaves_nothing_witness :
  let w' :=
    result_world
      (CreateResourceInternal (default_heap 0) (buffer_desc 65536)
         D3D12_RESOURCE_STATE_GENERIC_READ None broken_world)
      broken_world in
  mInfo (this w') = mInfo (this broken_world) /\
  resourceAllocationOut w' = resourceAllocationOut broken_world /\
  obtained (new_calls broken_world w') =
    handed_back (new_calls broken_world w').
Proof.
  intros w'.
  exact (failed_request_leaves_nothing
           (default_heap 0) (buffer_desc 65536)
           D3D12_RESOURCE_STATE_GENERIC_READ None broken_world
           (hr := E_OUTOFMEMORY) (w' := w') eq_refl eq_refl).
Defined.

Lemma allocators_are_tried_once_in_order_witness :
  let w' :=
    result_world
      (CreateResourceInternal (default_heap 0) (buffer_desc 65536)
         D3D12_RESOURCE_STATE_GENERIC_READ None broken_world)
      broken_world in
  exists within suballocated heap last_resort,
    new_calls broken_world w' =
      within ++ suballocated ++ heap ++ last_resort /\
    attempted
      (within_guard broken_world (default_heap 0) (buffer_desc 65536)
         D3D12_RESOURCE_STATE_GENERIC_READ)
      (BufferAllocatorOfType DEFAULT_ALL) within /\
    attempted (suballocate_guard broken_world (default_heap 0))
      (ResourceAllocatorOfType DEFAULT_ALL) suballocated /\
    attempted (heap_guard broken_world)
      (ResourceHeapAllocatorOfType DEFAULT_ALL) heap /\
    Forall committed_call last_resort /\
    (last_resort <> [] ->
     neverAllocate_of (default_heap 0) = false /\
     obtained (within ++ suballocated ++ heap) =
       handed_back (within ++ suballocated ++ heap)).
Proof.
  intros w'.
  exact (allocators_are_tried_once_in_order
           (default_heap 0) (buffer_desc 65536)
           D3D12_RESOURCE_STATE_GENERIC_READ None broken_world
           (hr := E_OUTOFMEMORY) (w' := w') eq_refl).
Defined.

Lemma always_committed_asks_no_allocator_witness :
  let w' :=
    result_world
      (CreateResourceInternal (default_heap 0) (buffer_desc 65536)
         D3D12_RESOURCE_STATE_GENERIC_READ None committed_world)
      committed_world in
  Forall committed_call (new_calls committed_world w') /\
  mAllocators (this w') = mAllocators (this committed_world).
Proof.
  intros w'.
  exact (always_committed_asks_no_allocator
           (default_heap 0) (buffer_desc 65536)
           D3D12_RESOURCE_STATE_GENERIC_READ None committed_world
           (hr := S_OK) (w' := w') eq_refl eq_refl).
Defined.

Lemma never_suballocate_asks_heap_allocator_only_witness :
  let ad := default_heap ALLOCATION_FLAG_NEVER_SUBALLOCATE_MEMORY in
  let w' :=
    result_world
      (CreateResourceInternal ad (buffer_desc 65536)
         D3D12_RESOURCE_STATE_GENERIC_READ None pooling_world)
      pooling_world in
  Forall (only_allocator (ResourceHeapAllocatorOfType DEFAULT_ALL))
         (new_calls pooling_world w').
Proof.
  intros ad w'.
  exact (never_suballocate_asks_heap_allocator_only
           ad (buffer_desc 65536)
           D3D12_RESOURCE_STATE_GENERIC_READ None pooling_world
           (hr := S_OK) (w' := w') eq_refl eq_refl).
Defined.

Lemma request_asks_for_its_size_witness :
  let w' :=
    result_world
      (CreateResourceInternal (default_heap 0) (buffer_desc 65536)
         D3D12_RESOURCE_STATE_GENERIC_READ None broken_world)
      broken_world in
  Forall (sized_call broken_world (buffer_desc 65536))
         (new_calls broken_world w').
Proof.
  intros w'.
  exact (request_asks_for_its_size
           (default_heap 0) (buffer_desc 65536)
           D3D12_RESOURCE_STATE_GENERIC_READ None broken_world
           (hr := E_OUTOFMEMORY) (w' := w') eq_refl).
Defined.

Lemma committed_resource_is_created_without_heap_flags_witness :
  let w' :=
    result_world
      (CreateResourceInternal (default_heap 0) (buffer_desc 65536)
         D3D12_RESOURCE_STATE_GENERIC_READ None committed_world)
      committed_world in
  Forall (created_as D3D12_HEAP_TYPE_DEFAULT D3D12_HEAP_FLAG_NONE)
         (new_calls committed_world w').
Proof.
  intros w'.
  exact (committed_resource_is_created_without_heap_flags
           (default_heap 0) (buffer_desc 65536)
           D3D12_RESOURCE_STATE_GENERIC_READ None committed_world
           (hr := S_OK) (w' := w') eq_refl).
Defined.

Lemma resource_heap_type_suits_request_witness :
  let t :=
    GetResourceHeapType D3D12_RESOURCE_DIMENSION_TEXTURE2D
      D3D12_HEAP_TYPE_DEFAULT D3D12_RESOURCE_FLAG_ALLOW_RENDER_TARGET
      D3D12_RESOURCE_HEAP_TIER_1 in
  GetHeapType t = D3D12_HEAP_TYPE_DEFAULT /\
  (D3D12_RESOURCE_HEAP_TIER_2 <= D3D12_RESOURCE_HEAP_TIER_1 ->
   denied_categories (GetHeapFlags t) = 0%nat) /\
  (D3D12_RESOURCE_HEAP_TIER_1 < D3D12_RESOURCE_HEAP_TIER_2 ->
   heap_accepts (GetHeapFlags t) D3D12_RESOURCE_DIMENSION_TEXTURE2D
     D3D12_RESOURCE_FLAG_ALLOW_RENDER_TARGET = true /\
   denied_categories (GetHeapFlags t) = 2%nat).
Proof.
  intros t.
  apply (resource_heap_type_suits_request
           D3D12_RESOURCE_DIMENSION_TEXTURE2D D3D12_HEAP_TYPE_DEFAULT
           D3D12_RESOURCE_FLAG_ALLOW_RENDER_TARGET D3D12_RESOURCE_HEAP_TIER_1).
  vm_compute. discriminate.
Defined.

Lemma unsupported_request_is_invalid_argument_witness :
  CreateResourceInternal custom_heap (buffer_desc 65536)
    D3D12_RESOURCE_STATE_GENERIC_READ None pooling_world
  = Some (E_INVALIDARG, pooling_world) /\
  CreateResource true custom_heap (buffer_desc 65536)
    D3D12_RESOURCE_STATE_GENERIC_READ None pooling_world
  = Some (E_INVALIDARG, pooling_world).
Proof.
  apply (unsupported_request_is_invalid_argument
           custom_heap (rd := buffer_desc 65536)
           D3D12_RESOURCE_STATE_GENERIC_READ None (w := pooling_world)).
  - vm_compute. intros [H | [H | H]]; discriminate H.
  - vm_compute. auto.
Defined.

Lemma CreateResource_writes_the_out_slot_on_success_witness :
  let w' :=
    result_world
      (CreateResource true (default_heap 0) (buffer_desc 65536)
         D3D12_RESOURCE_STATE_GENERIC_READ None pooling_world)
      pooling_world in
  (true = false /\ S_OK = E_POINTER /\ w' = pooling_world) \/
  (true = true /\ S_OK = S_OK /\
   exists r, resourceAllocationOut w' = Some r) \/
  (true = true /\ FAILED S_OK = true /\
   resourceAllocationOut w' = resourceAllocationOut pooling_world /\
   mInfo (this w') = mInfo (this pooling_world)).
Proof.
  intros w'.
  exact (CreateResource_writes_the_out_slot_on_success
           true (default_heap 0) (buffer_desc 65536)
           D3D12_RESOURCE_STATE_GENERIC_READ None pooling_world
           (hr := S_OK) (w' := w') eq_refl).
Defined.

Lemma released_import_is_uncounted_witness :
  exists w1 r self' w2,
    CreateResource_imported true (Some 3) pooling_world = Some (S_OK, w1) /\
    resourceAllocationOut w1 = Some r /\
    ReleaseThis (Some r) w1 = Some (self', w2) /\
    exists size,
      GetSize (base r) = Some size /\
      mInfo (this w2) = info_sub_memory (mInfo (this pooling_world)) size /\
      UsedMemoryCount (mInfo (this w2)) =
        wrap kCountBits (UsedMemoryCount (mInfo (this pooling_world)) - 1).
Proof.
  assert (Hrun : exists w1 r self' w2,
            CreateResource_imported true (Some 3) pooling_world
              = Some (S_OK, w1) /\
            resourceAllocationOut w1 = Some r /\
            ReleaseThis (Some r) w1 = Some (self', w2)).
  { eexists _, _, _, _.
    split; [vm_compute; reflexivity |].
    split; [reflexivity |]. vm_compute. reflexivity. }
  destruct Hrun as (w1 & r & self' & w2 & Himport & Hout & Hrelease).
  exists w1, r, self', w2.
  split; [exact Himport |]. split; [exact Hout |].
  split; [exact Hrelease |].
  exact (released_import_is_uncounted (Some 3) pooling_world
           Himport Hout Hrelease).
Defined.

Lemma Map_locks_before_mapping_witness :
  let w' :=
    result_world (Map managed_allocation 0 None managed_world)
                 managed_world in
  match GetMemory (base managed_allocation) with
  | None => S_OK = E_INVALIDARG /\ w' = managed_world
  | Some heap =>
      match raResidencyManager managed_allocation with
      | Some _ =>
          exists r,
            mResidencyManager (this managed_world) = Some r /\
            new_calls managed_world w' = [CallLockHeap heap] /\
            mResidencyManager (this w') = Some (LockHeap heap r) /\
            if FAILED (LockHeapResult heap r)
            then S_OK = LockHeapResult heap r /\
                 mDevice (this w') = mDevice (this managed_world)
            else exists res,
                   mResource managed_allocation = Some res /\
                   (S_OK, mDevice (this w')) =
                     ResourceMap res 0 None (mDevice (this managed_world))
      | None =>
          new_calls managed_world w' = [] /\
          exists res,
            mResource managed_allocation = Some res /\
            (S_OK, mDevice (this w')) =
              ResourceMap res 0 None (mDevice (this managed_world))
      end
  end.
Proof.
  intros w'.
  exact (Map_locks_before_mapping managed_allocation 0 None managed_world
           (hr := S_OK) (w' := w') eq_refl).
Defined.

Lemma Map_then_Unmap_balances_the_lock_witness :
  let heap :=
    {| mPageable := None;
       mMemorySegmentGroup := DXGI_MEMORY_SEGMENT_GROUP_LOCAL;
       mSize := 65536 |} in
  let w1 :=
    result_world (Map managed_allocation 0 None managed_world)
                 managed_world in
  let w2 := result_world (Unmap managed_allocation 0 None w1) w1 in
  new_calls managed_world w2 =
    match raResidencyManager managed_allocation with
    | Some _ => [CallLockHeap heap; CallUnlockHeap heap]
    | None => []
    end /\
  mResidencyManager (this w2) =
    match raResidencyManager managed_allocation with
    | Some _ =>
        option_map (fun r => UnlockHeap heap (LockHeap heap r))
                   (mResidencyManager (this managed_world))
    | None => mResidencyManager (this managed_world)
    end.
Proof.
  intros heap w1 w2.
  exact (Map_then_Unmap_balances_the_lock managed_allocation 0 None
           managed_world (w1 := w1) (w2 := w2) (hr := S_OK)
           (heap := heap) eq_refl eq_refl eq_refl eq_refl).
Defined.

Lemma no_residency_manager_no_residency_call_witness :
  let ad := default_heap 0 in
  let w' :=
    result_world
      (CreateResourceInternal ad (buffer_desc 65536)
         D3D12_RESOURCE_STATE_GENERIC_READ None broken_world)
      broken_world in
  Forall (fun c => ~ residency_call c) (new_calls broken_world w') /\
  has_ResidencyManager (this w') = false.
Proof.
  intros ad w'.
  exact (no_residency_manager_no_residency_call
           ad (buffer_desc 65536)
           D3D12_RESOURCE_STATE_GENERIC_READ None broken_world
           (hr := E_OUTOFMEMORY) (w' := w') eq_refl eq_refl).
Defined.

Lemma CreateCaps_sizes_witness :
  Caps.CreateCaps (D := SimpleDevice) CheckFeatureSupport AdapterGetDesc
    working_device 1 = Some (S_OK, Some sample_caps).
Proof.
  destruct (@CapsFacts.CreateCaps_sizes SimpleDevice
              (@CheckFeatureSupport _ _ _ _ simple_Platform)
              (@AdapterGetDesc _ _ _ _ simple_Platform)
              working_device 1 S_OK sample_feature
              eq_refl eq_refl eq_refl) as [Hsizes _].
  apply Hsizes; cbn; lia.
Defined.

Lemma created_allocator_respects_the_limits_witness :
  exists adapter device caps,
    AllocatorDesc.Adapter sample_descriptor = Some adapter /\
    AllocatorDesc.Device sample_descriptor = Some device /\
    Caps.CreateCaps CheckFeatureSupport AdapterGetDesc device adapter
      = Some (S_OK, Some caps) /\
    mCapsMaxResourceSize (this created_world) = Caps.GetMaxResourceSize caps /\
    mMaxResourceHeapSize (this created_world)
      <= Caps.GetMaxResourceHeapSize caps /\
    (0 < AllocatorDesc.MaxResourceHeapSize sample_descriptor ->
     mMaxResourceHeapSize (this created_world)
       <= AllocatorDesc.MaxResourceHeapSize sample_descriptor) /\
    (if 0 <? AllocatorDesc.PreferredResourceHeapSize sample_descriptor
     then AllocatorDesc.PreferredResourceHeapSize sample_descriptor
     else kDefaultPreferredResourceHeapSize)
      <= mMaxResourceHeapSize (this created_world) /\
    (false = false -> mResidencyManager (this created_world) = None).
Proof.
  exact (created_allocator_respects_the_limits sample_descriptor false
           (allocator := this created_world) eq_refl).
Defined.

Lemma created_allocator_refuses_oversized_requests_witness :
  CreateResourceInternal (default_heap 0) (buffer_desc (2 ^ 31))
    D3D12_RESOURCE_STATE_GENERIC_READ None created_world
  = Some (E_OUTOFMEMORY, created_world).
Proof.
  apply (created_allocator_refuses_oversized_requests sample_descriptor false
           created_world (default_heap 0) (buffer_desc (2 ^ 31))
           D3D12_RESOURCE_STATE_GENERIC_READ None
           (adapter := 1) (device := working_device) (caps := sample_caps)).
  - reflexivity.
  - reflexivity.
  - reflexivity.
  - reflexivity.
  - left. vm_compute. split; reflexivity.
Defined.

Lemma stacks_of_a_request_create_its_heap_type_witness :
  let stacks :=
    Stacks.BuildAllocators sample_descriptor working_device (@None Budget)
      (GetResourceHeapType D3D12_RESOURCE_DIMENSION_TEXTURE2D
         D3D12_HEAP_TYPE_DEFAULT D3D12_RESOURCE_FLAG_ALLOW_RENDER_TARGET
         D3D12_RESOURCE_HEAP_TIER_1) in
  exists heapFlags state,
    Stacks.innermost (Stacks.mResourceAllocatorOfType stacks) =
      Stacks.ResourceHeapAllocator None working_device
        D3D12_HEAP_TYPE_DEFAULT heapFlags false false /\
    Stacks.innermost (Stacks.mResourceHeapAllocatorOfType stacks) =
      Stacks.innermost (Stacks.mResourceAllocatorOfType stacks) /\
    (D3D12_RESOURCE_HEAP_TIER_1 < D3D12_RESOURCE_HEAP_TIER_2 ->
     heap_accepts heapFlags D3D12_RESOURCE_DIMENSION_TEXTURE2D
       D3D12_RESOURCE_FLAG_ALLOW_RENDER_TARGET = true) /\
    GetInitialResourceState D3D12_HEAP_TYPE_DEFAULT = Some state /\
    Stacks.innermost (Stacks.mBufferAllocatorOfType stacks) =
      Stacks.BufferAllocator (R := Budget) (D := SimpleDevice)
        D3D12_HEAP_TYPE_DEFAULT D3D12_RESOURCE_FLAG_NONE (Some state)
        D3D12_DEFAULT_RESOURCE_PLACEMENT_ALIGNMENT
        D3D12_DEFAULT_RESOURCE_PLACEMENT_ALIGNMENT.
Proof.
  apply (StacksFacts.stacks_of_a_request_create_its_heap_type
           sample_descriptor working_device (@None Budget)
           D3D12_RESOURCE_DIMENSION_TEXTURE2D D3D12_HEAP_TYPE_DEFAULT
           D3D12_RESOURCE_FLAG_ALLOW_RENDER_TARGET
           D3D12_RESOURCE_HEAP_TIER_1).
  vm_compute. discriminate.
Defined.

Module TraceSampleFacts.
Import EventTrace TraceSample.

Lemma second_flush_writes_nothing_witness :
  let self := enqueued sample_events in
  let self' :=
    match FlushQueuedEventsToDisk self with
    | Some self' => self'
    | None => self
    end in
  FlushQueuedEventsToDisk self' = Some self'.
Proof.
  intros self self'.
  exact (EventTraceFacts.second_flush_writes_nothing self
           (self' := self') eq_refl).
Defined.

Lemma flush_of_skipped_events_writes_an_empty_trace_witness :
  let self := enqueued instant_events in
  FlushQueuedEventsToDisk self =
    Some (write (mTraceFile self) (traceData [])
            (with_buffers (cleared (mBufferPerThread self)) self)).
Proof.
  intros self.
  apply (@EventTraceFacts.flush_of_skipped_events_writes_an_empty_trace
           _ self).
  - vm_compute. discriminate.
  - vm_compute. reflexivity.
Defined.


End TraceSampleFacts.
